(** * The growth-coin engine: ledger, reward calculator, decay rule engine

    A shallow embedding of
      - [backend/src/services/CoinService.ts]  (classes [CoinService] and
        [CoinCalculationEngine]),
      - [backend/src/services/CoinDecayService.ts],
      - [backend/src/models/LearningSession.ts] ([LearningSessionModel.create],
        [.update], [.delete]),
      - the handlers of [backend/src/controllers] that call them, with
        [backend/src/middleware/error.ts] behind them,
    together with the tables of [backend/database/migrations] they query.

    Conventions of the embedding.
      - A TypeScript [number] is the rational it denotes ([Q]); equality of
        numbers is [Qeq] ([==]) and [Math.floor] is [Qfloor].  The coins
        are whole numbers far below 2^53, on which sums, differences and
        comparisons of doubles are exact, and [minutes / 30] is only ever
        floored, which rounding cannot change on whole minutes.  A product
        with a coefficient or a rate is not exact: [Js.mul] rounds it to
        the nearest double ([F64.round]).
      - A calendar date ('YYYY-MM-DD') is its day number since 1970-01-01 and
        an instant is its number of milliseconds since then ([Z]), both UTC.
      - A table is the list of its rows in insertion order, which is the order
        of [created_at]; a knex query is a [filter] over that list.  Ids are
        uuids; the sample data write them as short names.
      - [async] code runs in the monad [M]: it threads the database and may
        throw.  What was written before a throw stays written.  A call in
        [M] runs from its first [await] to its last with no other call in
        between; what two calls do to each other when they overlap is the
        subject of [Interleaving].
      - The arguments of a service are values of the types its signature
        declares: an amount is a number.
      - A statement PostgreSQL cannot read is rejected ([Knex.whereRaw]).
        What it checks on a row it is given, the [integer] columns and the
        foreign keys, is [Pg.takes_entry] and [Pg.takes_session]: an insert
        or update is modelled for rows that pass, and the properties of
        writes that could be rejected say so. *)

From Stdlib Require Import ZArith QArith Qround Qminmax Qabs Qpower List String.
From Stdlib Require Import Ascii Bool Lia Lqa DecimalString Setoid Morphisms.
Import ListNotations.

Local Open Scope string_scope.
Local Open Scope Z_scope.
Local Open Scope Q_scope.

(* ===================================================================== *)
(** ** Doubles *)
(* ===================================================================== *)

(** IEEE 754 binary64, the one number type of JavaScript: a sign, a
    significand of 53 bits and a power of two.  Subnormals and overflow are
    left out: the magnitudes the engine multiplies lie between 2^-1022 and
    2^1024. *)
Module F64.

Definition pow2 (e : Z) : Q := Qpower 2 e.

(** The nearest whole number, a half going to the even neighbour. *)
Definition round_half_even (x : Q) : Z :=
  let f := Qfloor x in
  match Qcompare (x - inject_Z f) (1 # 2) with
  | Lt => f
  | Gt => (f + 1)%Z
  | Eq => if Z.even f then f else (f + 1)%Z
  end.

(** For [x] other than 0, the [e] with [2^52 <= |x| / 2^e < 2^53]: the
    significand of [x] is [|x| / 2^e], rounded. *)
Definition exponent (x : Q) : Z :=
  let e0 := (Z.log2 (Z.abs (Qnum x)) - Z.log2 (Zpos (Qden x)) - 52)%Z in
  if Qle_bool (pow2 52) (Qabs x / pow2 e0) then e0 else (e0 - 1)%Z.

(** The double nearest to [x], ties to the even significand. *)
Definition round (x : Q) : Q :=
  if Qeq_bool x 0 then 0
  else
    let e := exponent x in
    let m := inject_Z (round_half_even (Qabs x / pow2 e)) * pow2 e in
    if Qle_bool 0 x then m else - m.

End F64.

(* ===================================================================== *)
(** ** JavaScript numbers *)
(* ===================================================================== *)

Module Js.

Definition number := Q.

(** [Math.floor] *)
Definition floor (x : number) : number := inject_Z (Qfloor x).

(** [x * y]: each operand is taken as a double (a number is one already; a
    [decimal] column arrives as its text and becomes the nearest double)
    and the product is rounded. *)
Definition mul (x y : number) : number := F64.round (F64.round x * F64.round y).

(** [x < y], [x > y], [x >= y] *)
Definition lt (x y : number) : bool := negb (Qle_bool y x).
Definition gt (x y : number) : bool := lt y x.
Definition ge (x y : number) : bool := Qle_bool y x.

(** [Math.min(x, y)] *)
Definition min (x y : number) : number := Qmin x y.

(** [x || y] on numbers: [0] is the falsy one. *)
Definition or_else (x y : number) : number := if Qeq_bool x 0 then y else x.

(** Rendering inside a template string.  Every number the code renders is
    integral (a floor, a sum of integers or a day count). *)
Definition toString (x : number) : string :=
  NilZero.string_of_int (Z.to_int (Qfloor x)).

(** JSON values, for the [metadata] columns. *)
#[warnings="-register-all"]
Inductive Json :=
| JNull
| JBool (b : bool)
| JNum (x : number)
| JStr (s : string)
| JArr (items : list Json)
| JObj (fields : list (string * Json)).

Fixpoint assoc {A} (k : string) (l : list (string * A)) : option A :=
  match l with
  | [] => None
  | (k', v) :: l' => if String.eqb k k' then Some v else assoc k l'
  end.

(** PostgreSQL's [metadata->>key]: the field as text.  The code only ever
    compares scalar fields. *)
Definition json_text (md : Json) (key : string) : option string :=
  match md with
  | JObj fields =>
      match assoc key fields with
      | Some (JStr s) => Some s
      | Some (JBool true) => Some "true"
      | Some (JBool false) => Some "false"
      | Some (JNum x) => Some (toString x)
      | _ => None
      end
  | _ => None
  end.

Definition text_is (t : option string) (s : string) : bool :=
  match t with
  | Some s' => String.eqb s' s
  | None => false
  end.

(** [a === b] on nullable strings *)
Definition opt_eqb (a b : option string) : bool :=
  match a, b with
  | Some x, Some y => String.eqb x y
  | None, None => true
  | _, _ => false
  end.

End Js.

(* ===================================================================== *)
(** ** Tables *)
(* ===================================================================== *)

Definition MS_PER_DAY : Z := (1000 * 60 * 60 * 24)%Z.

Inductive ChangeType := earned | decayed | redeemed | bonus | penalty.

Definition ChangeType_eqb (a b : ChangeType) : bool :=
  match a, b with
  | earned, earned | decayed, decayed | redeemed, redeemed
  | bonus, bonus | penalty, penalty => true
  | _, _ => false
  end.

(** [coin_ledger] (migration 005).  [ledger_id] is a fresh uuid and
    [created_at] the insertion instant: the position of the row in the list
    stands for both. *)
Module Ledger.
Record entry := {
  user_id : string;
  change_type : ChangeType;
  amount : Js.number;
  balance_after : Js.number;
  source_type : string;
  reference_id : string;
  description : string;
  metadata : Js.Json
}.
End Ledger.

Inductive SessionStatus := completed | partial | cancelled.

Definition is_completed (s : SessionStatus) : bool :=
  match s with completed => true | _ => false end.

(** [learning_sessions] (migration 004), interface [LearningSession];
    [updated_at] is left out. *)
Module Session.
Record row := {
  session_id : string;
  user_id : string;
  task_id : string;
  difficulty_id : string;
  session_date : Z;
  focus_time_minutes : Js.number;
  result_quantity : Js.number;
  focus_coins : Js.number;
  result_coins : Js.number;
  total_coins : Js.number;
  notes : option string;
  metadata : Js.Json;
  status : SessionStatus;
  created_at : Z
}.
End Session.

(** [task_definitions], the columns the engine reads. *)
Module Task.
Record row := {
  task_id : string;
  subject : option string;
  task_type : option string;
  base_coin : Js.number;
  is_active : bool
}.
End Task.

(** [difficulties] (migration 003), the columns the engine reads. *)
Module Difficulty.
Record row := {
  difficulty_id : string;
  label : string;
  coefficient : Js.number;
  is_active : bool
}.
End Difficulty.

(** [users] (migration 001), the columns the decay engine reads. *)
Module User.
Record row := {
  user_id : string;
  status : string;
  last_login_at : option Z
}.
End User.

Inductive DecayType := percentage | fixed.
Inductive AppliesTo := applies_all | applies_subject | applies_task_type.

(** [coin_decay_rules] (migration 010), interface [DecayRule]. *)
Module DecayRule.
Record row := {
  rule_id : string;
  name : string;
  description : option string;
  threshold_days : Z;
  decay_rate : Js.number;
  decay_type : DecayType;
  applies_to : AppliesTo;
  scope_value : option string;
  is_active : bool;
  priority : Z;
  metadata : Js.Json
}.
End DecayRule.

Record DB := {
  users : list User.row;
  task_definitions : list Task.row;
  difficulties : list Difficulty.row;
  learning_sessions : list Session.row;
  coin_decay_rules : list DecayRule.row;
  coin_ledger : list Ledger.entry
}.

Definition empty_db : DB :=
  {| users := []; task_definitions := []; difficulties := [];
     learning_sessions := []; coin_decay_rules := []; coin_ledger := [] |}.

Definition with_ledger (db : DB) (l : list Ledger.entry) : DB :=
  {| users := users db; task_definitions := task_definitions db;
     difficulties := difficulties db; learning_sessions := learning_sessions db;
     coin_decay_rules := coin_decay_rules db; coin_ledger := l |}.

Definition with_sessions (db : DB) (l : list Session.row) : DB :=
  {| users := users db; task_definitions := task_definitions db;
     difficulties := difficulties db; learning_sessions := l;
     coin_decay_rules := coin_decay_rules db; coin_ledger := coin_ledger db |}.

(* ===================================================================== *)
(** ** What PostgreSQL accepts *)
(* ===================================================================== *)

Module Pg.

Definition backslash : ascii := ascii_of_nat 92.
Definition quote : ascii := ascii_of_nat 39.
Definition dquote : ascii := ascii_of_nat 34.

Inductive Quoting := outside | in_literal | in_identifier.

(** No token of PostgreSQL begins with a backslash: outside a quoted
    literal and a quoted identifier it is a syntax error. *)
Fixpoint scan (q : Quoting) (sql : string) : bool :=
  match sql with
  | EmptyString => true
  | String c rest =>
      match q with
      | outside =>
          if Ascii.eqb c backslash then false
          else if Ascii.eqb c quote then scan in_literal rest
          else if Ascii.eqb c dquote then scan in_identifier rest
          else scan outside rest
      | in_literal =>
          scan (if Ascii.eqb c quote then outside else in_literal) rest
      | in_identifier =>
          scan (if Ascii.eqb c dquote then outside else in_identifier) rest
      end
  end.

Definition lexes (sql : string) : bool := scan outside sql.

(** The message of the error a rejected statement raises. *)
Definition syntax_error : string :=
  "syntax error at or near " ++ String backslash EmptyString.

(** An [integer] column takes a whole number of 32 bits. *)
Definition int4 (x : Js.number) : bool :=
  Qeq_bool x (inject_Z (Qfloor x))
  && Qle_bool (-2147483648) x
  && Qle_bool x 2147483647.

Definition known_user (userId : string) (db : DB) : bool :=
  existsb (fun u => String.eqb (User.user_id u) userId) (users db).

(** The checks of [coin_ledger] (migration 005) on a row: [user_id]
    references [users]; [amount] and [balance_after] are [integer]. *)
Definition takes_entry (db : DB) (e : Ledger.entry) : bool :=
  known_user (Ledger.user_id e) db
  && int4 (Ledger.amount e)
  && int4 (Ledger.balance_after e).

(** The checks of [learning_sessions] (migration 004) on a row: the three
    foreign keys and the five [integer] columns. *)
Definition takes_session (db : DB) (s : Session.row) : bool :=
  known_user (Session.user_id s) db
  && existsb (fun t => String.eqb (Task.task_id t) (Session.task_id s))
       (task_definitions db)
  && existsb (fun d => String.eqb (Difficulty.difficulty_id d)
                         (Session.difficulty_id s))
       (difficulties db)
  && int4 (Session.focus_time_minutes s)
  && int4 (Session.result_quantity s)
  && int4 (Session.focus_coins s)
  && int4 (Session.result_coins s)
  && int4 (Session.total_coins s).

End Pg.

(* ===================================================================== *)
(** ** The monad of asynchronous database code *)
(* ===================================================================== *)

Inductive Outcome (A : Type) :=
| Returned (a : A)
| Thrown (msg : string).
Arguments Returned {A} a.
Arguments Thrown {A} msg.

Definition M (A : Type) : Type := DB -> Outcome A * DB.

Definition ret {A} (a : A) : M A := fun db => (Returned a, db).

Definition throw {A} (msg : string) : M A := fun db => (Thrown msg, db).

Definition bind {A B} (m : M A) (k : A -> M B) : M B :=
  fun db =>
    match m db with
    | (Returned a, db') => k a db'
    | (Thrown msg, db') => (Thrown msg, db')
    end.

(** [try { m } catch (error) { h(error) }] *)
Definition try_catch {A} (m : M A) (h : string -> M A) : M A :=
  fun db =>
    match m db with
    | (Returned a, db') => (Returned a, db')
    | (Thrown msg, db') => h msg db'
    end.

(** Reading the database. *)
Definition select {A} (q : DB -> A) : M A := fun db => (Returned (q db), db).

Declare Scope monad_scope.
Delimit Scope monad_scope with monad.
Notation "x <- m ;; k" := (bind m (fun x => k))
  (at level 61, m at next level, right associativity) : monad_scope.
Notation "m ;;; k" := (bind m (fun _ => k))
  (at level 61, right associativity) : monad_scope.
Local Open Scope monad_scope.

(** [for (const x of l) { await body(x) }] *)
Fixpoint for_of {A} (l : list A) (body : A -> M unit) : M unit :=
  match l with
  | [] => ret tt
  | x :: l' => body x ;;; for_of l' body
  end.

(** A loop that carries local variables. *)
Fixpoint fold_of {A S} (l : list A) (acc : S) (body : S -> A -> M S) : M S :=
  match l with
  | [] => ret acc
  | x :: l' => acc' <- body acc x ;; fold_of l' acc' body
  end.

(** [if (c) { await m }] *)
Definition when (c : bool) (m : M unit) : M unit := if c then m else ret tt.

Definition run_db {A} (m : M A) (db : DB) : DB := snd (m db).
Definition run_out {A} (m : M A) (db : DB) : Outcome A := fst (m db).

Module Knex.

(** [.whereRaw(sql, bindings)]: the text of [sql] reaches PostgreSQL as it
    is written.  A statement it cannot read rejects the promise; one it can
    read answers with [rows]. *)
Definition whereRaw {A} (sql : string) (rows : DB -> A) : M A :=
  if Pg.lexes sql then select rows else throw Pg.syntax_error.

End Knex.

(* ===================================================================== *)
(** ** [CoinCalculationEngine] (services/CoinService.ts) *)
(* ===================================================================== *)

Module CoinCalculationEngine.

Record Bonus := {
  type : string;
  amount : Js.number;
  reason : string
}.

Module Calc.
Record t := {
  focusTime : Js.number;
  focusRate : Js.number;
  resultQuantity : Js.number;
  baseCoin : Js.number;
  difficultyCoefficient : Js.number;
  bonuses : list Bonus
}.
End Calc.

Record CoinCalculationResult := {
  focusCoins : Js.number;
  resultCoins : Js.number;
  totalCoins : Js.number;
  bonusCoins : Js.number;
  calculations : Calc.t
}.

Record CoinCalculationInput := {
  userId : string;
  taskId : string;
  difficultyId : string;
  focusTimeMinutes : Js.number;
  resultQuantity : Js.number;
  sessionDate : Z
}.

Definition FOCUS_COIN_RATE : Js.number := 30.
Definition MIN_FOCUS_TIME : Js.number := 5.

Definition calculateFocusCoins (focusTimeMinutes : Js.number) : Js.number :=
  if Js.lt focusTimeMinutes MIN_FOCUS_TIME then 0
  else Js.floor (focusTimeMinutes / FOCUS_COIN_RATE).

Definition calculateResultCoins
    (resultQuantity baseCoin difficultyCoefficient : Js.number) : Js.number :=
  Js.floor (Js.mul (Js.mul resultQuantity baseCoin) difficultyCoefficient).

(** The completed sessions of a user. *)
Definition completed_of (userId : string) (s : Session.row) : bool :=
  String.eqb (Session.user_id s) userId && is_completed (Session.status s).

(** [groupBy('session_date').orderBy('session_date', 'desc')]: the distinct
    dates, latest first. *)
Fixpoint insert_desc (d : Z) (l : list Z) : list Z :=
  match l with
  | [] => [d]
  | x :: l' =>
      if (x <? d)%Z then d :: l
      else if (x =? d)%Z then l
      else x :: insert_desc d l'
  end.

Definition distinct_desc (l : list Z) : list Z := fold_right insert_desc [] l.

Definition recentSessions (userId : string) (db : DB) : list Z :=
  firstn 30
    (distinct_desc
       (map Session.session_date
          (filter (completed_of userId) (learning_sessions db)))).

(** The loop of [getConsecutiveLearningDays]: [expectedDate] is [today] minus
    the days counted so far; the first date that is not the expected one
    ends the walk. *)
Fixpoint walk_back (today consecutiveDays : Z) (recent : list Z) : Z :=
  match recent with
  | [] => consecutiveDays
  | sessionDate :: rest =>
      if (sessionDate =? today - consecutiveDays)%Z
      then walk_back today (consecutiveDays + 1)%Z rest
      else consecutiveDays
  end.

Definition getConsecutiveLearningDays (userId : string) (currentDate : Z) : M Z :=
  recent <- select (recentSessions userId) ;;
  if (List.length recent =? 0)%nat then ret 1%Z
  else ret (walk_back currentDate 1%Z recent).

Definition calculateConsecutiveBonus (userId : string) (sessionDate : Z) : M Bonus :=
  consecutiveDays <- getConsecutiveLearningDays userId sessionDate ;;
  let text := "连续学习" ++ Js.toString (inject_Z consecutiveDays) ++ "天奖励" in
  if (consecutiveDays >=? 7)%Z then
    ret {| type := "consecutive"; amount := 10; reason := text |}
  else if (consecutiveDays >=? 3)%Z then
    ret {| type := "consecutive"; amount := 5; reason := text |}
  else
    ret {| type := "consecutive"; amount := 0; reason := "" |}.

Definition calculateFirstTimeBonus (userId taskId : string) : M Bonus :=
  existingSession <-
    select (fun db =>
      hd_error
        (filter (fun s => completed_of userId s
                          && String.eqb (Session.task_id s) taskId)
                (learning_sessions db))) ;;
  match existingSession with
  | None => ret {| type := "first_time"; amount := 5;
                   reason := "首次完成此类任务奖励" |}
  | Some _ => ret {| type := "first_time"; amount := 0; reason := "" |}
  end.

Definition calculateDifficultyBonus (difficultyLabel : string) : Bonus :=
  if String.eqb difficultyLabel "困难" then
    {| type := "difficulty"; amount := 3; reason := "挑战困难题目奖励" |}
  else if String.eqb difficultyLabel "极难" then
    {| type := "difficulty"; amount := 8; reason := "挑战极难题目奖励" |}
  else
    {| type := "difficulty"; amount := 0; reason := "" |}.

(** The query of [calculateDailyGoalBonus]: the completed sessions of the user
    stored for that date. *)
Definition dailySessions (userId : string) (sessionDate : Z) (db : DB) : Z :=
  Z.of_nat
    (List.length
       (filter (fun s => completed_of userId s
                         && (Session.session_date s =? sessionDate)%Z)
               (learning_sessions db))).

Definition calculateDailyGoalBonus (userId : string) (sessionDate : Z) : M Bonus :=
  sessionCount <- select (dailySessions userId sessionDate) ;;
  let dailyGoal := 3%Z in
  if (sessionCount >=? dailyGoal)%Z then
    ret {| type := "daily_goal"; amount := 15; reason := "达成每日学习目标奖励" |}
  else
    ret {| type := "daily_goal"; amount := 0; reason := "" |}.

(** [Date.getDay()]: 0 is Sunday; 1970-01-01 was a Thursday. *)
Definition getDay (date : Z) : Z := ((date + 4) mod 7)%Z.

Definition calculateWeekendBonus (sessionDate : Z) : Bonus :=
  let dayOfWeek := getDay sessionDate in
  if (dayOfWeek =? 0)%Z || (dayOfWeek =? 6)%Z then
    {| type := "weekend"; amount := 2; reason := "周末坚持学习奖励" |}
  else
    {| type := "weekend"; amount := 0; reason := "" |}.

(** [if (b.amount > 0) bonuses.push(b)] *)
Definition push_if_positive (bonuses : list Bonus) (b : Bonus) : list Bonus :=
  if Js.gt (amount b) 0 then bonuses ++ [b] else bonuses.

Definition calculateBonusCoins
    (userId taskId difficultyLabel : string) (sessionDate : Z)
  : M (Js.number * list Bonus) :=
  let bonuses := [] in
  consecutiveBonus <- calculateConsecutiveBonus userId sessionDate ;;
  let bonuses := push_if_positive bonuses consecutiveBonus in
  firstTimeBonus <- calculateFirstTimeBonus userId taskId ;;
  let bonuses := push_if_positive bonuses firstTimeBonus in
  let difficultyBonus := calculateDifficultyBonus difficultyLabel in
  let bonuses := push_if_positive bonuses difficultyBonus in
  dailyGoalBonus <- calculateDailyGoalBonus userId sessionDate ;;
  let bonuses := push_if_positive bonuses dailyGoalBonus in
  let weekendBonus := calculateWeekendBonus sessionDate in
  let bonuses := push_if_positive bonuses weekendBonus in
  let total := fold_left (fun sum b => sum + amount b) bonuses 0 in
  ret (total, bonuses).

Definition calculateCoins (input : CoinCalculationInput) : M CoinCalculationResult :=
  task <-
    select (fun db =>
      hd_error
        (filter (fun t => String.eqb (Task.task_id t) (taskId input)
                          && Task.is_active t)
                (task_definitions db))) ;;
  match task with
  | None => throw "Task not found or inactive"
  | Some task =>
      difficulty <-
        select (fun db =>
          hd_error
            (filter (fun d => String.eqb (Difficulty.difficulty_id d)
                                (difficultyId input)
                              && Difficulty.is_active d)
                    (difficulties db))) ;;
      match difficulty with
      | None => throw "Difficulty not found or inactive"
      | Some difficulty =>
          let focusCoins := calculateFocusCoins (focusTimeMinutes input) in
          let resultCoins :=
            calculateResultCoins (resultQuantity input) (Task.base_coin task)
              (Difficulty.coefficient difficulty) in
          bonusCalculation <-
            calculateBonusCoins (userId input) (taskId input)
              (Difficulty.label difficulty) (sessionDate input) ;;
          let totalCoins := focusCoins + resultCoins + fst bonusCalculation in
          ret {| focusCoins := focusCoins;
                 resultCoins := resultCoins;
                 totalCoins := totalCoins;
                 bonusCoins := fst bonusCalculation;
                 calculations :=
                   {| Calc.focusTime := focusTimeMinutes input;
                      Calc.focusRate := FOCUS_COIN_RATE;
                      Calc.resultQuantity := resultQuantity input;
                      Calc.baseCoin := Task.base_coin task;
                      Calc.difficultyCoefficient := Difficulty.coefficient difficulty;
                      Calc.bonuses := snd bonusCalculation |} |}
      end
  end.

(** [orderBy('created_at', 'desc').first()] over a user's rows. *)
Definition latestRecord (userId : string) (db : DB) : option Ledger.entry :=
  hd_error
    (rev (filter (fun e => String.eqb (Ledger.user_id e) userId) (coin_ledger db))).

Definition getCurrentBalance (userId : string) : M Js.number :=
  latest <- select (latestRecord userId) ;;
  match latest with
  | Some r => ret (Js.or_else (Ledger.balance_after r) 0)
  | None => ret 0
  end.

Definition insert_coin_ledger (e : Ledger.entry) : M unit :=
  fun db => (Returned tt, with_ledger db (coin_ledger db ++ [e])).

Definition recordCoinTransaction
    (userId : string) (amount : Js.number) (changeType : ChangeType)
    (sourceType referenceId description : string) (metadata : Js.Json) : M unit :=
  currentBalance <- getCurrentBalance userId ;;
  let newBalance := currentBalance + amount in
  insert_coin_ledger
    {| Ledger.user_id := userId;
       Ledger.change_type := changeType;
       Ledger.amount := amount;
       Ledger.balance_after := newBalance;
       Ledger.source_type := sourceType;
       Ledger.reference_id := referenceId;
       Ledger.description := description;
       Ledger.metadata := metadata |}.

End CoinCalculationEngine.

(* ===================================================================== *)
(** ** [CoinService] (services/CoinService.ts) *)
(* ===================================================================== *)

Module CoinService.
Import CoinCalculationEngine.

Definition bonus_json (b : Bonus) : Js.Json :=
  Js.JObj [("type", Js.JStr (type b)); ("amount", Js.JNum (amount b));
           ("reason", Js.JStr (reason b))].

Definition calculations_json (c : Calc.t) : Js.Json :=
  Js.JObj [("focusTime", Js.JNum (Calc.focusTime c));
           ("focusRate", Js.JNum (Calc.focusRate c));
           ("resultQuantity", Js.JNum (Calc.resultQuantity c));
           ("baseCoin", Js.JNum (Calc.baseCoin c));
           ("difficultyCoefficient", Js.JNum (Calc.difficultyCoefficient c));
           ("bonuses", Js.JArr (map bonus_json (Calc.bonuses c)))].

(** [s || fallback] on strings: the empty string is the falsy one. *)
Definition str_or_else (s fallback : string) : string :=
  if String.eqb s "" then fallback else s.

Definition processSessionReward (sessionId : string) (calculationInput : CoinCalculationInput)
  : M unit :=
  try_catch
    (coinResult <- calculateCoins calculationInput ;;
     when (Js.gt (totalCoins coinResult) 0)
       (recordCoinTransaction (userId calculationInput) (totalCoins coinResult)
          earned "session" sessionId
          ("学习会话奖励：专注" ++ Js.toString (focusCoins coinResult)
           ++ "金币 + 成果" ++ Js.toString (resultCoins coinResult) ++ "金币"
           ++ (if Qeq_bool (bonusCoins coinResult) 0 then ""
               else " + 奖励" ++ Js.toString (bonusCoins coinResult) ++ "金币"))
          (Js.JObj [("sessionId", Js.JStr sessionId);
                    ("calculations", calculations_json (calculations coinResult))])) ;;;
     when (negb (Qeq_bool (bonusCoins coinResult) 0)
           && Js.gt (bonusCoins coinResult) 0)
       (recordCoinTransaction (userId calculationInput) (bonusCoins coinResult)
          bonus "session_bonus" sessionId
          ("学习奖励："
           ++ str_or_else
                (String.concat "、"
                   (map reason (Calc.bonuses (calculations coinResult))))
                "特殊奖励")
          (Js.JObj [("sessionId", Js.JStr sessionId);
                    ("bonuses",
                     Js.JArr (map bonus_json
                                (Calc.bonuses (calculations coinResult))))])))
    (fun error => throw error).

Definition redeemReward (userId rewardId : string) (coinsCost : Js.number)
    (description : string) : M bool :=
  currentBalance <- getCurrentBalance userId ;;
  if Js.lt currentBalance coinsCost then throw "Insufficient coin balance"
  else
    try_catch
      (recordCoinTransaction userId (- coinsCost) redeemed "reward" rewardId
         ("兑换奖励：" ++ description)
         (Js.JObj [("rewardId", Js.JStr rewardId)]) ;;;
       ret true)
      (fun error => throw error).

Definition adjustCoins (userId : string) (amount : Js.number)
    (reason adminId : string) : M unit :=
  let changeType := if Js.gt amount 0 then bonus else penalty in
  try_catch
    (recordCoinTransaction userId amount changeType "admin_adjustment" adminId
       ("管理员调整：" ++ reason)
       (Js.JObj [("adminId", Js.JStr adminId)]))
    (fun error => throw error).

End CoinService.

(* ===================================================================== *)
(** ** [LearningSessionModel.create] (models/LearningSession.ts) *)
(* ===================================================================== *)

Module LearningSessionModel.
Import CoinCalculationEngine.

Record CreateSessionData := {
  user_id : string;
  task_id : string;
  difficulty_id : string;
  session_date : Z;
  focus_time_minutes : Js.number;
  result_quantity : Js.number;
  notes : option string;
  metadata : option Js.Json
}.

(** A row of [achievements], as [AchievementService.awardAchievement] uses it. *)
Record Achievement := {
  achievement_id : string;
  achievement_name : string;
  points : Js.number;
  rarity : string
}.

(** The ledger part of [AchievementService.awardAchievement]. *)
Definition awardAchievement (userId : string) (a : Achievement) : M unit :=
  when (Js.gt (points a) 0)
    (recordCoinTransaction userId (points a) bonus "achievement" (achievement_id a)
       ("Achievement unlocked: " ++ achievement_name a)
       (Js.JObj [("achievement_id", Js.JStr (achievement_id a));
                 ("achievement_name", Js.JStr (achievement_name a));
                 ("rarity", Js.JStr (rarity a))])).

Definition insert_learning_session (s : Session.row) : M unit :=
  fun db => (Returned tt, with_sessions db (learning_sessions db ++ [s])).

Definition calculation_input (sessionData : CreateSessionData) : CoinCalculationInput :=
  {| userId := user_id sessionData;
     taskId := task_id sessionData;
     difficultyId := difficulty_id sessionData;
     focusTimeMinutes := focus_time_minutes sessionData;
     resultQuantity := result_quantity sessionData;
     sessionDate := session_date sessionData |}.

(** [create].  [sessionId] is the uuid the call draws and [now] the instant of
    the insert.  [AchievementService.checkAndAwardAchievements] evaluates its
    conditions outside this embedding: the achievements it finds newly earned
    are the input [earned_now], and their coins go through
    [awardAchievement]. *)
Definition create (sessionId : string) (now : Z) (earned_now : list Achievement)
    (sessionData : CreateSessionData) : M Session.row :=
  coinResult <- calculateCoins (calculation_input sessionData) ;;
  let session :=
    {| Session.session_id := sessionId;
       Session.user_id := user_id sessionData;
       Session.task_id := task_id sessionData;
       Session.difficulty_id := difficulty_id sessionData;
       Session.session_date := session_date sessionData;
       Session.focus_time_minutes := focus_time_minutes sessionData;
       Session.result_quantity := result_quantity sessionData;
       Session.focus_coins := focusCoins coinResult;
       Session.result_coins := resultCoins coinResult;
       Session.total_coins := totalCoins coinResult;
       Session.notes := notes sessionData;
       Session.metadata :=
         match metadata sessionData with
         | Some md => md
         | None => Js.JObj []
         end;
       Session.status := completed;
       Session.created_at := now |} in
  insert_learning_session session ;;;
  CoinService.processSessionReward sessionId (calculation_input sessionData) ;;;
  try_catch
    (for_of earned_now (awardAchievement (user_id sessionData)))
    (fun _ => ret tt) ;;;
  ret session.

End LearningSessionModel.

(* ===================================================================== *)
(** ** [CoinDecayService] (services/CoinDecayService.ts) *)
(* ===================================================================== *)

Module CoinDecayService.
Import CoinCalculationEngine.

(** What a run of the engine takes from its surroundings: the clock
    ([new Date()]). *)
Record Env := {
  now : Z
}.

(** A row of [getUserSessionsForDecay]. *)
Record SessionForDecay := {
  session_id : string;
  session_date : Z;
  total_coins : Js.number;
  subject : option string;
  task_type : option string
}.

Record Prediction := {
  date : Z;
  predictedDecay : Js.number;
  affectedSessions : Z
}.

Definition days_ago (env : Env) (n : Z) : Z := (now env - n * MS_PER_DAY)%Z.

(** [toISOString().split('T')[0]] of an instant: its day. *)
Definition day_of (instant : Z) : Z := (instant / MS_PER_DAY)%Z.

Definition ge_instant (t : option Z) (bound : Z) : bool :=
  match t with
  | Some t => (bound <=? t)%Z
  | None => false
  end.

Definition getActiveUsers (env : Env) : M (list string) :=
  let thirtyDaysAgo := days_ago env 30 in
  select (fun db =>
    map User.user_id
      (filter (fun u =>
         (String.eqb (User.status u) "active"
          && ge_instant (User.last_login_at u) thirtyDaysAgo)
         || existsb (fun s =>
              String.eqb (Session.user_id s) (User.user_id u)
              && (thirtyDaysAgo <=? Session.created_at s)%Z)
              (learning_sessions db))
         (users db))).

(** [orderBy('priority', 'desc')]; rows of equal priority keep their order. *)
Fixpoint insert_by_priority (r : DecayRule.row) (l : list DecayRule.row)
  : list DecayRule.row :=
  match l with
  | [] => [r]
  | x :: l' =>
      if (DecayRule.priority x <=? DecayRule.priority r)%Z then r :: l
      else x :: insert_by_priority r l'
  end.

Definition getActiveDecayRules : M (list DecayRule.row) :=
  select (fun db =>
    fold_right insert_by_priority []
      (filter DecayRule.is_active (coin_decay_rules db))).

(** [learning_sessions LEFT JOIN task_definitions ON task_id]. *)
Definition left_join_task (tasks : list Task.row) (s : Session.row)
  : list SessionForDecay :=
  match filter (fun t => String.eqb (Task.task_id t) (Session.task_id s)) tasks with
  | [] =>
      [ {| session_id := Session.session_id s;
           session_date := Session.session_date s;
           total_coins := Session.total_coins s;
           subject := None; task_type := None |} ]
  | matching =>
      map (fun t =>
             {| session_id := Session.session_id s;
                session_date := Session.session_date s;
                total_coins := Session.total_coins s;
                subject := Task.subject t; task_type := Task.task_type t |})
          matching
  end.

Definition getUserSessionsForDecay (env : Env) (userId : string)
  : M (list SessionForDecay) :=
  let ninetyDaysAgo := days_ago env 90 in
  select (fun db =>
    flat_map (left_join_task (task_definitions db))
      (filter (fun s =>
         String.eqb (Session.user_id s) userId
         && is_completed (Session.status s)
         && Js.gt (Session.total_coins s) 0
         && (day_of ninetyDaysAgo <=? Session.session_date s)%Z)
         (learning_sessions db))).

Definition filterSessionsByRule (sessions : list SessionForDecay)
    (rule : DecayRule.row) : list SessionForDecay :=
  filter (fun session =>
    match DecayRule.applies_to rule with
    | applies_subject => Js.opt_eqb (subject session) (DecayRule.scope_value rule)
    | applies_task_type => Js.opt_eqb (task_type session) (DecayRule.scope_value rule)
    | applies_all => true
    end) sessions.

Definition getDaysSince (env : Env) (dateString : Z) : Z :=
  let timeDiff := (now env - dateString * MS_PER_DAY)%Z in
  (timeDiff / MS_PER_DAY)%Z.

(** The [where] clauses of the idempotency query. *)
Definition is_decay_of (userId sessionId ruleId : string) (e : Ledger.entry) : bool :=
  String.eqb (Ledger.user_id e) userId
  && ChangeType_eqb (Ledger.change_type e) decayed
  && String.eqb (Ledger.reference_id e) sessionId
  && Js.text_is (Js.json_text (Ledger.metadata e) "rule_id") ruleId.

(** The raw fragment of the two metadata queries, for a key.  The source
    writes it as a literal in single quotes with the escapes backslash
    backslash and backslash double-quote before and after the key: the text
    it denotes, and knex sends, has a backslash and a double quote on either
    side of the key. *)
Definition metadata_is (key : string) : string :=
  "metadata->>" ++ String Pg.backslash (String Pg.dquote key)
  ++ String Pg.backslash (String Pg.dquote " = ?").

(** The idempotency query of [applyDecayToSession] and [predictDecay]. *)
Definition existingDecay (userId sessionId ruleId : string)
  : M (option Ledger.entry) :=
  Knex.whereRaw (metadata_is "rule_id")
    (fun db =>
       hd_error (filter (is_decay_of userId sessionId ruleId) (coin_ledger db))).

Definition raw_decay (session : SessionForDecay) (rule : DecayRule.row) : Js.number :=
  match DecayRule.decay_type rule with
  | percentage => Js.floor (Js.mul (total_coins session) (DecayRule.decay_rate rule))
  | fixed => DecayRule.decay_rate rule
  end.

Definition decay_type_json (t : DecayType) : Js.Json :=
  match t with
  | percentage => Js.JStr "percentage"
  | fixed => Js.JStr "fixed"
  end.

Definition applyDecayToSession (env : Env) (userId : string)
    (session : SessionForDecay) (rule : DecayRule.row) : M unit :=
  existing <- existingDecay userId (session_id session) (DecayRule.rule_id rule) ;;
  match existing with
  | Some _ => ret tt
  | None =>
      let decayAmount := raw_decay session rule in
      let decayAmount := Js.min decayAmount (total_coins session) in
      when (Js.gt decayAmount 0)
        (recordCoinTransaction userId (- decayAmount) decayed "session_decay"
           (session_id session)
           ("知识遗忘衰减 - " ++ DecayRule.name rule)
           (Js.JObj
              [("rule_id", Js.JStr (DecayRule.rule_id rule));
               ("session_date", Js.JNum (inject_Z (session_date session)));
               ("days_since_session",
                Js.JNum (inject_Z (getDaysSince env (session_date session))));
               ("original_coins", Js.JNum (total_coins session));
               ("decay_rate", Js.JNum (DecayRule.decay_rate rule));
               ("decay_type", decay_type_json (DecayRule.decay_type rule))]))
  end.

Definition processUserDecay (env : Env) (userId : string)
    (decayRules : list DecayRule.row) : M unit :=
  userSessions <- getUserSessionsForDecay env userId ;;
  for_of decayRules (fun rule =>
    let applicableSessions := filterSessionsByRule userSessions rule in
    for_of applicableSessions (fun session =>
      let daysSinceSession := getDaysSince env (session_date session) in
      when (daysSinceSession >=? DecayRule.threshold_days rule)%Z
        (applyDecayToSession env userId session rule))).

Definition executeDecayProcess (env : Env) : M unit :=
  activeUsers <- getActiveUsers env ;;
  decayRules <- getActiveDecayRules ;;
  for_of activeUsers (fun user =>
    try_catch (processUserDecay env user decayRules) (fun _ => ret tt)).

Definition shouldRunHourlyDecay : M bool :=
  emergencyRule <-
    Knex.whereRaw (metadata_is "emergency")
      (fun db =>
         hd_error
           (filter (fun r =>
              DecayRule.is_active r
              && Js.text_is (Js.json_text (DecayRule.metadata r) "emergency") "true")
              (coin_decay_rules db))) ;;
  match emergencyRule with
  | Some _ => ret true
  | None => ret false
  end.

(** The two jobs [startScheduler] registers: ['0 2 * * *'] and ['0 * * * *'].
    The hourly one awaits [shouldRunHourlyDecay] outside its [try]. *)
Definition dailyJob (env : Env) : M unit :=
  try_catch (executeDecayProcess env) (fun _ => ret tt).

Definition hourlyJob (env : Env) : M unit :=
  shouldRun <- shouldRunHourlyDecay ;;
  when shouldRun (try_catch (executeDecayProcess env) (fun _ => ret tt)).

(** [if (userId)]: an absent or empty id takes the all-users branch. *)
Definition triggerDecay (env : Env) (userId : option string) : M unit :=
  match userId with
  | Some u =>
      if String.eqb u "" then executeDecayProcess env
      else
        decayRules <- getActiveDecayRules ;;
        processUserDecay env u decayRules
  | None => executeDecayProcess env
  end.

(** The body of the innermost loop of [predictDecay], at day offset [i];
    [acc] is [(predictedDecay, affectedSessions)]. *)
Definition predict_session (env : Env) (userId : string) (i : Z)
    (rule : DecayRule.row) (acc : Js.number * Z) (session : SessionForDecay)
  : M (Js.number * Z) :=
  let daysSinceSession := (getDaysSince env (session_date session) + i)%Z in
  if (daysSinceSession >=? DecayRule.threshold_days rule)%Z then
    hasDecayed <- existingDecay userId (session_id session) (DecayRule.rule_id rule) ;;
    match hasDecayed with
    | Some _ => ret acc
    | None =>
        let decayAmount := raw_decay session rule in
        ret (fst acc + Js.min decayAmount (total_coins session), (snd acc + 1)%Z)
    end
  else ret acc.

Definition predict_day (env : Env) (userId : string)
    (decayRules : list DecayRule.row) (userSessions : list SessionForDecay)
    (i : Z) : M Prediction :=
  let dateString := day_of (now env + i * MS_PER_DAY)%Z in
  acc <-
    fold_of decayRules (0, 0%Z) (fun acc rule =>
      let applicableSessions := filterSessionsByRule userSessions rule in
      fold_of applicableSessions acc (predict_session env userId i rule)) ;;
  ret {| date := dateString; predictedDecay := fst acc; affectedSessions := snd acc |}.

(** [for (let i = 1; i <= days; i++)] *)
Definition offsets (days : Z) : list Z := map Z.of_nat (seq 1 (Z.to_nat days)).

Definition predictDecay (env : Env) (userId : string) (days : Z)
  : M (list Prediction) :=
  decayRules <- getActiveDecayRules ;;
  userSessions <- getUserSessionsForDecay env userId ;;
  fold_of (offsets days) [] (fun predictions i =>
    p <- predict_day env userId decayRules userSessions i ;;
    ret (predictions ++ [p])%list).

End CoinDecayService.

(* ===================================================================== *)
(** ** The system as a whole: the operations that reach the database *)
(* ===================================================================== *)

Module System.

(** Everything outside the engine that edits the other tables (session update
    and delete, rule administration, the catalog, logins) is one operation
    that replaces them; nothing but [recordCoinTransaction] writes the
    ledger. *)
Inductive Op :=
| CreateSession (sessionId : string) (now : Z)
    (earned_now : list LearningSessionModel.Achievement)
    (sessionData : LearningSessionModel.CreateSessionData)
| RedeemReward (userId rewardId : string) (coinsCost : Js.number) (description : string)
| AdjustCoins (userId : string) (amount : Js.number) (reason adminId : string)
| AwardAchievement (userId : string) (a : LearningSessionModel.Achievement)
| DailyJob (env : CoinDecayService.Env)
| HourlyJob (env : CoinDecayService.Env)
| TriggerDecay (env : CoinDecayService.Env) (userId : option string)
| PredictDecay (env : CoinDecayService.Env) (userId : string) (days : Z)
| Administer (us : list User.row) (ts : list Task.row) (ds : list Difficulty.row)
    (ss : list Session.row) (rs : list DecayRule.row).

Definition exec (op : Op) (db : DB) : DB :=
  match op with
  | CreateSession sessionId now earned_now sessionData =>
      run_db (LearningSessionModel.create sessionId now earned_now sessionData) db
  | RedeemReward userId rewardId coinsCost description =>
      run_db (CoinService.redeemReward userId rewardId coinsCost description) db
  | AdjustCoins userId amount reason adminId =>
      run_db (CoinService.adjustCoins userId amount reason adminId) db
  | AwardAchievement userId a =>
      run_db (LearningSessionModel.awardAchievement userId a) db
  | DailyJob env => run_db (CoinDecayService.dailyJob env) db
  | HourlyJob env => run_db (CoinDecayService.hourlyJob env) db
  | TriggerDecay env userId => run_db (CoinDecayService.triggerDecay env userId) db
  | PredictDecay env userId days =>
      run_db (CoinDecayService.predictDecay env userId days) db
  | Administer us ts ds ss rs =>
      {| users := us; task_definitions := ts; difficulties := ds;
         learning_sessions := ss; coin_decay_rules := rs;
         coin_ledger := coin_ledger db |}
  end.

(** The database after a history of operations, oldest first. *)
Definition run (history : list Op) (db : DB) : DB := fold_left (fun d op => exec op d) history db.

End System.

(* ===================================================================== *)
(** ** Assertions on monadic code *)
(* ===================================================================== *)

(** [triple P m Q E]: from a database satisfying [P], [m] either returns [a]
    in a database satisfying [Q a], or throws in one satisfying [E]. *)
Definition triple {A} (P : DB -> Prop) (m : M A) (Q : A -> DB -> Prop)
    (E : DB -> Prop) : Prop :=
  forall db, P db ->
    match m db with
    | (Returned a, db') => Q a db'
    | (Thrown _, db') => E db'
    end.

(** [I] holds after [m], whether it returns or throws. *)
Definition preserves {A} (I : DB -> Prop) (m : M A) : Prop :=
  triple I m (fun _ => I) I.

(* ===================================================================== *)
(** ** Vocabulary of the properties *)
(* ===================================================================== *)

Module Spec.

(** *** The balance trail of a user *)

Definition entries_of (userId : string) (ledger : list Ledger.entry) : list Ledger.entry :=
  filter (fun e => String.eqb (Ledger.user_id e) userId) ledger.



(** The [balance_after] of the most recent entry of [l], or [prev] when there
    is none. *)
Definition closing (prev : Js.number) (l : list Ledger.entry) : Js.number :=
  match rev l with
  | e :: _ => Ledger.balance_after e
  | [] => prev
  end.

Definition currentBalance (userId : string) (ledger : list Ledger.entry) : Js.number :=
  closing 0 (entries_of userId ledger).



End Spec.

(* ===================================================================== *)
(** ** Sample data *)
(* ===================================================================== *)

Module Sample.
Import CoinDecayService.

Definition at_day (d : Z) : Z := (d * MS_PER_DAY)%Z.

(** Noon of day 120. *)
Definition env120 : Env :=
  {| now := (at_day 120 + 12 * 60 * 60 * 1000)%Z |}.

Definition math : Task.row :=
  {| Task.task_id := "task-math"; Task.subject := Some "math";
     Task.task_type := Some "practice"; Task.base_coin := 5;
     Task.is_active := true |}.

Definition normal : Difficulty.row :=
  {| Difficulty.difficulty_id := "diff-normal"; Difficulty.label := "普通";
     Difficulty.coefficient := 1; Difficulty.is_active := true |}.

Definition extreme : Difficulty.row :=
  {| Difficulty.difficulty_id := "diff-extreme"; Difficulty.label := "极难";
     Difficulty.coefficient := 2.0; Difficulty.is_active := true |}.

Definition user (id : string) : User.row :=
  {| User.user_id := id; User.status := "active";
     User.last_login_at := Some (at_day 119) |}.

(** A completed session of [u] on day [d] worth [coins]. *)
Definition session (id u : string) (d : Z) (coins : Js.number) : Session.row :=
  {| Session.session_id := id; Session.user_id := u;
     Session.task_id := "task-math"; Session.difficulty_id := "diff-normal";
     Session.session_date := d; Session.focus_time_minutes := 60;
     Session.result_quantity := 10; Session.focus_coins := 2;
     Session.result_coins := coins - 2; Session.total_coins := coins;
     Session.notes := None; Session.metadata := Js.JObj [];
     Session.status := completed; Session.created_at := at_day d |}.

Definition rule (id : string) (threshold : Z) (rate : Js.number) (kind : DecayType)
    (md : Js.Json) : DecayRule.row :=
  {| DecayRule.rule_id := id; DecayRule.name := id;
     DecayRule.description := None;
     DecayRule.threshold_days := threshold; DecayRule.decay_rate := rate;
     DecayRule.decay_type := kind; DecayRule.applies_to := applies_all;
     DecayRule.scope_value := None; DecayRule.is_active := true;
     DecayRule.priority := 1; DecayRule.metadata := md |}.

Definition catalog (us : list User.row) (ss : list Session.row)
    (rs : list DecayRule.row) : DB :=
  {| users := us; task_definitions := [math]; difficulties := [normal; extreme];
     learning_sessions := ss; coin_decay_rules := rs; coin_ledger := [] |}.

Definition for_decay (id : string) (d : Z) (coins : Js.number) : SessionForDecay :=
  {| session_id := id; session_date := d; total_coins := coins;
     subject := Some "math"; task_type := Some "practice" |}.

(** A user who earned 100 coins for a session and spent them all; a 20% rule
    is due on that session. *)
Definition spent_all : DB :=
  System.run
    [ System.AdjustCoins "alice" 100 "welcome" "admin";
      System.RedeemReward "alice" "reward-1" 100 "cinema" ]
    (catalog [user "alice"] [session "s1" "alice" 100 100]
       [rule "r20" 7 0.2 percentage (Js.JObj [])]).

End Sample.

Module Rows.

(** The row [recordCoinTransaction] inserts when the balance it read is [b]. *)
Definition appended (userId : string) (amount : Js.number) (changeType : ChangeType)
    (sourceType referenceId description : string) (metadata : Js.Json)
    (b : Js.number) : Ledger.entry :=
  {| Ledger.user_id := userId;
     Ledger.change_type := changeType;
     Ledger.amount := amount;
     Ledger.balance_after := b + amount;
     Ledger.source_type := sourceType;
     Ledger.reference_id := referenceId;
     Ledger.description := description;
     Ledger.metadata := metadata |}.

Definition append (db : DB) (e : Ledger.entry) : DB :=
  with_ledger db (coin_ledger db ++ [e]).

End Rows.

(** [m] returns and leaves the database as it was. *)
Definition reads {A} (m : M A) : Prop :=
  forall db, exists a, m db = (Returned a, db).

Module Formula.

(** Focus coins: [floor(focus_minutes / 30)] if [focus_minutes >= 5], else 0. *)
Definition focus_coins (focus_minutes : Js.number) : Js.number :=
  if Js.ge focus_minutes 5 then Js.floor (focus_minutes / 30) else 0.

(** Result coins: [floor(result_quantity * base_coin * coefficient)]. *)
Definition result_coins (result_quantity base_coin coefficient : Js.number) : Js.number :=
  Js.floor (result_quantity * base_coin * coefficient).

(** Decay amount:
    [min(total_coins, kind == percentage ? floor(total_coins * rate) : rate)]. *)
Definition decay_amount (total_coins : Js.number) (rule : DecayRule.row) : Js.number :=
  Qmin total_coins
    (match DecayRule.decay_type rule with
     | percentage => Js.floor (total_coins * DecayRule.decay_rate rule)
     | fixed => DecayRule.decay_rate rule
     end).

End Formula.

(* ===================================================================== *)
(** ** Vocabulary of the decay engine *)
(* ===================================================================== *)

Module Decay.
Import CoinDecayService.



(** The rows a run added to the ledger. *)
Definition added (before after : DB) : list Ledger.entry :=
  skipn (List.length (coin_ledger before)) (coin_ledger after).


(** The rules and sessions a run for [userId] works on. *)
Definition rules_of (db : DB) : list DecayRule.row :=
  fold_right insert_by_priority [] (filter DecayRule.is_active (coin_decay_rules db)).

Definition sessions_of (env : Env) (userId : string) (db : DB) : list SessionForDecay :=
  flat_map (left_join_task (task_definitions db))
    (filter (fun s =>
       String.eqb (Session.user_id s) userId
       && is_completed (Session.status s)
       && Js.gt (Session.total_coins s) 0
       && (day_of (days_ago env 90) <=? Session.session_date s)%Z)
       (learning_sessions db)).

(** The (rule, session) pairs in the order the two loops of
    [processUserDecay], and of [predictDecay], visit them. *)
Definition pairs_with (decayRules : list DecayRule.row)
    (userSessions : list SessionForDecay)
  : list (DecayRule.row * SessionForDecay) :=
  flat_map (fun rule =>
              map (fun session => (rule, session))
                (filterSessionsByRule userSessions rule))
    decayRules.

Definition pairs (env : Env) (userId : string) (db : DB)
  : list (DecayRule.row * SessionForDecay) :=
  pairs_with (rules_of db) (sessions_of env userId db).

(** [i] days from now the session of the pair has reached the threshold of
    its rule. *)
Definition due_at (env : Env) (i : Z) (p : DecayRule.row * SessionForDecay) : bool :=
  (getDaysSince env (session_date (snd p)) + i >=? DecayRule.threshold_days (fst p))%Z.

(** The entry of a prediction for the day [i] days from now on which nothing
    decays. *)
Definition nothing_on (env : Env) (i : Z) : Prediction :=
  {| date := day_of (now env + i * MS_PER_DAY)%Z;
     predictedDecay := 0;
     affectedSessions := 0 |}.

(** A pair of the user reaches its threshold within the next [days] days. *)
Definition due_within (env : Env) (userId : string) (days : Z) (db : DB) : bool :=
  existsb (fun i => existsb (due_at env i) (pairs env userId db)) (offsets days).

(** The projection as the specification words it: a pair once projected as
    decayed is not counted again, so the counts of all dates together do not
    exceed the number of pairs. *)
Definition counted_once (env : Env) (userId : string) (days : Z) (db : DB) : Prop :=
  forall predictions,
    run_out (predictDecay env userId days) db = Returned predictions ->
    (fold_left (fun n p => n + affectedSessions p)%Z predictions 0%Z
     <= Z.of_nat (List.length (pairs env userId db)))%Z.

End Decay.

Module Sample2.
Import Sample.


(** Alice has one session, due under the one rule. *)
Definition one_pair : DB :=
  catalog [user "alice"] [session "s1" "alice" 100 100]
    [ rule "r20" 7 0.2 percentage (Js.JObj []) ].

(** Alice's one session is of day 118: on day 120 it is two days old, and
    reaches the threshold of the one rule on day 125. *)
Definition fresh : DB :=
  catalog [user "alice"] [session "s1" "alice" 118 100]
    [ rule "r20" 7 0.2 percentage (Js.JObj []) ].

End Sample2.

(* ===================================================================== *)
(** ** Vocabulary of idempotency *)
(* ===================================================================== *)

Module Idempotency.

(** The [decayed] rows of a (session, rule) pair, whoever the user. *)
Definition decay_rows (sessionId ruleId : string) (ledger : list Ledger.entry)
  : list Ledger.entry :=
  filter (fun e =>
            ChangeType_eqb (Ledger.change_type e) decayed
            && String.eqb (Ledger.reference_id e) sessionId
            && Js.text_is (Js.json_text (Ledger.metadata e) "rule_id") ruleId)
    ledger.

(** No row of the ledger is a [decayed] one. *)
Definition none_decayed (db : DB) : Prop :=
  Forall (fun e => Ledger.change_type e <> decayed) (coin_ledger db).

End Idempotency.

Module Sample3.
Import Sample.

(** The catalog is set up, then the engine runs four times. *)
Definition four_runs : list System.Op :=
  [ System.Administer [user "alice"] [math] [normal; extreme]
      [session "s1" "alice" 100 100]
      [rule "r20" 7 0.2 percentage (Js.JObj [("emergency", Js.JBool true)])];
    System.DailyJob env120;
    System.TriggerDecay env120 None;
    System.HourlyJob env120;
    System.TriggerDecay env120 (Some "alice") ].

End Sample3.

(* ===================================================================== *)
(** ** Vocabulary of failure isolation *)
(* ===================================================================== *)

Module Isolation.
Import CoinDecayService.

(** The users a cycle visits. *)
Definition active_users (env : Env) (db : DB) : list string :=
  map User.user_id
    (filter (fun u =>
       (String.eqb (User.status u) "active"
        && ge_instant (User.last_login_at u) (days_ago env 30))
       || existsb (fun s =>
            String.eqb (Session.user_id s) (User.user_id u)
            && (days_ago env 30 <=? Session.created_at s)%Z)
            (learning_sessions db))
       (users db)).

(** The turns of [for (const x of l) { await body(x) }] that begin when the
    loop starts in [db]: a turn that throws is the last. *)
Fixpoint turns {A} (l : list A) (body : A -> M unit) (db : DB) : list A :=
  match l with
  | [] => []
  | x :: l' =>
      x :: match body x db with
           | (Returned _, db') => turns l' body db'
           | (Thrown _, _) => []
           end
  end.

(** The triples of a user that a run of [processUserDecay] processes, that
    is, hands to [applyDecayToSession]: the pairs past their threshold, in
    the order of the two loops, up to the first call that throws. *)
Definition attempted (env : Env) (userId : string)
    (decayRules : list DecayRule.row) (db : DB)
  : list (DecayRule.row * SessionForDecay) :=
  turns
    (filter (Decay.due_at env 0)
       (Decay.pairs_with decayRules (Decay.sessions_of env userId db)))
    (fun p => applyDecayToSession env userId (snd p) (fst p))
    db.

(** The triples a cycle processes, user by user. *)
Fixpoint cycle_attempts (env : Env) (users : list string)
    (decayRules : list DecayRule.row) (db : DB)
  : list (string * (DecayRule.row * SessionForDecay)) :=
  match users with
  | [] => []
  | user :: rest =>
      (map (fun p => (user, p)) (attempted env user decayRules db)
       ++ cycle_attempts env rest decayRules
            (run_db (try_catch (processUserDecay env user decayRules)
                       (fun _ => ret tt)) db))%list
  end.

Definition processed_in_cycle (env : Env) (db : DB) (userId : string)
    (p : DecayRule.row * SessionForDecay) : Prop :=
  In (userId, p)
    (cycle_attempts env (active_users env db) (Decay.rules_of db) db).


(** The first triple of a user that is past its threshold, if any. *)
Definition first_due (env : Env) (userId : string) (db : DB)
  : list (DecayRule.row * SessionForDecay) :=
  firstn 1 (filter (Decay.due_at env 0) (Decay.pairs env userId db)).

(** The run changed nothing but the ledger. *)
Definition same_tables (db d : DB) : Prop :=
  users d = users db
  /\ task_definitions d = task_definitions db
  /\ difficulties d = difficulties db
  /\ learning_sessions d = learning_sessions db
  /\ coin_decay_rules d = coin_decay_rules db.

End Isolation.

Module Sample4.
Import Sample.



End Sample4.

(* ===================================================================== *)
(** ** Vocabulary of the bonus rules *)
(* ===================================================================== *)

Module Streak.

(** The user completed a session on day [d]. *)
Definition learned_on (userId : string) (db : DB) (d : Z) : bool :=
  existsb (fun s => CoinCalculationEngine.completed_of userId s
                    && (Session.session_date s =? d)%Z)
    (learning_sessions db).

(** The unbroken run of days right before [day], looking back [window] days. *)
Fixpoint run_before (has : Z -> bool) (day : Z) (window : nat) : Z :=
  match window with
  | O => 0
  | S w => if has (day - 1)%Z then (1 + run_before has (day - 1)%Z w)%Z else 0%Z
  end.

(** The consecutive-day streak ending at [session_date]: the day of the
    session being rewarded and the unbroken run of days before it, over the
    30 dates the code looks at. *)
Definition streak (userId : string) (db : DB) (session_date : Z) : Z :=
  (1 + run_before (learned_on userId db) session_date 30)%Z.

(** Strictly descending dates. *)
Fixpoint descending (l : list Z) : Prop :=
  match l with
  | [] => True
  | x :: l' => (forall y, In y l' -> (y < x)%Z) /\ descending l'
  end.

Definition has_date (l : list Z) (d : Z) : bool := existsb (Z.eqb d) l.

(** [+10] if streak >= 7, [+5] if streak >= 3, else [0]. *)
Definition bonus_for (streak : Z) : Js.number :=
  if (streak >=? 7)%Z then 10 else if (streak >=? 3)%Z then 5 else 0.

End Streak.

Module Sample5.
Import Sample.

(** Day 98 is a Thursday.  Alice completed a session on each of the days 92
    to 98. *)
Definition week : DB :=
  catalog [user "alice"]
    (map (fun d => session "s" "alice" d 12) [92; 93; 94; 95; 96; 97; 98]%Z)
    [].

(** Alice completed a session on each of the days 92 to 97. *)
Definition six_days : DB :=
  catalog [user "alice"]
    (map (fun d => session "s" "alice" d 12) [92; 93; 94; 95; 96; 97]%Z)
    [].

(** Alice completed two sessions on day 98. *)
Definition two_today : DB :=
  catalog [user "alice"]
    [session "s1" "alice" 98 12; session "s2" "alice" 98 12] [].

(** One more session of Alice on day 98: 60 minutes, 2 results. *)
Definition one_more : LearningSessionModel.CreateSessionData :=
  {| LearningSessionModel.user_id := "alice";
     LearningSessionModel.task_id := "task-math";
     LearningSessionModel.difficulty_id := "diff-normal";
     LearningSessionModel.session_date := 98;
     LearningSessionModel.focus_time_minutes := 60;
     LearningSessionModel.result_quantity := 2;
     LearningSessionModel.notes := None;
     LearningSessionModel.metadata := None |}.

Definition preview : CoinCalculationEngine.CoinCalculationInput :=
  LearningSessionModel.calculation_input one_more.

End Sample5.

(* ===================================================================== *)
(** ** Vocabulary of the further properties *)
(* ===================================================================== *)

Module Lookup.

(** The two catalog queries of [calculateCoins]. *)
Definition active_task (taskId : string) (db : DB) : option Task.row :=
  hd_error
    (filter (fun t => String.eqb (Task.task_id t) taskId && Task.is_active t)
       (task_definitions db)).

Definition active_difficulty (difficultyId : string) (db : DB) : option Difficulty.row :=
  hd_error
    (filter (fun d => String.eqb (Difficulty.difficulty_id d) difficultyId
                      && Difficulty.is_active d)
       (difficulties db)).

(** The user has a completed session of the task. *)
Definition completed_task (userId taskId : string) (db : DB) : bool :=
  existsb (fun s => CoinCalculationEngine.completed_of userId s
                    && String.eqb (Session.task_id s) taskId)
    (learning_sessions db).

End Lookup.

Module Frame.

(** The operation acts for the one user [u]. *)
Definition on_behalf (u : string) (op : System.Op) : Prop :=
  match op with
  | System.CreateSession _ _ _ sessionData =>
      LearningSessionModel.user_id sessionData = u
  | System.RedeemReward userId _ _ _ => userId = u
  | System.AdjustCoins userId _ _ _ => userId = u
  | System.AwardAchievement userId _ => userId = u
  | System.TriggerDecay _ (Some userId) => userId = u /\ userId <> ""
  | System.PredictDecay _ userId _ => userId = u
  | _ => False
  end.

(** The ledger of [d] is the ledger of [db] followed by rows of [u]. *)
Definition grown_for (u : string) (db d : DB) : Prop :=
  exists suffix,
    coin_ledger d = (coin_ledger db ++ suffix)%list
    /\ Forall (fun e => Ledger.user_id e = u) suffix.

(** The catalog, the users and the rules are those of [db]. *)
Definition same_catalog (db d : DB) : Prop :=
  users d = users db
  /\ task_definitions d = task_definitions db
  /\ difficulties d = difficulties db
  /\ coin_decay_rules d = coin_decay_rules db.

(** From the insert of [row] to the end of [create]. *)
Definition stored (u : string) (db : DB) (row : Session.row) (d : DB) : Prop :=
  learning_sessions d = (learning_sessions db ++ [row])%list
  /\ same_catalog db d
  /\ grown_for u db d.

(** The database takes every row [d] has beyond those of [db], in the ledger
    and among the sessions. *)
Definition taken (db d : DB) : bool :=
  forallb (Pg.takes_entry db)
    (skipn (List.length (coin_ledger db)) (coin_ledger d))
  && forallb (Pg.takes_session db)
       (skipn (List.length (learning_sessions db)) (learning_sessions d)).

(** The row [create] inserts when its calculation returned [r]. *)
Definition created_row (sessionId : string) (now : Z)
    (sessionData : LearningSessionModel.CreateSessionData)
    (r : CoinCalculationEngine.CoinCalculationResult) : Session.row :=
  {| Session.session_id := sessionId;
     Session.user_id := LearningSessionModel.user_id sessionData;
     Session.task_id := LearningSessionModel.task_id sessionData;
     Session.difficulty_id := LearningSessionModel.difficulty_id sessionData;
     Session.session_date := LearningSessionModel.session_date sessionData;
     Session.focus_time_minutes := LearningSessionModel.focus_time_minutes sessionData;
     Session.result_quantity := LearningSessionModel.result_quantity sessionData;
     Session.focus_coins := CoinCalculationEngine.focusCoins r;
     Session.result_coins := CoinCalculationEngine.resultCoins r;
     Session.total_coins := CoinCalculationEngine.totalCoins r;
     Session.notes := LearningSessionModel.notes sessionData;
     Session.metadata :=
       match LearningSessionModel.metadata sessionData with
       | Some md => md
       | None => Js.JObj []
       end;
     Session.status := completed;
     Session.created_at := now |}.

End Frame.

Module Sample6.
Import Sample.

(** Carol is not active: she never logged in and her one session was stored
    on day 80, more than 30 days before day 120.  The session is due under
    the one rule. *)
Definition dormant : DB :=
  catalog
    [ {| User.user_id := "carol"; User.status := "inactive";
         User.last_login_at := None |} ]
    [session "s9" "carol" 80 50]
    [rule "r20" 7 0.2 percentage (Js.JObj [])].

End Sample6.

(* ===================================================================== *)
(** ** [LearningSessionModel.update] and [.delete] (models/LearningSession.ts) *)
(* ===================================================================== *)

Module LearningSessionEdit.

(** [Partial<CreateSessionData>]: [None] is an absent key. *)
Record UpdateSessionData := {
  user_id : option string;
  task_id : option string;
  difficulty_id : option string;
  session_date : option Z;
  focus_time_minutes : option Js.number;
  result_quantity : option Js.number;
  notes : option string;
  metadata : option Js.Json
}.

(** The three keys the recalculation adds to [updateData]. *)
Record Coins := {
  focus_coins : Js.number;
  result_coins : Js.number;
  total_coins : Js.number
}.

(** The session columns of [findById]; [update] reads nothing of the joined
    ones. *)
Definition findById (sessionId : string) : M (option Session.row) :=
  select (fun db =>
    hd_error
      (filter (fun s => String.eqb (Session.session_id s) sessionId)
         (learning_sessions db))).

(** [a || b] on an optional string: absent and empty are the falsy ones. *)
Definition str_or (a : option string) (b : string) : string :=
  match a with
  | Some s => if String.eqb s "" then b else s
  | None => b
  end.

(** [a !== undefined ? a : b] *)
Definition defined_or {A} (a : option A) (b : A) : A :=
  match a with
  | Some x => x
  | None => b
  end.

Definition is_defined {A} (a : option A) : bool :=
  match a with
  | Some _ => true
  | None => false
  end.

(** [.update({ ...updateData, updated_at })] on one row. *)
Definition patch (updateData : UpdateSessionData) (coins : option Coins)
    (s : Session.row) : Session.row :=
  {| Session.session_id := Session.session_id s;
     Session.user_id := defined_or (user_id updateData) (Session.user_id s);
     Session.task_id := defined_or (task_id updateData) (Session.task_id s);
     Session.difficulty_id :=
       defined_or (difficulty_id updateData) (Session.difficulty_id s);
     Session.session_date :=
       defined_or (session_date updateData) (Session.session_date s);
     Session.focus_time_minutes :=
       defined_or (focus_time_minutes updateData) (Session.focus_time_minutes s);
     Session.result_quantity :=
       defined_or (result_quantity updateData) (Session.result_quantity s);
     Session.focus_coins :=
       match coins with
       | Some c => focus_coins c
       | None => Session.focus_coins s
       end;
     Session.result_coins :=
       match coins with
       | Some c => result_coins c
       | None => Session.result_coins s
       end;
     Session.total_coins :=
       match coins with
       | Some c => total_coins c
       | None => Session.total_coins s
       end;
     Session.notes :=
       match notes updateData with
       | Some n => Some n
       | None => Session.notes s
       end;
     Session.metadata := defined_or (metadata updateData) (Session.metadata s);
     Session.status := Session.status s;
     Session.created_at := Session.created_at s |}.

(** [.where('session_id', sessionId).update(...).returning('*')]: the rows
    updated. *)
Definition update_where (sessionId : string) (f : Session.row -> Session.row)
  : M (list Session.row) :=
  fun db =>
    (Returned
       (map f
          (filter (fun s => String.eqb (Session.session_id s) sessionId)
             (learning_sessions db))),
     with_sessions db
       (map (fun s => if String.eqb (Session.session_id s) sessionId
                      then f s else s)
          (learning_sessions db))).

Definition update (sessionId : string) (updateData : UpdateSessionData)
  : M (option Session.row) :=
  let write coins :=
    updated <- update_where sessionId (patch updateData coins) ;;
    ret (hd_error updated) in
  if is_defined (focus_time_minutes updateData)
     || is_defined (result_quantity updateData)
     || is_defined (task_id updateData)
     || is_defined (difficulty_id updateData)
  then
    session <- findById sessionId ;;
    match session with
    | None => ret None
    | Some session =>
        let taskId := str_or (task_id updateData) (Session.task_id session) in
        let difficultyId :=
          str_or (difficulty_id updateData) (Session.difficulty_id session) in
        let focusTime :=
          defined_or (focus_time_minutes updateData)
            (Session.focus_time_minutes session) in
        let resultQuantity :=
          defined_or (result_quantity updateData)
            (Session.result_quantity session) in
        task <-
          select (fun db =>
            hd_error (filter (fun t => String.eqb (Task.task_id t) taskId)
                        (task_definitions db))) ;;
        difficulty <-
          select (fun db =>
            hd_error
              (filter (fun d => String.eqb (Difficulty.difficulty_id d) difficultyId)
                 (difficulties db))) ;;
        match task, difficulty with
        | Some task, Some difficulty =>
            let focusCoins := Js.floor (focusTime / 30) in
            let resultCoins :=
              Js.floor (Js.mul (Js.mul resultQuantity (Task.base_coin task))
                          (Difficulty.coefficient difficulty)) in
            let totalCoins := focusCoins + resultCoins in
            write (Some {| focus_coins := focusCoins;
                           result_coins := resultCoins;
                           total_coins := totalCoins |})
        | _, _ => throw "Task or difficulty not found"
        end
    end
  else write None.

(** [.where('session_id', sessionId).del()] returns the number of rows
    deleted. *)
Definition del_where (sessionId : string) : M nat :=
  fun db =>
    (Returned
       (List.length
          (filter (fun s => String.eqb (Session.session_id s) sessionId)
             (learning_sessions db))),
     with_sessions db
       (filter (fun s => negb (String.eqb (Session.session_id s) sessionId))
          (learning_sessions db))).

Definition delete (sessionId : string) : M bool :=
  result <- del_where sessionId ;;
  ret (0 <? result)%nat.

(** A row of the table has the id. *)
Definition stored (sessionId : string) (db : DB) : bool :=
  existsb (fun s => String.eqb (Session.session_id s) sessionId)
    (learning_sessions db).

(** The condition under which [update] recalculates the coins. *)
Definition recalculates (updateData : UpdateSessionData) : bool :=
  is_defined (focus_time_minutes updateData)
  || is_defined (result_quantity updateData)
  || is_defined (task_id updateData)
  || is_defined (difficulty_id updateData).

(** [d] differs from [db] at most in the session rows of the id, and has as
    many rows. *)
Definition edited (sessionId : string) (db d : DB) : Prop :=
  coin_ledger d = coin_ledger db
  /\ Frame.same_catalog db d
  /\ List.length (learning_sessions d) = List.length (learning_sessions db)
  /\ filter (fun s => negb (String.eqb (Session.session_id s) sessionId))
       (learning_sessions d)
     = filter (fun s => negb (String.eqb (Session.session_id s) sessionId))
         (learning_sessions db).

End LearningSessionEdit.

(* ===================================================================== *)
(** ** [getCoinHistory] (services/CoinService.ts) and [getDecayHistory]
       (services/CoinDecayService.ts) *)
(* ===================================================================== *)

Module CoinHistory.

(** [created_at] of the ledger row at a position; rows are stored in the
    order of their [created_at]. *)
Definition Clock := nat -> Z.

(** A ledger row as the queries return it, with its [created_at]. *)
Definition Record_ := (Z * Ledger.entry)%type.

Definition stamped (created_at : Clock) (ledger : list Ledger.entry) : list Record_ :=
  combine (map created_at (seq 0 (List.length ledger))) ledger.

(** [limit] and [offset] are counts; [startDate] and [endDate] are the
    instants the given date strings denote; [None] is an absent key. *)
Record Options := {
  limit : option nat;
  offset : option nat;
  startDate : option Z;
  endDate : option Z;
  changeType : option string
}.

Record Page := {
  records : list Record_;
  total : nat
}.

Definition ChangeType_name (c : ChangeType) : string :=
  match c with
  | earned => "earned"
  | decayed => "decayed"
  | redeemed => "redeemed"
  | bonus => "bonus"
  | penalty => "penalty"
  end.

(** [{ x = d } = options] *)
Definition default {A} (a : option A) (d : A) : A :=
  match a with
  | Some x => x
  | None => d
  end.

Definition since (startDate : option Z) (r : Record_) : bool :=
  match startDate with
  | Some t => (t <=? fst r)%Z
  | None => true
  end.

Definition until (endDate : option Z) (r : Record_) : bool :=
  match endDate with
  | Some t => (fst r <=? t)%Z
  | None => true
  end.

(** [if (changeType) query.where('change_type', changeType)]: the empty
    string is falsy. *)
Definition of_type (changeType : option string) (r : Record_) : bool :=
  match changeType with
  | Some c =>
      if String.eqb c "" then true
      else String.eqb (ChangeType_name (Ledger.change_type (snd r))) c
  | None => true
  end.

(** The [where] clauses both queries share. *)
Definition selected (userId : string) (options : Options) (r : Record_) : bool :=
  String.eqb (Ledger.user_id (snd r)) userId
  && since (startDate options) r
  && until (endDate options) r
  && of_type (changeType options) r.

Definition getCoinHistory (created_at : Clock) (userId : string) (options : Options)
  : M Page :=
  let limit := default (limit options) 20%nat in
  let offset := default (offset options) 0%nat in
  records <-
    select (fun db =>
      firstn limit
        (skipn offset
           (rev (filter (selected userId options)
                   (stamped created_at (coin_ledger db)))))) ;;
  count <-
    select (fun db =>
      List.length (filter (selected userId options)
                     (stamped created_at (coin_ledger db)))) ;;
  ret {| records := records; total := count |}.

(** Every row the filters of [options] select, newest first. *)
Definition matching (created_at : Clock) (userId : string) (options : Options)
    (db : DB) : list Record_ :=
  rev (filter (selected userId options) (stamped created_at (coin_ledger db))).

(** The same filters, another window. *)
Definition window (options : Options) (limit offset : nat) : Options :=
  {| limit := Some limit; offset := Some offset;
     startDate := startDate options; endDate := endDate options;
     changeType := changeType options |}.

(** The pages of [limit] rows at the offsets [0], [limit], ..., one after
    the other. *)
Fixpoint pages (created_at : Clock) (userId : string) (options : Options)
    (limit : nat) (db : DB) (n : nat) : list Record_ :=
  match n with
  | O => []
  | S n' =>
      (pages created_at userId options limit db n'
       ++ match run_out (getCoinHistory created_at userId
                           (window options limit (n' * limit))) db with
          | Returned page => records page
          | Thrown _ => []
          end)%list
  end.

End CoinHistory.

Module DecayHistory.

Record Options := {
  limit : option nat;
  offset : option nat;
  startDate : option Z;
  endDate : option Z
}.

Definition selected (userId : string) (options : Options) (r : CoinHistory.Record_)
  : bool :=
  String.eqb (Ledger.user_id (snd r)) userId
  && ChangeType_eqb (Ledger.change_type (snd r)) decayed
  && CoinHistory.since (startDate options) r
  && CoinHistory.until (endDate options) r.

Definition getDecayHistory (created_at : CoinHistory.Clock) (userId : string)
    (options : Options) : M CoinHistory.Page :=
  let limit := CoinHistory.default (limit options) 20%nat in
  let offset := CoinHistory.default (offset options) 0%nat in
  records <-
    select (fun db =>
      firstn limit
        (skipn offset
           (rev (filter (selected userId options)
                   (CoinHistory.stamped created_at (coin_ledger db)))))) ;;
  count <-
    select (fun db =>
      List.length (filter (selected userId options)
                     (CoinHistory.stamped created_at (coin_ledger db)))) ;;
  ret {| CoinHistory.records := records; CoinHistory.total := count |}.

(** The options of [getCoinHistory] that ask for the same rows. *)
Definition as_history (options : Options) : CoinHistory.Options :=
  {| CoinHistory.limit := limit options;
     CoinHistory.offset := offset options;
     CoinHistory.startDate := startDate options;
     CoinHistory.endDate := endDate options;
     CoinHistory.changeType := Some "decayed" |}.

End DecayHistory.

Module Sample7.

(** Row [i] of the ledger was written at second [i]. *)
Definition by_position : CoinHistory.Clock := fun i => (Z.of_nat i * 1000)%Z.

Definition no_filter : CoinHistory.Options :=
  {| CoinHistory.limit := None; CoinHistory.offset := None;
     CoinHistory.startDate := None; CoinHistory.endDate := None;
     CoinHistory.changeType := None |}.

(** Alice was given 100 and spent them; then an admin took 20 from her. *)
Definition three_rows : DB :=
  System.exec (System.AdjustCoins "alice" (-20) "late" "admin") Sample.spent_all.

End Sample7.

(* ===================================================================== *)
(** ** Request validation (middleware/validation.ts, routes/coins.ts) *)
(* ===================================================================== *)

Module Validation.

(** [Joi.number().integer()] *)
Definition integer (x : Js.number) : bool := Qeq_bool x (inject_Z (Qfloor x)).

(** [.min(a)], [.max(b)] *)
Definition at_least (a x : Js.number) : bool := Qle_bool a x.
Definition at_most (b x : Js.number) : bool := Qle_bool x b.

(** The rules of [commonSchemas.sessionCreation], and of the preview and
    batch routes, for the two numbers of a session:
    [focus_time_minutes: Joi.number().integer().min(0).max(1440)] and
    [result_quantity: Joi.number().integer().min(0)]. *)
Definition sessionNumbers (focus_time_minutes result_quantity : Js.number) : bool :=
  integer focus_time_minutes
  && at_least 0 focus_time_minutes
  && at_most 1440 focus_time_minutes
  && integer result_quantity
  && at_least 0 result_quantity.

End Validation.

(* ===================================================================== *)
(** ** [CoinCalculationEngine.batchCalculateCoins] (services/CoinService.ts) *)
(* ===================================================================== *)

Module Batch.
Import CoinCalculationEngine.

(** An element of the result: the default the [catch] pushes has neither
    [bonusCoins] nor [bonuses]. *)
Record Calculations := {
  focusTime : Js.number;
  focusRate : Js.number;
  resultQuantity : Js.number;
  baseCoin : Js.number;
  difficultyCoefficient : Js.number;
  bonuses : option (list Bonus)
}.

Record Result := {
  focusCoins : Js.number;
  resultCoins : Js.number;
  totalCoins : Js.number;
  bonusCoins : option Js.number;
  calculations : Calculations
}.

(** A result of [calculateCoins] as an element. *)
Definition calculated (r : CoinCalculationResult) : Result :=
  {| focusCoins := CoinCalculationEngine.focusCoins r;
     resultCoins := CoinCalculationEngine.resultCoins r;
     totalCoins := CoinCalculationEngine.totalCoins r;
     bonusCoins := Some (CoinCalculationEngine.bonusCoins r);
     calculations :=
       {| focusTime := Calc.focusTime (CoinCalculationEngine.calculations r);
          focusRate := Calc.focusRate (CoinCalculationEngine.calculations r);
          resultQuantity :=
            Calc.resultQuantity (CoinCalculationEngine.calculations r);
          baseCoin := Calc.baseCoin (CoinCalculationEngine.calculations r);
          difficultyCoefficient :=
            Calc.difficultyCoefficient (CoinCalculationEngine.calculations r);
          bonuses := Some (Calc.bonuses (CoinCalculationEngine.calculations r)) |} |}.

Definition fallback (input : CoinCalculationInput) : Result :=
  {| focusCoins := 0;
     resultCoins := 0;
     totalCoins := 0;
     bonusCoins := None;
     calculations :=
       {| focusTime := focusTimeMinutes input;
          focusRate := FOCUS_COIN_RATE;
          resultQuantity := CoinCalculationEngine.resultQuantity input;
          baseCoin := 0;
          difficultyCoefficient := 1;
          bonuses := None |} |}.

Definition batchCalculateCoins (inputs : list CoinCalculationInput)
  : M (list Result) :=
  fold_of inputs [] (fun results input =>
    try_catch
      (result <- calculateCoins input ;;
       ret (results ++ [calculated result])%list)
      (fun _ => ret (results ++ [fallback input])%list)).

(** The element for one input, calculated on its own. *)
Definition element (db : DB) (input : CoinCalculationInput) : Result :=
  match run_out (calculateCoins input) db with
  | Returned r => calculated r
  | Thrown _ => fallback input
  end.

End Batch.

(* ===================================================================== *)
(** ** Controllers (controllers/CoinController.ts, controllers/DecayController.ts)
       and the error handler (middleware/error.ts) *)
(* ===================================================================== *)

Module Http.

(** What a handler throws: an [AppError] with its status, or another
    [Error]. *)
Inductive Failure :=
| AppError (message : string) (statusCode : Z)
| Error (message : string).

(** What the client receives: [ResponseHelper.success] (200),
    [ResponseHelper.created] (201), or the status and message [errorHandler]
    sends. *)
Inductive Response (A : Type) :=
| Success (data : A) (message : string)
| Created (data : A) (message : string)
| Rejected (statusCode : Z) (message : string).
Arguments Success {A} data message.
Arguments Created {A} data message.
Arguments Rejected {A} statusCode message.

(** [s.includes(sub)] *)
Fixpoint includes (s sub : string) : bool :=
  if String.prefix sub s then true
  else match s with
       | EmptyString => false
       | String _ s' => includes s' sub
       end.

(** [errorHandler]; the errors of the services are no [SyntaxError]. *)
Definition errorHandler {A} (error : Failure) : Response A :=
  match error with
  | AppError message statusCode => Rejected statusCode message
  | Error message =>
      if includes message "duplicate key" then Rejected 409 "Resource already exists"
      else if includes message "validation" then Rejected 400 message
      else Rejected 500 "Internal Server Error"
  end.

(** A handler wrapped in [asyncHandler], with [errorHandler] behind it. *)
Definition Handler (A : Type) : Type := DB -> Response A * DB.

(** The body of a handler: it answers, or throws. *)
Definition Action (A : Type) : Type := DB -> (Failure + A) * DB.

Definition lift {A} (m : M A) : Action A :=
  fun db =>
    match m db with
    | (Returned a, db') => (inr a, db')
    | (Thrown message, db') => (inl (Error message), db')
    end.

Definition answer {A} (a : A) : Action A := fun db => (inr a, db).

Definition fail {A} (error : Failure) : Action A := fun db => (inl error, db).

Definition and_then {A B} (m : Action A) (k : A -> Action B) : Action B :=
  fun db =>
    match m db with
    | (inr a, db') => k a db'
    | (inl error, db') => (inl error, db')
    end.

Definition catch {A} (m : Action A) (h : Failure -> Action A) : Action A :=
  fun db =>
    match m db with
    | (inr a, db') => (inr a, db')
    | (inl error, db') => h error db'
    end.

(** [error.message] *)
Definition message_of (error : Failure) : string :=
  match error with
  | AppError message _ => message
  | Error message => message
  end.

Definition asyncHandler {A} (fn : Action (Response A)) : Handler A :=
  fun db =>
    match fn db with
    | (inr response, db') => (response, db')
    | (inl error, db') => (errorHandler error, db')
    end.

(** [req.user] *)
Record User := {
  user_id : string;
  role : string
}.

End Http.

Module CoinController.
Import Http.

(** The body of [POST /preview]; an absent or empty [sessionDate] is
    replaced by today. *)
Record PreviewBody := {
  taskId : string;
  difficultyId : string;
  focusTimeMinutes : Js.number;
  resultQuantity : Js.number;
  sessionDate : option Z
}.

(** The input [previewCalculation] hands to [calculateCoins]. *)
Definition preview_input (now : Z) (user : User) (body : PreviewBody)
  : CoinCalculationEngine.CoinCalculationInput :=
  {| CoinCalculationEngine.userId := user_id user;
     CoinCalculationEngine.taskId := taskId body;
     CoinCalculationEngine.difficultyId := difficultyId body;
     CoinCalculationEngine.focusTimeMinutes := focusTimeMinutes body;
     CoinCalculationEngine.resultQuantity := resultQuantity body;
     CoinCalculationEngine.sessionDate :=
       match sessionDate body with
       | Some d => d
       | None => CoinDecayService.day_of now
       end |}.

Definition previewCalculation (now : Z) (user : User) (body : PreviewBody)
  : Handler CoinCalculationEngine.CoinCalculationResult :=
  fun db =>
    match CoinCalculationEngine.calculateCoins (preview_input now user body) db with
    | (Returned calculation, db') =>
        (Success calculation "Coin calculation preview completed", db')
    | (Thrown message, db') =>
        (errorHandler
           (if includes message "not found"
            then AppError "Invalid task or difficulty ID" 400
            else Error message),
         db')
    end.

Definition adjustCoins (user : User) (userId : string) (amount : Js.number)
    (reason : string) : Handler unit :=
  fun db =>
    let adminId := user_id user in
    if negb (String.eqb (role user) "admin")
    then (errorHandler (AppError "Admin privileges required" 403), db)
    else
      match CoinService.adjustCoins userId amount reason adminId db with
      | (Returned _, db') => (Success tt "Coins adjusted successfully", db')
      | (Thrown message, db') => (errorHandler (Error message), db')
      end.

End CoinController.

Module DecayController.
Import Http.

(** [days] is the query parameter as a whole number, 7 when absent. *)
Definition getPrediction (env : CoinDecayService.Env) (user : User) (days : option Z)
  : Handler (list CoinDecayService.Prediction) :=
  fun db =>
    let days := match days with Some d => d | None => 7%Z end in
    if (30 <? days)%Z
    then (errorHandler (AppError "Prediction period cannot exceed 30 days" 400), db)
    else
      match CoinDecayService.predictDecay env (user_id user) days db with
      | (Returned prediction, db') =>
          (Success prediction "Decay prediction retrieved successfully", db')
      | (Thrown message, db') => (errorHandler (Error message), db')
      end.

(** The message of the success response: the template renders the user id
    when one was given. *)
Definition triggerDecay (env : CoinDecayService.Env) (user : User)
    (userId : option string) : Handler unit :=
  fun db =>
    if negb (String.eqb (role user) "admin")
    then (errorHandler (AppError "Admin privileges required" 403), db)
    else
      match CoinDecayService.triggerDecay env userId db with
      | (Returned _, db') =>
          (Success tt
             match userId with
             | Some u =>
                 if String.eqb u "" then "Decay triggered for all users"
                 else "Decay triggered for user " ++ u
             | None => "Decay triggered for all users"
             end,
           db')
      | (Thrown message, db') => (errorHandler (Error message), db')
      end.

End DecayController.

Module SessionController.
Import Http.

(** The keys the handlers read from [req.body]. *)
Record Body := {
  task_id : option string;
  difficulty_id : option string;
  session_date : option Z;
  focus_time_minutes : option Js.number;
  result_quantity : option Js.number;
  notes : option string;
  metadata : option Js.Json
}.

(** [catch (error) { if (error.message.includes('not found')) throw new
    AppError('Invalid task or difficulty ID', 400); throw error }] *)
Definition not_found_is_400 {A} (error : Failure) : Action A :=
  if includes (message_of error) "not found"
  then fail (AppError "Invalid task or difficulty ID" 400)
  else fail error.

(** [create], for a body with the required keys; [sessionId], [now] and
    [earned_now] are what [LearningSessionModel.create] takes from its
    surroundings. *)
Definition create (sessionId : string) (now : Z)
    (earned_now : list LearningSessionModel.Achievement) (user : User)
    (task_id difficulty_id : string) (session_date : Z)
    (focus_time_minutes result_quantity : Js.number) (notes : option string)
    (metadata : option Js.Json) : Handler Session.row :=
  asyncHandler
    (catch
       (and_then
          (lift
             (LearningSessionModel.create sessionId now earned_now
                {| LearningSessionModel.user_id := user_id user;
                   LearningSessionModel.task_id := task_id;
                   LearningSessionModel.difficulty_id := difficulty_id;
                   LearningSessionModel.session_date := session_date;
                   LearningSessionModel.focus_time_minutes := focus_time_minutes;
                   LearningSessionModel.result_quantity := result_quantity;
                   LearningSessionModel.notes := notes;
                   LearningSessionModel.metadata := metadata |}))
          (fun session =>
             answer (Created session "Learning session created successfully")))
       not_found_is_400).

(** The check [update] and [delete] start with. *)
Definition owned_session (user : User) (sessionId : string) : Action Session.row :=
  and_then (lift (LearningSessionEdit.findById sessionId))
    (fun existingSession =>
       match existingSession with
       | None => fail (AppError "Session not found" 404)
       | Some existingSession =>
           if negb (String.eqb (Session.user_id existingSession) (user_id user))
           then fail (AppError "Access denied" 403)
           else answer existingSession
       end).

Definition update (user : User) (sessionId : string) (body : Body)
  : Handler Session.row :=
  asyncHandler
    (and_then (owned_session user sessionId)
       (fun _ =>
          catch
            (and_then
               (lift
                  (LearningSessionEdit.update sessionId
                     {| LearningSessionEdit.user_id := None;
                        LearningSessionEdit.task_id := task_id body;
                        LearningSessionEdit.difficulty_id := difficulty_id body;
                        LearningSessionEdit.session_date := session_date body;
                        LearningSessionEdit.focus_time_minutes :=
                          focus_time_minutes body;
                        LearningSessionEdit.result_quantity := result_quantity body;
                        LearningSessionEdit.notes := notes body;
                        LearningSessionEdit.metadata := metadata body |}))
               (fun updatedSession =>
                  match updatedSession with
                  | None => fail (AppError "Failed to update session" 500)
                  | Some updatedSession =>
                      answer (Success updatedSession "Session updated successfully")
                  end))
            not_found_is_400)).

Definition delete (user : User) (sessionId : string) : Handler unit :=
  asyncHandler
    (and_then (owned_session user sessionId)
       (fun _ =>
          and_then (lift (LearningSessionEdit.delete sessionId))
            (fun success =>
               if success
               then answer (Success tt "Session deleted successfully")
               else fail (AppError "Failed to delete session" 500)))).

(** The owner of the stored session of the id. *)
Definition owner_of (sessionId : string) (db : DB) : option string :=
  option_map Session.user_id
    (hd_error
       (filter (fun s => String.eqb (Session.session_id s) sessionId)
          (learning_sessions db))).

End SessionController.

(* ===================================================================== *)
(** ** [AnalyticsService.getStudyStreak] (services/CoinService.ts) *)
(* ===================================================================== *)

Module AnalyticsService.
Import CoinCalculationEngine.

(** The distinct dates of the user's completed sessions, latest first. *)
Definition study_days (userId : string) (db : DB) : list Z :=
  distinct_desc
    (map Session.session_date
       (filter (completed_of userId) (learning_sessions db))).

(** The loop of [getStudyStreak] from index [i] with [streak] counted so
    far. *)
Fixpoint study_walk (today : Z) (i : nat) (streak : Z) (recentSessions : list Z) : Z :=
  match recentSessions with
  | [] => streak
  | sessionDate :: rest =>
      if (sessionDate =? today - streak)%Z then
        study_walk today (S i) (streak + 1)%Z rest
      else if (streak =? 0)%Z && (i =? 0)%nat then
        if (sessionDate =? today - 1)%Z then 1%Z else streak
      else streak
  end.

Definition getStudyStreak (now : Z) (userId : string) : M Z :=
  recentSessions <- select (fun db => firstn 100 (study_days userId db)) ;;
  if (List.length recentSessions =? 0)%nat then ret 0%Z
  else
    let today := CoinDecayService.day_of now in
    ret (study_walk today 0 0%Z recentSessions).

End AnalyticsService.

(* ===================================================================== *)
(** ** [startScheduler] and [stopScheduler] (services/CoinDecayService.ts) *)
(* ===================================================================== *)

Module Scheduler.

(** The two callbacks [startScheduler] hands to [cron.schedule]; what they
    run is [CoinDecayService.dailyJob] and [CoinDecayService.hourlyJob]. *)
Inductive Callback := daily | hourly.

(** The static flag of the class, and the tasks registered with [cron]. *)
Record State := {
  isSchedulerRunning : bool;
  scheduled : list (string * Callback)
}.

Definition initial : State :=
  {| isSchedulerRunning := false; scheduled := [] |}.

Definition startScheduler (s : State) : State :=
  if isSchedulerRunning s then s
  else
    {| isSchedulerRunning := true;
       scheduled :=
         (scheduled s ++ [("0 2 * * *", daily); ("0 * * * *", hourly)])%list |}.

Definition stopScheduler (s : State) : State :=
  {| isSchedulerRunning := false; scheduled := scheduled s |}.

Inductive Call := start | stop.

Definition call (s : State) (c : Call) : State :=
  match c with
  | start => startScheduler s
  | stop => stopScheduler s
  end.

(** The state after a sequence of calls, oldest first. *)
Definition after (calls : list Call) (s : State) : State := fold_left call calls s.

(** The tasks a sequence of calls registers from a scheduler whose flag is
    [running]. *)
Fixpoint registered (running : bool) (calls : list Call) : list (string * Callback) :=
  match calls with
  | [] => []
  | start :: calls' =>
      if running then registered true calls'
      else ("0 2 * * *", daily) :: ("0 * * * *", hourly) :: registered true calls'
  | stop :: calls' => registered false calls'
  end.

End Scheduler.

(* ===================================================================== *)
(** ** [CoinService.getUserRanking] (services/CoinService.ts) *)
(* ===================================================================== *)

Module Ranking.

(** [Math.round]: the nearest integer, halves upwards. *)
Definition round (x : Js.number) : Js.number := Js.floor (x + (1 # 2)).

(** [SELECT user_id, MAX(balance_after) AS balance ... GROUP BY user_id]: one
    row per user, taken up to the rows read so far. *)
Fixpoint upsert (userId : string) (balance : Js.number)
    (groups : list (string * Js.number)) : list (string * Js.number) :=
  match groups with
  | [] => [(userId, balance)]
  | (u, b) :: rest =>
      if String.eqb u userId then (u, Qmax b balance) :: rest
      else (u, b) :: upsert userId balance rest
  end.

Definition balances (ledger : list Ledger.entry) : list (string * Js.number) :=
  fold_left (fun groups e => upsert (Ledger.user_id e) (Ledger.balance_after e) groups)
    ledger [].

(** [orderBy('balance', 'desc')]; groups of equal balance keep their order. *)
Fixpoint insert_by_balance (g : string * Js.number)
    (l : list (string * Js.number)) : list (string * Js.number) :=
  match l with
  | [] => [g]
  | x :: l' =>
      if Qle_bool (snd x) (snd g) then g :: l
      else x :: insert_by_balance g l'
  end.

Definition by_balance_desc (groups : list (string * Js.number))
  : list (string * Js.number) :=
  fold_right insert_by_balance [] groups.

(** [findIndex]: [-1] when no element passes. *)
Fixpoint findIndex {A} (p : A -> bool) (l : list A) : Z :=
  match l with
  | [] => (-1)%Z
  | x :: l' =>
      if p x then 0%Z
      else
        let i := findIndex p l' in
        if (i <? 0)%Z then (-1)%Z else (i + 1)%Z
  end.

Record Result := {
  rank : Z;
  totalUsers : Z;
  percentile : Js.number
}.

Definition getUserRanking (userId : string) : M Result :=
  userBalances <- select (fun db => by_balance_desc (balances (coin_ledger db))) ;;
  let totalUsers := Z.of_nat (List.length userBalances) in
  let userRank :=
    (findIndex (fun u => String.eqb (fst u) userId) userBalances + 1)%Z in
  let percentile :=
    if (userRank >? 0)%Z
    then (inject_Z (totalUsers - userRank + 1) / inject_Z totalUsers) * 100
    else 0 in
  ret {| rank := if (userRank =? 0)%Z then (totalUsers + 1)%Z else userRank;
         totalUsers := totalUsers;
         percentile := round (percentile * 100) / 100 |}.

(** The balance the ranking counts for a user: the highest [balance_after]
    of the user's rows. *)
Fixpoint peak (userId : string) (groups : list (string * Js.number))
  : option Js.number :=
  match groups with
  | [] => None
  | (u, b) :: rest => if String.eqb u userId then Some b else peak userId rest
  end.

End Ranking.

(* ===================================================================== *)
(** ** Appends that overlap *)
(* ===================================================================== *)

Module Interleaving.
Import CoinCalculationEngine.

(** The arguments of a call of [recordCoinTransaction]. *)
Record Call := {
  userId : string;
  amount : Js.number;
  changeType : ChangeType;
  sourceType : string;
  referenceId : string;
  description : string;
  metadata : Js.Json
}.

(** How far a call has come.  [recordCoinTransaction] awaits twice: first
    [getCurrentBalance], then the insert.  Between the two, other calls
    run. *)
Inductive Stage :=
| started
| holding (currentBalance : Js.number)
| finished.

(** The row the call inserts when the balance it read is [currentBalance]. *)
Definition row (c : Call) (currentBalance : Js.number) : Ledger.entry :=
  {| Ledger.user_id := userId c;
     Ledger.change_type := changeType c;
     Ledger.amount := amount c;
     Ledger.balance_after := currentBalance + amount c;
     Ledger.source_type := sourceType c;
     Ledger.reference_id := referenceId c;
     Ledger.description := description c;
     Ledger.metadata := metadata c |}.

(** A call runs up to its next [await]. *)
Definition step (c : Call) (s : Stage) : M Stage :=
  match s with
  | started =>
      currentBalance <- getCurrentBalance (userId c) ;;
      ret (holding currentBalance)
  | holding currentBalance =>
      insert_coin_ledger (row c currentBalance) ;;;
      ret finished
  | finished => ret finished
  end.

(** The calls in flight.  A schedule names, move by move, the call that
    runs next. *)
Definition Pool := list (Call * Stage).

Fixpoint move (i : nat) (pool : Pool) : M Pool :=
  match pool with
  | [] => ret []
  | (c, s) :: rest =>
      match i with
      | O => s' <- step c s ;; ret ((c, s') :: rest)
      | S i' => rest' <- move i' rest ;; ret ((c, s) :: rest')
      end
  end.

Definition run (schedule : list nat) (pool : Pool) : M Pool :=
  fold_of schedule pool (fun pool i => move i pool).

Definition fresh (calls : list Call) : Pool := map (fun c => (c, started)) calls.





End Interleaving.

Module Sample8.





Definition alice_only : DB := Sample.catalog [Sample.user "alice"] [] [].

End Sample8.

Module Sample9.

(** A task of base coin 1 and a difficulty of coefficient 0.57, which the
    column [decimal(4,2)] stores as it is. *)
Definition drill : Task.row :=
  {| Task.task_id := "task-drill"; Task.subject := Some "math";
     Task.task_type := Some "practice"; Task.base_coin := 1;
     Task.is_active := true |}.

Definition gentle : Difficulty.row :=
  {| Difficulty.difficulty_id := "diff-gentle"; Difficulty.label := "轻松";
     Difficulty.coefficient := 0.57; Difficulty.is_active := true |}.

Definition drills : DB :=
  {| users := [Sample.user "alice"]; task_definitions := [drill];
     difficulties := [gentle]; learning_sessions := [];
     coin_decay_rules := []; coin_ledger := [] |}.

(** A session of 100 results and no focus time. *)
Definition hundred : CoinCalculationEngine.CoinCalculationInput :=
  {| CoinCalculationEngine.userId := "alice";
     CoinCalculationEngine.taskId := "task-drill";
     CoinCalculationEngine.difficultyId := "diff-gentle";
     CoinCalculationEngine.focusTimeMinutes := 0;
     CoinCalculationEngine.resultQuantity := 100;
     CoinCalculationEngine.sessionDate := 98 |}.

End Sample9.

(* ===================================================================== *)
(** * Properties *)
(* ===================================================================== *)

Local Open Scope list_scope.

(* --------------------------------------------------------------------- *)
(** ** Rules for [triple] and [preserves] *)
(* --------------------------------------------------------------------- *)

Section Rules.
Context {A B : Type}.

Lemma triple_ret (P : DB -> Prop) (a : A) Q E :
  (forall db, P db -> Q a db) -> triple P (ret a) Q E.
Proof. intros H db HP. simpl. auto. Qed.

Lemma triple_throw (P : DB -> Prop) msg (Q : A -> DB -> Prop) (E : DB -> Prop) :
  (forall db, P db -> E db) -> triple P (throw msg) Q E.
Proof. intros H db HP. simpl. auto. Qed.

Lemma triple_select (P : DB -> Prop) (q : DB -> A) Q E :
  (forall db, P db -> Q (q db) db) -> triple P (select q) Q E.
Proof. intros H db HP. simpl. auto. Qed.

Lemma triple_bind (P : DB -> Prop) (m : M A) (k : A -> M B) R Q E :
  triple P m R E -> (forall a, triple (R a) (k a) Q E) -> triple P (bind m k) Q E.
Proof.
  intros Hm Hk db HP. unfold bind.
  specialize (Hm db HP). destruct (m db) as [[a | msg] db']; [ | exact Hm].
  exact (Hk a db' Hm).
Qed.

Lemma triple_try_catch (P : DB -> Prop) (m : M A) h Q E' E :
  triple P m Q E' -> (forall msg, triple E' (h msg) Q E) ->
  triple P (try_catch m h) Q E.
Proof.
  intros Hm Hh db HP. unfold try_catch.
  specialize (Hm db HP). destruct (m db) as [[a | msg] db']; [exact Hm | ].
  exact (Hh msg db' Hm).
Qed.

Lemma triple_conseq (P P' : DB -> Prop) (m : M A) (Q Q' : A -> DB -> Prop)
    (E E' : DB -> Prop) :
  triple P' m Q' E' ->
  (forall db, P db -> P' db) ->
  (forall a db, Q' a db -> Q a db) ->
  (forall db, E' db -> E db) ->
  triple P m Q E.
Proof.
  intros Hm HP HQ HE db Hdb. specialize (Hm db (HP db Hdb)).
  destruct (m db) as [[a | msg] db']; auto.
Qed.

End Rules.

(** A loop whose invariant follows the elements already visited. *)
Lemma triple_for_of {A} (I : list A -> DB -> Prop) (E : DB -> Prop)
    (body : A -> M unit) (l : list A) :
  (forall pre x post, l = pre ++ x :: post ->
     triple (I pre) (body x) (fun _ => I (pre ++ [x])) E) ->
  triple (I []) (for_of l body) (fun _ => I l) E.
Proof.
  enough (G : forall done todo, l = done ++ todo ->
            (forall pre x post, l = pre ++ x :: post ->
               triple (I pre) (body x) (fun _ => I (pre ++ [x])) E) ->
            triple (I done) (for_of todo body) (fun _ => I l) E).
  { intros H. apply (G [] l eq_refl H). }
  intros done todo. revert done.
  induction todo as [ | x todo IH]; intros done Hl H; simpl.
  - apply triple_ret. intros db Hdb. rewrite Hl, app_nil_r. exact Hdb.
  - eapply triple_bind.
    + apply (H done x todo Hl).
    + intros ?. apply IH; [ | exact H].
      rewrite Hl, <- app_assoc. reflexivity.
Qed.

Lemma triple_when (P : DB -> Prop) (c : bool) (m : M unit) Q E :
  (c = true -> triple P m Q E) ->
  (c = false -> forall db, P db -> Q tt db) ->
  triple P (when c m) Q E.
Proof.
  intros Ht Hf. destruct c; simpl.
  - apply Ht. reflexivity.
  - apply triple_ret. apply Hf. reflexivity.
Qed.

Section Preserves.
Variable I : DB -> Prop.

Lemma preserves_ret {A} (a : A) : preserves I (ret a).
Proof. apply triple_ret. auto. Qed.

Lemma preserves_throw {A} msg : preserves I (@throw A msg).
Proof. apply triple_throw. auto. Qed.

Lemma preserves_select {A} (q : DB -> A) : preserves I (select q).
Proof. apply triple_select. auto. Qed.

Lemma preserves_bind {A B} (m : M A) (k : A -> M B) :
  preserves I m -> (forall a, preserves I (k a)) -> preserves I (bind m k).
Proof. intros Hm Hk. eapply triple_bind; [exact Hm | exact Hk]. Qed.

Lemma preserves_try_catch {A} (m : M A) h :
  preserves I m -> (forall msg, preserves I (h msg)) -> preserves I (try_catch m h).
Proof. intros Hm Hh. eapply triple_try_catch; [exact Hm | exact Hh]. Qed.

Lemma preserves_for_of {A} (l : list A) (body : A -> M unit) :
  (forall x, In x l -> preserves I (body x)) -> preserves I (for_of l body).
Proof.
  intros H. apply (triple_for_of (fun _ => I)).
  intros pre x post Hl. apply H. rewrite Hl. apply in_elt.
Qed.

Lemma preserves_fold_of {A S} (l : list A) (body : S -> A -> M S) :
  (forall acc x, preserves I (body acc x)) ->
  forall acc, preserves I (fold_of l acc body).
Proof.
  intros H. induction l as [ | x l IH]; intros acc; simpl.
  - apply preserves_ret.
  - apply preserves_bind; [apply H | intros acc'; apply IH].
Qed.

Lemma preserves_when (c : bool) (m : M unit) :
  preserves I m -> preserves I (when c m).
Proof. intros H. destruct c; simpl; [exact H | apply preserves_ret]. Qed.

Lemma preserves_run {A} (m : M A) db : preserves I m -> I db -> I (run_db m db).
Proof.
  intros H Hdb. specialize (H db Hdb). unfold run_db.
  destruct (m db) as [[a | msg] db']; exact H.
Qed.

End Preserves.

(** Breaks a monadic term down to its database accesses. *)
Ltac preserve_step :=
  match goal with
  | |- preserves _ (bind _ _) => apply preserves_bind; [ | intros ? ]
  | |- preserves _ (try_catch _ _) => apply preserves_try_catch; [ | intros ? ]
  | |- preserves _ (for_of _ _) => apply preserves_for_of; intros ? ?
  | |- preserves _ (fold_of _ _ _) => apply preserves_fold_of; intros ? ?
  | |- preserves _ (when _ _) => apply preserves_when
  | |- preserves _ (ret _) => apply preserves_ret
  | |- preserves _ (throw _) => apply preserves_throw
  | |- preserves _ (select _) => apply preserves_select
  | |- preserves _ (match ?x with _ => _ end) => destruct x
  | |- preserves _ (if ?c then _ else _) => destruct c
  end.

(* --------------------------------------------------------------------- *)
(** ** The ledger: balance trail *)
(* --------------------------------------------------------------------- *)

Section BalanceTrail.
Import CoinCalculationEngine Spec.

Lemma entries_of_snoc userId ledger e :
  entries_of userId (ledger ++ [e]) =
  entries_of userId ledger
  ++ (if String.eqb (Ledger.user_id e) userId then [e] else []).
Proof. unfold entries_of. rewrite filter_app. reflexivity. Qed.


Lemma closing_snoc prev l e : closing prev (l ++ [e]) = Ledger.balance_after e.
Proof. unfold closing. rewrite rev_unit. reflexivity. Qed.




Lemma or_else_zero x : Js.or_else x 0 == x.
Proof.
  unfold Js.or_else. destruct (Qeq_bool x 0) eqn:Hx; [ | reflexivity].
  apply Qeq_bool_eq in Hx. symmetry. exact Hx.
Qed.

(** [getCurrentBalance] reads the closing balance of the user's rows. *)
Lemma getCurrentBalance_run userId db :
  exists b, getCurrentBalance userId db = (Returned b, db)
            /\ b == currentBalance userId (coin_ledger db).
Proof.
  unfold getCurrentBalance, bind, select, latestRecord, currentBalance, closing,
    entries_of.
  destruct (rev (filter _ (coin_ledger db))) as [ | e r]; simpl.
  - exists 0. split; reflexivity.
  - eexists. split; [reflexivity | apply or_else_zero].
Qed.

(** [recordCoinTransaction] never throws and appends exactly one row. *)
Lemma recordCoinTransaction_run userId amount changeType sourceType referenceId
    description metadata db :
  exists b,
    b == currentBalance userId (coin_ledger db)
    /\ recordCoinTransaction userId amount changeType sourceType referenceId
         description metadata db
       = (Returned tt,
          with_ledger db
            (coin_ledger db ++
             [ {| Ledger.user_id := userId;
                  Ledger.change_type := changeType;
                  Ledger.amount := amount;
                  Ledger.balance_after := b + amount;
                  Ledger.source_type := sourceType;
                  Ledger.reference_id := referenceId;
                  Ledger.description := description;
                  Ledger.metadata := metadata |} ])).
Proof.
  destruct (getCurrentBalance_run userId db) as [b [Hrun Hb]].
  exists b. split; [exact Hb | ].
  unfold recordCoinTransaction, bind. rewrite Hrun. reflexivity.
Qed.




End BalanceTrail.

(* --------------------------------------------------------------------- *)
(** ** What every operation preserves *)
(* --------------------------------------------------------------------- *)

(** An invariant that each append other than a decay write preserves is
    preserved by every operation outside the decay engine. *)
Section EveryAppend.
Import CoinCalculationEngine.

Variable I : DB -> Prop.
Hypothesis I_record :
  forall userId amount changeType sourceType referenceId description metadata,
    changeType <> decayed ->
    preserves I
      (recordCoinTransaction userId amount changeType sourceType referenceId
         description metadata).

Lemma getConsecutiveLearningDays_preserves userId d :
  preserves I (getConsecutiveLearningDays userId d).
Proof. unfold getConsecutiveLearningDays. repeat preserve_step. Qed.

Lemma calculateBonusCoins_preserves userId taskId label d :
  preserves I (calculateBonusCoins userId taskId label d).
Proof.
  unfold calculateBonusCoins, calculateConsecutiveBonus, calculateFirstTimeBonus,
    calculateDailyGoalBonus.
  repeat first [apply getConsecutiveLearningDays_preserves | preserve_step].
Qed.

Lemma calculateCoins_preserves input : preserves I (calculateCoins input).
Proof.
  unfold calculateCoins.
  repeat first [apply calculateBonusCoins_preserves | preserve_step].
Qed.

Lemma processSessionReward_preserves sessionId input :
  preserves I (CoinService.processSessionReward sessionId input).
Proof.
  unfold CoinService.processSessionReward.
  repeat first [apply calculateCoins_preserves
               | apply I_record; discriminate
               | preserve_step].
Qed.

Lemma getCurrentBalance_preserves userId : preserves I (getCurrentBalance userId).
Proof. unfold getCurrentBalance. repeat preserve_step. Qed.

Lemma redeemReward_preserves userId rewardId cost description :
  preserves I (CoinService.redeemReward userId rewardId cost description).
Proof.
  unfold CoinService.redeemReward.
  repeat first [apply getCurrentBalance_preserves
               | apply I_record; discriminate
               | preserve_step].
Qed.

Lemma adjustCoins_preserves userId amount reason adminId :
  preserves I (CoinService.adjustCoins userId amount reason adminId).
Proof.
  unfold CoinService.adjustCoins.
  repeat first [apply I_record; destruct (Js.gt amount 0); discriminate
               | preserve_step].
Qed.

Lemma awardAchievement_preserves userId a :
  preserves I (LearningSessionModel.awardAchievement userId a).
Proof.
  unfold LearningSessionModel.awardAchievement.
  repeat first [apply I_record; discriminate | preserve_step].
Qed.

Lemma create_preserves sessionId now earned_now sessionData :
  (forall s,
     Session.session_id s = sessionId ->
     Session.user_id s = LearningSessionModel.user_id sessionData ->
     preserves I (LearningSessionModel.insert_learning_session s)) ->
  preserves I (LearningSessionModel.create sessionId now earned_now sessionData).
Proof.
  intros I_insert. unfold LearningSessionModel.create.
  repeat first [apply calculateCoins_preserves
               | apply I_insert; reflexivity
               | apply processSessionReward_preserves
               | apply awardAchievement_preserves
               | preserve_step].
Qed.

End EveryAppend.

(* --------------------------------------------------------------------- *)
(** ** The decay engine: the metadata queries are rejected *)
(* --------------------------------------------------------------------- *)

Section Rejected.
Import CoinCalculationEngine CoinDecayService.

Lemma metadata_is_rejected key : Pg.lexes (metadata_is key) = false.
Proof. reflexivity. Qed.

Lemma whereRaw_rejected {A} sql (rows : DB -> A) db :
  Pg.lexes sql = false ->
  Knex.whereRaw sql rows db = (Thrown Pg.syntax_error, db).
Proof. intros H. unfold Knex.whereRaw. rewrite H. reflexivity. Qed.

Lemma existingDecay_run userId sessionId ruleId db :
  existingDecay userId sessionId ruleId db = (Thrown Pg.syntax_error, db).
Proof. apply whereRaw_rejected, metadata_is_rejected. Qed.

Lemma applyDecayToSession_run env userId session rule db :
  applyDecayToSession env userId session rule db = (Thrown Pg.syntax_error, db).
Proof.
  unfold applyDecayToSession, bind. rewrite existingDecay_run. reflexivity.
Qed.

Lemma shouldRunHourlyDecay_run db :
  shouldRunHourlyDecay db = (Thrown Pg.syntax_error, db).
Proof.
  unfold shouldRunHourlyDecay, bind.
  rewrite whereRaw_rejected by apply metadata_is_rejected. reflexivity.
Qed.

Lemma hourlyJob_run env db : hourlyJob env db = (Thrown Pg.syntax_error, db).
Proof. unfold hourlyJob, bind. rewrite shouldRunHourlyDecay_run. reflexivity. Qed.

(** A loop whose turns either throw, leaving the database as it is, or do
    nothing: it throws at the first turn that does. *)
Lemma for_of_first_throw {A} (body : A -> M unit) (stops : A -> bool) msg
    (l : list A) db :
  (forall x, body x db = if stops x then (Thrown msg, db) else (Returned tt, db)) ->
  for_of l body db
  = if existsb stops l then (Thrown msg, db) else (Returned tt, db).
Proof.
  intros Hbody. induction l as [ | x l IH]; simpl; [reflexivity | ].
  unfold bind. rewrite Hbody. destruct (stops x); simpl; [reflexivity | exact IH].
Qed.

Lemma existsb_flat_map {A B} (f : B -> bool) (g : A -> list B) (l : list A) :
  existsb f (flat_map g l) = existsb (fun x => existsb f (g x)) l.
Proof.
  induction l as [ | x l IH]; simpl; [reflexivity | ].
  rewrite existsb_app, IH. reflexivity.
Qed.

Lemma existsb_map {A B} (f : B -> bool) (g : A -> B) (l : list A) :
  existsb f (map g l) = existsb (fun x => f (g x)) l.
Proof. induction l as [ | x l IH]; simpl; [ | rewrite IH]; reflexivity. Qed.

(** The two loops of [processUserDecay] from a database: the run throws as
    soon as a pair has reached its threshold, and writes nothing. *)
Lemma decay_loops_run env userId decayRules userSessions db :
  for_of decayRules (fun rule =>
    let applicableSessions := filterSessionsByRule userSessions rule in
    for_of applicableSessions (fun session =>
      let daysSinceSession := getDaysSince env (session_date session) in
      when (daysSinceSession >=? DecayRule.threshold_days rule)%Z
        (applyDecayToSession env userId session rule))) db
  = if existsb (Decay.due_at env 0) (Decay.pairs_with decayRules userSessions)
    then (Thrown Pg.syntax_error, db)
    else (Returned tt, db).
Proof.
  unfold Decay.pairs_with. rewrite existsb_flat_map.
  apply for_of_first_throw. intros rule. cbv zeta.
  rewrite existsb_map.
  apply for_of_first_throw. intros session.
  unfold Decay.due_at, when. simpl fst. simpl snd. rewrite Z.add_0_r.
  destruct (_ >=? _)%Z; [apply applyDecayToSession_run | reflexivity].
Qed.

Lemma processUserDecay_run env userId decayRules db :
  processUserDecay env userId decayRules db
  = if existsb (Decay.due_at env 0)
         (Decay.pairs_with decayRules (Decay.sessions_of env userId db))
    then (Thrown Pg.syntax_error, db)
    else (Returned tt, db).
Proof.
  unfold processUserDecay, getUserSessionsForDecay, bind, select.
  apply decay_loops_run.
Qed.

(** A run of [processUserDecay] never writes. *)
Lemma processUserDecay_db env userId decayRules db :
  run_db (processUserDecay env userId decayRules) db = db.
Proof.
  unfold run_db. rewrite processUserDecay_run. destruct (existsb _ _); reflexivity.
Qed.

Lemma user_turn_run env user decayRules db :
  try_catch (processUserDecay env user decayRules) (fun _ => ret tt) db
  = (Returned tt, db).
Proof.
  unfold try_catch. rewrite processUserDecay_run. destruct (existsb _ _); reflexivity.
Qed.

Lemma for_of_nothing {A} (body : A -> M unit) (l : list A) d :
  (forall x, In x l -> body x d = (Returned tt, d)) ->
  for_of l body d = (Returned tt, d).
Proof.
  induction l as [ | x l IH]; intros Hbody; simpl; [reflexivity | ].
  unfold bind. rewrite (Hbody x (or_introl eq_refl)).
  apply IH. intros y Hy. apply Hbody. right. exact Hy.
Qed.

(** A cycle returns and writes nothing. *)
Lemma executeDecayProcess_run env db :
  executeDecayProcess env db = (Returned tt, db).
Proof.
  unfold executeDecayProcess, getActiveUsers, getActiveDecayRules, bind, select.
  apply for_of_nothing. intros user _. apply user_turn_run.
Qed.

Lemma dailyJob_run env db : dailyJob env db = (Returned tt, db).
Proof. unfold dailyJob, try_catch. rewrite executeDecayProcess_run. reflexivity. Qed.

Lemma triggerDecay_run env userId db :
  triggerDecay env userId db
  = match userId with
    | Some u =>
        if String.eqb u "" then (Returned tt, db)
        else processUserDecay env u (Decay.rules_of db) db
    | None => (Returned tt, db)
    end.
Proof.
  unfold triggerDecay. destruct userId as [u | ].
  - destruct (String.eqb u ""); [apply executeDecayProcess_run | reflexivity].
  - apply executeDecayProcess_run.
Qed.

Lemma triggerDecay_db env userId db : run_db (triggerDecay env userId) db = db.
Proof.
  unfold run_db. rewrite triggerDecay_run.
  destruct userId as [u | ]; [ | reflexivity].
  destruct (String.eqb u ""); [reflexivity | apply processUserDecay_db].
Qed.

(** The innermost loop of [predictDecay] on one rule, and the two loops of
    a day: they throw as soon as a pair has reached its threshold by that
    day, and otherwise leave the running sums as they are. *)
Lemma fold_of_first_throw {A S} (body : S -> A -> M S) (stops : A -> bool) msg
    (l : list A) (acc : S) db :
  (forall acc x,
     body acc x db = if stops x then (Thrown msg, db) else (Returned acc, db)) ->
  fold_of l acc body db
  = if existsb stops l then (Thrown msg, db) else (Returned acc, db).
Proof.
  intros Hbody. induction l as [ | x l IH]; simpl; [reflexivity | ].
  unfold bind. rewrite Hbody. destruct (stops x); simpl; [reflexivity | exact IH].
Qed.

Lemma predict_session_run env userId i rule acc session db :
  predict_session env userId i rule acc session db
  = if Decay.due_at env i (rule, session)
    then (Thrown Pg.syntax_error, db)
    else (Returned acc, db).
Proof.
  unfold predict_session, Decay.due_at. simpl fst. simpl snd.
  destruct (_ >=? _)%Z; [ | reflexivity].
  unfold bind. rewrite existingDecay_run. reflexivity.
Qed.

Lemma predict_day_run env userId decayRules userSessions i db :
  predict_day env userId decayRules userSessions i db
  = if existsb (Decay.due_at env i) (Decay.pairs_with decayRules userSessions)
    then (Thrown Pg.syntax_error, db)
    else (Returned (Decay.nothing_on env i), db).
Proof.
  unfold predict_day, bind.
  assert (Hloops :
    fold_of decayRules (0, 0%Z) (fun acc rule =>
      fold_of (filterSessionsByRule userSessions rule) acc
        (predict_session env userId i rule)) db
    = if existsb (Decay.due_at env i) (Decay.pairs_with decayRules userSessions)
      then (Thrown Pg.syntax_error, db)
      else (Returned (0, 0%Z), db)).
  { unfold Decay.pairs_with. rewrite existsb_flat_map.
    apply fold_of_first_throw. intros acc rule.
    rewrite existsb_map.
    apply fold_of_first_throw. intros acc' session.
    apply predict_session_run. }
  rewrite Hloops. destruct (existsb _ _); reflexivity.
Qed.

(** [predictDecay]: it throws as soon as a pair has reached its threshold by
    a day of the horizon; otherwise every day has nothing. *)
Lemma predictDecay_run env userId days db :
  predictDecay env userId days db
  = if existsb
         (fun i => existsb (Decay.due_at env i) (Decay.pairs env userId db))
         (offsets days)
    then (Thrown Pg.syntax_error, db)
    else (Returned (map (Decay.nothing_on env) (offsets days)), db).
Proof.
  unfold predictDecay, getActiveDecayRules, getUserSessionsForDecay, bind, select.
  fold (Decay.rules_of db). fold (Decay.sessions_of env userId db).
  unfold Decay.pairs.
  set (rules := Decay.rules_of db). set (sessions := Decay.sessions_of env userId db).
  enough (Hloop : forall l predictions,
    fold_of l predictions (fun predictions i =>
      p <- predict_day env userId rules sessions i ;;
      ret (predictions ++ [p])) db
    = if existsb (fun i => existsb (Decay.due_at env i)
                             (Decay.pairs_with rules sessions)) l
      then (Thrown Pg.syntax_error, db)
      else (Returned (predictions ++ map (Decay.nothing_on env) l), db))
    by apply (Hloop (offsets days) []).
  induction l as [ | i l IH]; intros predictions; simpl.
  - rewrite app_nil_r. reflexivity.
  - unfold bind at 1. unfold bind at 1. rewrite predict_day_run.
    destruct (existsb (Decay.due_at env i) _); simpl; [reflexivity | ].
    rewrite IH. destruct (existsb _ l); [reflexivity | ].
    rewrite <- app_assoc. reflexivity.
Qed.

Lemma predictDecay_db env userId days db :
  run_db (predictDecay env userId days) db = db.
Proof.
  unfold run_db. rewrite predictDecay_run. destruct (existsb _ _); reflexivity.
Qed.

End Rejected.

(** The runs of the decay engine write nothing, so an invariant of the other
    appends is an invariant of the whole system. *)
Section EveryWrite.
Import CoinCalculationEngine CoinDecayService.

Variable I : DB -> Prop.
Hypothesis I_record :
  forall userId amount changeType sourceType referenceId description metadata,
    changeType <> decayed ->
    preserves I
      (recordCoinTransaction userId amount changeType sourceType referenceId
         description metadata).
Hypothesis I_ledger_only :
  forall db db', coin_ledger db = coin_ledger db' -> I db -> I db'.

Lemma exec_preserves op db : I db -> I (System.exec op db).
Proof.
  intros Hdb. destruct op; simpl.
  - apply preserves_run; [ | exact Hdb].
    apply create_preserves; [exact I_record | ].
    intros s _ _ d Hd. simpl. apply (I_ledger_only d); [reflexivity | exact Hd].
  - apply preserves_run; [ | exact Hdb].
    apply redeemReward_preserves. exact I_record.
  - apply preserves_run; [ | exact Hdb].
    apply adjustCoins_preserves. exact I_record.
  - apply preserves_run; [ | exact Hdb].
    apply awardAchievement_preserves. exact I_record.
  - unfold run_db. rewrite dailyJob_run. exact Hdb.
  - unfold run_db. rewrite hourlyJob_run. exact Hdb.
  - rewrite triggerDecay_db. exact Hdb.
  - rewrite predictDecay_db. exact Hdb.
  - apply (I_ledger_only db); [reflexivity | exact Hdb].
Qed.

Lemma run_preserves history : forall db, I db -> I (System.run history db).
Proof.
  unfold System.run. induction history as [ | op history IH]; intros db Hdb; simpl.
  - exact Hdb.
  - apply IH. apply exec_preserves. exact Hdb.
Qed.

End EveryWrite.

(* --------------------------------------------------------------------- *)
(** ** The ledger: appends that overlap *)
(* --------------------------------------------------------------------- *)

Section Overlap.
Import CoinCalculationEngine Spec Interleaving.

Lemma step_run c s db :
  match s with
  | started =>
      exists b,
        b == currentBalance (userId c) (coin_ledger db)
        /\ step c s db = (Returned (holding b), db)
  | holding b =>
      step c s db = (Returned finished, Rows.append db (row c b))
  | finished => step c s db = (Returned finished, db)
  end.
Proof.
  destruct s as [ | b | ]; simpl; [ | reflexivity | reflexivity].
  destruct (getCurrentBalance_run (userId c) db) as [b [Hrun Hb]].
  exists b. split; [exact Hb | ]. unfold bind. rewrite Hrun. reflexivity.
Qed.

Lemma step_returns c s db : exists s', step c s db = (Returned s', run_db (step c s) db).
Proof.
  pose proof (step_run c s db) as H. unfold run_db.
  destruct s as [ | b | ].
  - destruct H as [b [_ H]]. rewrite H. eauto.
  - rewrite H. eauto.
  - rewrite H. eauto.
Qed.











End Overlap.




(* --------------------------------------------------------------------- *)
(** ** The ledger: who checks the balance *)
(* --------------------------------------------------------------------- *)

Lemma record_appends userId amount changeType sourceType referenceId
    description metadata db :
  exists b,
    b == Spec.currentBalance userId (coin_ledger db)
    /\ CoinCalculationEngine.recordCoinTransaction userId amount changeType
         sourceType referenceId description metadata db
       = (Returned tt,
          Rows.append db
            (Rows.appended userId amount changeType sourceType referenceId
               description metadata b)).
Proof. apply recordCoinTransaction_run. Qed.

Lemma Js_lt_dec (x y : Js.number) :
  Js.lt x y = if Qlt_le_dec x y then true else false.
Proof.
  unfold Js.lt. destruct (Qlt_le_dec x y) as [Hlt | Hle].
  - destruct (Qle_bool y x) eqn:H; [ | reflexivity].
    apply Qle_bool_iff in H. exfalso. apply (Qlt_not_le _ _ Hlt H).
  - apply (proj2 (Qle_bool_iff y x)) in Hle. rewrite Hle. reflexivity.
Qed.

Lemma redeemReward_run userId rewardId coinsCost description db :
  exists b,
    b == Spec.currentBalance userId (coin_ledger db)
    /\ CoinService.redeemReward userId rewardId coinsCost description db
       = if Qlt_le_dec b coinsCost
         then (Thrown "Insufficient coin balance", db)
         else (Returned true,
               Rows.append db
                 (Rows.appended userId (- coinsCost) redeemed "reward" rewardId
                    ("兑换奖励：" ++ description)%string
                    (Js.JObj [("rewardId", Js.JStr rewardId)]) b)).
Proof.
  destruct (getCurrentBalance_run userId db) as [b [Hrun Hb]].
  exists b. split; [exact Hb | ].
  unfold CoinService.redeemReward, bind at 1. rewrite Hrun, Js_lt_dec.
  destruct (Qlt_le_dec b coinsCost); [reflexivity | ].
  unfold try_catch, bind, CoinCalculationEngine.recordCoinTransaction, bind.
  rewrite Hrun. reflexivity.
Qed.

Lemma adjustCoins_run userId amount reason adminId db :
  exists b,
    b == Spec.currentBalance userId (coin_ledger db)
    /\ CoinService.adjustCoins userId amount reason adminId db
       = (Returned tt,
          Rows.append db
            (Rows.appended userId amount
               (if Js.gt amount 0 then bonus else penalty)
               "admin_adjustment" adminId ("管理员调整：" ++ reason)%string
               (Js.JObj [("adminId", Js.JStr adminId)]) b)).
Proof.
  destruct (getCurrentBalance_run userId db) as [b [Hrun Hb]].
  exists b. split; [exact Hb | ].
  unfold CoinService.adjustCoins, try_catch,
    CoinCalculationEngine.recordCoinTransaction, bind.
  rewrite Hrun. reflexivity.
Qed.

(** An [integer] column takes a whole number of 32 bits. *)
Lemma int4_whole (x : Q) (z : Z) :
  x == inject_Z z -> (-2147483648 <= z <= 2147483647)%Z -> Pg.int4 x = true.
Proof.
  intros Hx Hz. unfold Pg.int4.
  assert (Hfloor : Qfloor x = z).
  { rewrite (Qfloor_comp _ _ Hx). apply Qfloor_Z. }
  rewrite Hfloor.
  apply andb_true_iff. split; [apply andb_true_iff; split | ].
  - apply Qeq_bool_iff. exact Hx.
  - apply Qle_bool_iff. rewrite Hx.
    change (-2147483648) with (inject_Z (-2147483648)).
    rewrite <- Zle_Qle. lia.
  - apply Qle_bool_iff. rewrite Hx.
    change 2147483647 with (inject_Z 2147483647).
    rewrite <- Zle_Qle. lia.
Qed.

(** C10.  No append compares the amount with the balance.  For every change
    kind, amount and balance, [recordCoinTransaction] builds the row whose
    [balance_after] is the balance read plus the amount and, the row being
    one the columns of [coin_ledger] take, returns having appended it.
    [redeemReward] alone compares first: it throws 'Insufficient coin
    balance' and writes nothing exactly when the balance is below the cost.
    [adjustCoins] appends whatever the balance is.  A penalty for a user
    without coins, and an append of kind [decayed] with the arguments
    [applyDecayToSession] passes, for a user who spent all, are rows the
    columns take, and they leave a negative [balance_after]. *)
Theorem only_redemption_checks_balance :
  (forall userId amount changeType sourceType referenceId description metadata db,
     exists b,
       b == Spec.currentBalance userId (coin_ledger db)
       /\ (Pg.takes_entry db
             (Rows.appended userId amount changeType sourceType referenceId
                description metadata b) = true ->
           CoinCalculationEngine.recordCoinTransaction userId amount changeType
             sourceType referenceId description metadata db
           = (Returned tt,
              Rows.append db
                (Rows.appended userId amount changeType sourceType referenceId
                   description metadata b))))
  /\ (forall userId rewardId coinsCost description db,
        exists b,
          b == Spec.currentBalance userId (coin_ledger db)
          /\ (b < coinsCost ->
              CoinService.redeemReward userId rewardId coinsCost description db
              = (Thrown "Insufficient coin balance", db))
          /\ (coinsCost <= b ->
              Pg.takes_entry db
                (Rows.appended userId (- coinsCost) redeemed "reward" rewardId
                   ("兑换奖励：" ++ description)%string
                   (Js.JObj [("rewardId", Js.JStr rewardId)]) b) = true ->
              CoinService.redeemReward userId rewardId coinsCost description db
              = (Returned true,
                 Rows.append db
                   (Rows.appended userId (- coinsCost) redeemed "reward"
                      rewardId ("兑换奖励：" ++ description)%string
                      (Js.JObj [("rewardId", Js.JStr rewardId)]) b))))
  /\ (forall userId amount reason adminId db,
        exists b,
          b == Spec.currentBalance userId (coin_ledger db)
          /\ (Pg.takes_entry db
                (Rows.appended userId amount
                   (if Js.gt amount 0 then bonus else penalty)
                   "admin_adjustment" adminId ("管理员调整：" ++ reason)%string
                   (Js.JObj [("adminId", Js.JStr adminId)]) b) = true ->
              CoinService.adjustCoins userId amount reason adminId db
              = (Returned tt,
                 Rows.append db
                   (Rows.appended userId amount
                      (if Js.gt amount 0 then bonus else penalty)
                      "admin_adjustment" adminId ("管理员调整：" ++ reason)%string
                      (Js.JObj [("adminId", Js.JStr adminId)]) b))))
  /\ (exists e,
        coin_ledger (run_db (CoinService.adjustCoins "alice" (-5) "late" "admin")
                       Sample8.alice_only) = [e]
        /\ Pg.takes_entry Sample8.alice_only e = true
        /\ Ledger.change_type e = penalty
        /\ Ledger.balance_after e < 0)
  /\ (exists e,
        coin_ledger
          (run_db
             (CoinCalculationEngine.recordCoinTransaction "alice" (-20) decayed
                "session_decay" "s1" "知识遗忘衰减 - r20"
                (Js.JObj [("rule_id", Js.JStr "r20")])) Sample.spent_all)
        = coin_ledger Sample.spent_all ++ [e]
        /\ Pg.takes_entry Sample.spent_all e = true
        /\ Ledger.change_type e = decayed
        /\ Ledger.balance_after e < 0).
Proof.
  split; [ | split; [ | split; [ | split]]].
  - intros.
    destruct (record_appends userId amount changeType sourceType referenceId
                description metadata db) as [b [Hb Hrun]].
    exists b. split; [exact Hb | ]. intros _. exact Hrun.
  - intros.
    destruct (redeemReward_run userId rewardId coinsCost description db)
      as [b [Hb Hrun]].
    exists b. split; [exact Hb | ]. split.
    + intros Hlt. rewrite Hrun. destruct (Qlt_le_dec b coinsCost) as [ | Hle];
        [reflexivity | ]. exfalso. exact (Qlt_not_le _ _ Hlt Hle).
    + intros Hle _. rewrite Hrun. destruct (Qlt_le_dec b coinsCost) as [Hlt | ];
        [ | reflexivity]. exfalso. exact (Qlt_not_le _ _ Hlt Hle).
  - intros.
    destruct (adjustCoins_run userId amount reason adminId db) as [b [Hb Hrun]].
    exists b. split; [exact Hb | ]. intros _. exact Hrun.
  - eexists. split; [reflexivity | ]. split; [reflexivity | ].
    split; [reflexivity | ]. reflexivity.
  - eexists. split; [reflexivity | ]. split; [reflexivity | ].
    split; [reflexivity | ]. reflexivity.
Qed.

(* --------------------------------------------------------------------- *)
(** ** Doubles: what rounding keeps *)
(* --------------------------------------------------------------------- *)

Section Doubles.

Lemma pow2_pos e : 0 < F64.pow2 e.
Proof. apply Qpower_0_lt. reflexivity. Qed.

Lemma pow2_add a b : F64.pow2 (a + b) == F64.pow2 a * F64.pow2 b.
Proof. apply Qpower_plus. discriminate. Qed.

Lemma pow2_Z n : (0 <= n)%Z -> F64.pow2 n == inject_Z (2 ^ n).
Proof.
  intros H. unfold F64.pow2. rewrite (Zpower_Qpower 2 n H). reflexivity.
Qed.

Lemma pow2_mono a b : (a <= b)%Z -> F64.pow2 a <= F64.pow2 b.
Proof. intros H. apply Qpower_le_compat_l; [exact H | discriminate]. Qed.

(** Rounding to the nearest whole number moves by at most a half and keeps
    whole numbers. *)
Lemma round_half_even_near y :
  inject_Z (F64.round_half_even y) - (1 # 2) <= y
  /\ y <= inject_Z (F64.round_half_even y) + (1 # 2).
Proof.
  unfold F64.round_half_even.
  pose proof (Qfloor_le y) as Hlo. pose proof (Qlt_floor y) as Hhi.
  rewrite inject_Z_plus in Hhi. change (inject_Z 1) with 1 in Hhi.
  destruct (Qcompare (y - inject_Z (Qfloor y)) (1 # 2)) eqn:Hc.
  - apply (proj2 (Qeq_alt _ _)) in Hc.
    destruct (Z.even (Qfloor y)); [ | rewrite inject_Z_plus; change (inject_Z 1) with 1];
      split; lra.
  - apply (proj2 (Qlt_alt _ _)) in Hc. split; lra.
  - apply (proj2 (Qgt_alt _ _)) in Hc. rewrite inject_Z_plus. change (inject_Z 1) with 1.
    split; lra.
Qed.

Lemma round_half_even_whole y k : y == inject_Z k -> F64.round_half_even y = k.
Proof.
  intros Hy. unfold F64.round_half_even.
  assert (Hf : Qfloor y = k) by (rewrite Hy; apply Qfloor_Z).
  rewrite Hf.
  assert (Hc : Qcompare (y - inject_Z k) (1 # 2) = Lt).
  { apply (proj1 (Qlt_alt _ _)). rewrite Hy. lra. }
  rewrite Hc. reflexivity.
Qed.

(** The significand has 53 bits: [2^52 <= |x| / 2^e]. *)
Lemma exponent_low x :
  ~ x == 0 -> F64.pow2 52 <= Qabs x / F64.pow2 (F64.exponent x).
Proof.
  intros Hx. unfold F64.exponent.
  set (a := Z.log2 (Z.abs (Qnum x))). set (b := Z.log2 (Zpos (Qden x))).
  destruct (Qle_bool (F64.pow2 52) (Qabs x / F64.pow2 (a - b - 52))) eqn:Htest.
  - apply Qle_bool_iff. exact Htest.
  - assert (Hn : (0 < Z.abs (Qnum x))%Z).
    { destruct x as [n d]. unfold Qeq in Hx. simpl in *. lia. }
    destruct (Z.log2_spec _ Hn) as [Hna _]. fold a in Hna.
    destruct (Z.log2_spec (Zpos (Qden x)) (Pos2Z.is_pos _)) as [_ Hdb]. fold b in Hdb.
    assert (Ha : (0 <= a)%Z) by apply Z.log2_nonneg.
    assert (Hb : (0 <= b)%Z) by apply Z.log2_nonneg.
    apply Qle_shift_div_l; [apply pow2_pos | ].
    assert (Hsplit : F64.pow2 52 * F64.pow2 (a - b - 52 - 1) * F64.pow2 (b + 1)
                     == F64.pow2 a).
    { rewrite <- !pow2_add. replace (52 + (a - b - 52 - 1) + (b + 1))%Z with a by lia.
      reflexivity. }
    assert (Hpos : 0 < F64.pow2 (b + 1)) by apply pow2_pos.
    apply (Qmult_le_r _ _ _ Hpos). rewrite Hsplit.
    rewrite (pow2_Z (b + 1)) by lia. rewrite (pow2_Z a) by exact Ha.
    destruct x as [n d]. simpl in *. unfold Qabs, Qle, Qmult. simpl.
    rewrite Z.mul_1_r.
    change (Z.succ b) with (b + 1)%Z in Hdb.
    assert (H2a : (0 < 2 ^ a)%Z) by (apply Z.pow_pos_nonneg; lia).
    nia.
Qed.

(** Rounding moves a number by at most one part in 2^53. *)
Lemma round_near x :
  0 <= x ->
  x * (1 - (1 # 9007199254740992)) <= F64.round x
  /\ F64.round x <= x * (1 + (1 # 9007199254740992)).
Proof.
  intros Hx. unfold F64.round.
  destruct (Qeq_bool x 0) eqn:H0.
  - apply Qeq_bool_iff in H0. rewrite H0. split; lra.
  - apply Qeq_bool_neq in H0.
    rewrite (proj2 (Qle_bool_iff 0 x) Hx).
    pose proof (exponent_low x H0) as Hlow.
    set (e := F64.exponent x) in *.
    pose proof (pow2_pos e) as He.
    pose proof (round_half_even_near (Qabs x / F64.pow2 e)) as [Hm1 Hm2].
    set (y := Qabs x / F64.pow2 e) in *.
    set (m := inject_Z (F64.round_half_even y)) in *.
    assert (Hxy : y * F64.pow2 e == x).
    { unfold y. rewrite (Qabs_pos x Hx). field. lra. }
    rewrite (pow2_Z 52) in Hlow by lia.
    change (inject_Z (2 ^ 52)) with 4503599627370496 in Hlow.
    assert (H1 : (m - (1 # 2)) * F64.pow2 e <= y * F64.pow2 e)
      by (apply Qmult_le_compat_r; lra).
    assert (H2 : y * F64.pow2 e <= (m + (1 # 2)) * F64.pow2 e)
      by (apply Qmult_le_compat_r; lra).
    assert (H3 : 4503599627370496 * F64.pow2 e <= y * F64.pow2 e)
      by (apply Qmult_le_compat_r; lra).
    rewrite Hxy in H1, H2, H3.
    set (p := F64.pow2 e) in *. clearbody p. clearbody m.
    split; lra.
Qed.

Lemma round_nonneg x : 0 <= x -> 0 <= F64.round x.
Proof.
  intros Hx. destruct (round_near x Hx) as [H _].
  assert (0 <= x * (1 - (1 # 9007199254740992))) by (apply Qmult_le_0_compat; lra).
  lra.
Qed.

(** A whole number of at most 53 bits is a double. *)
Lemma round_whole x z :
  x == inject_Z z -> (Z.abs z < 2 ^ 53)%Z -> F64.round x == inject_Z z.
Proof.
  intros Hxz Hz. unfold F64.round.
  destruct (Qeq_bool x 0) eqn:H0.
  - apply Qeq_bool_iff in H0. rewrite <- Hxz, H0. reflexivity.
  - apply Qeq_bool_neq in H0.
    pose proof (exponent_low x H0) as Hlow.
    set (e := F64.exponent x) in *.
    pose proof (pow2_pos e) as He.
    assert (Habs : Qabs x == inject_Z (Z.abs z)).
    { rewrite Hxz. unfold Qabs, inject_Z. simpl. reflexivity. }
    assert (Hbound : inject_Z (Z.abs z) < 9007199254740992).
    { change 9007199254740992 with (inject_Z (2 ^ 53)). rewrite <- Zlt_Qlt. exact Hz. }
    rewrite (pow2_Z 52) in Hlow by lia.
    change (inject_Z (2 ^ 52)) with 4503599627370496 in Hlow.
    assert (Hle : (e <= 0)%Z).
    { destruct (Z_le_gt_dec e 0) as [ | Hgt]; [assumption | exfalso].
      assert (H2 : 2 <= F64.pow2 e).
      { change 2 with (F64.pow2 1). apply pow2_mono. lia. }
      assert (H4 : 4503599627370496 * F64.pow2 e <= Qabs x).
      { apply (Qmult_le_r _ _ (F64.pow2 e)) in Hlow; [ | exact He].
        assert (Hy : Qabs x / F64.pow2 e * F64.pow2 e == Qabs x) by (field; lra).
        rewrite Hy in Hlow. exact Hlow. }
      rewrite Habs in H4. lra. }
    assert (Hk : Qabs x / F64.pow2 e == inject_Z (Z.abs z * 2 ^ (- e))).
    { rewrite inject_Z_mult, <- (pow2_Z (- e)) by lia. rewrite Habs.
      assert (Hinv : F64.pow2 e * F64.pow2 (- e) == 1).
      { rewrite <- pow2_add. replace (e + - e)%Z with 0%Z by lia. reflexivity. }
      pose proof (pow2_pos (- e)) as He'.
      assert (Hp : ~ F64.pow2 e == 0) by lra.
      assert (Hp' : F64.pow2 (- e) == / F64.pow2 e).
      { apply (proj1 (Qmult_inj_l _ _ (F64.pow2 e) Hp)).
        rewrite Hinv, Qmult_inv_r by exact Hp. reflexivity. }
      rewrite Hp'. reflexivity. }
    rewrite (round_half_even_whole _ _ Hk).
    assert (Hback : inject_Z (Z.abs z * 2 ^ (- e)) * F64.pow2 e == inject_Z (Z.abs z)).
    { rewrite <- Hk, <- Habs. field. lra. }
    destruct (Qle_bool 0 x) eqn:Hs; rewrite Hback.
    + apply Qle_bool_iff in Hs. rewrite Hxz in Hs.
      change 0 with (inject_Z 0) in Hs. rewrite <- Zle_Qle in Hs.
      rewrite Z.abs_eq by exact Hs. reflexivity.
    + assert (Hneg : ~ 0 <= x) by (rewrite <- Qle_bool_iff, Hs; discriminate).
      rewrite Hxz in Hneg. change 0 with (inject_Z 0) in Hneg.
      rewrite <- Zle_Qle in Hneg.
      rewrite Z.abs_neq by lia. rewrite inject_Z_opp. ring.
Qed.

(** The product of two whole numbers that has at most 53 bits is exact. *)
Lemma mul_whole x y zx zy :
  x == inject_Z zx -> y == inject_Z zy ->
  (Z.abs zx < 2 ^ 53)%Z -> (Z.abs zy < 2 ^ 53)%Z -> (Z.abs (zx * zy) < 2 ^ 53)%Z ->
  Js.mul x y == inject_Z (zx * zy).
Proof.
  intros Hx Hy Hzx Hzy Hz. unfold Js.mul.
  apply round_whole; [ | exact Hz].
  rewrite (round_whole x zx Hx Hzx), (round_whole y zy Hy Hzy), inject_Z_mult.
  reflexivity.
Qed.

Lemma mul_nonneg x y : 0 <= x -> 0 <= y -> 0 <= Js.mul x y.
Proof.
  intros Hx Hy. unfold Js.mul. apply round_nonneg.
  apply Qmult_le_0_compat; apply round_nonneg; assumption.
Qed.

End Doubles.

(* --------------------------------------------------------------------- *)
(** ** The reward calculator: focus and result coins *)
(* --------------------------------------------------------------------- *)

Section Reads.

Lemma reads_ret {A} (a : A) : reads (ret a).
Proof. intros db. exists a. reflexivity. Qed.

Lemma reads_select {A} (q : DB -> A) : reads (select q).
Proof. intros db. exists (q db). reflexivity. Qed.

Lemma reads_bind {A B} (m : M A) (k : A -> M B) :
  reads m -> (forall a, reads (k a)) -> reads (bind m k).
Proof.
  intros Hm Hk db. destruct (Hm db) as [a Ha]. destruct (Hk a db) as [b Hb].
  exists b. unfold bind. rewrite Ha. exact Hb.
Qed.

End Reads.

Ltac reads_step :=
  match goal with
  | |- reads (bind _ _) => apply reads_bind; [ | intros ? ]
  | |- reads (ret _) => apply reads_ret
  | |- reads (select _) => apply reads_select
  | |- reads (match ?x with _ => _ end) => destruct x
  | |- reads (if ?c then _ else _) => destruct c
  end.

Lemma calculateBonusCoins_reads userId taskId label d :
  reads (CoinCalculationEngine.calculateBonusCoins userId taskId label d).
Proof.
  unfold CoinCalculationEngine.calculateBonusCoins,
    CoinCalculationEngine.calculateConsecutiveBonus,
    CoinCalculationEngine.getConsecutiveLearningDays,
    CoinCalculationEngine.calculateFirstTimeBonus,
    CoinCalculationEngine.calculateDailyGoalBonus.
  repeat reads_step.
Qed.

Lemma calculateFocusCoins_formula m :
  CoinCalculationEngine.calculateFocusCoins m = Formula.focus_coins m.
Proof.
  unfold CoinCalculationEngine.calculateFocusCoins, Formula.focus_coins,
    Js.lt, Js.ge, CoinCalculationEngine.MIN_FOCUS_TIME,
    CoinCalculationEngine.FOCUS_COIN_RATE.
  destruct (Qle_bool 5 m); reflexivity.
Qed.

(** On whole minutes the focus coins are an integer division. *)
Lemma focus_coins_whole_minutes (z : Z) :
  Formula.focus_coins (inject_Z z)
  = inject_Z (if (5 <=? z)%Z then (z / 30)%Z else 0%Z).
Proof.
  unfold Formula.focus_coins, Js.ge, Js.floor, Qle_bool. simpl.
  rewrite Z.mul_1_r. destruct (5 <=? z)%Z; reflexivity.
Qed.

Section ResultCoins.

Lemma Qmult_le_l_nonneg (x y z : Q) : 0 <= z -> x <= y -> z * x <= z * y.
Proof.
  intros Hz Hxy. rewrite (Qmult_comm z x), (Qmult_comm z y).
  apply Qmult_le_compat_r; assumption.
Qed.

Lemma floor_between (x : Q) (d : Z) :
  inject_Z d <= x -> x < inject_Z (d + 1) -> Qfloor x = d.
Proof.
  intros Hlo Hhi.
  pose proof (Qfloor_le x) as Hf. pose proof (Qlt_floor x) as Hc.
  assert (H1 : (Qfloor x < d + 1)%Z).
  { rewrite Zlt_Qlt. apply (Qle_lt_trans _ x); assumption. }
  assert (H2 : (d < Qfloor x + 1)%Z).
  { rewrite Zlt_Qlt. apply (Qle_lt_trans _ x); assumption. }
  lia.
Qed.

Lemma floor_mid (x m : Q) (d : Z) :
  inject_Z d + m * (1 # 100) - (1 # 100) < x ->
  x < inject_Z d + m * (1 # 100) + (1 # 100) ->
  1 <= m -> m <= 99 ->
  Qfloor x = d.
Proof.
  intros Hlo Hhi Hm1 Hm2. apply floor_between.
  - lra.
  - rewrite inject_Z_plus. change (inject_Z 1) with 1. lra.
Qed.

Lemma floor_edge (x : Q) (d : Z) :
  inject_Z d - (1 # 100) < x ->
  x < inject_Z d + (1 # 100) ->
  Qfloor x = d \/ Qfloor x = (d - 1)%Z.
Proof.
  intros Hlo Hhi.
  destruct (Qlt_le_dec x (inject_Z d)) as [Hbelow | Habove].
  - right. apply floor_between.
    + unfold Z.sub. rewrite inject_Z_plus. change (inject_Z (- (1))) with (- (1)). lra.
    + replace (d - 1 + 1)%Z with d by lia. exact Hbelow.
  - left. apply floor_between; [exact Habove | ].
    rewrite inject_Z_plus. change (inject_Z 1) with 1. lra.
Qed.

(** The claimed floor, on a whole product and a coefficient in hundredths. *)
Lemma claimed_floor (n k : Z) (x : Q) :
  x == inject_Z n * (k # 100) -> Qfloor x = (n * k / 100)%Z.
Proof.
  intros Hx. rewrite Hx.
  assert (H : inject_Z n * (k # 100) == inject_Z (n * k) / inject_Z 100).
  { unfold Qeq, Qdiv, Qmult, Qinv, inject_Z. simpl. ring. }
  rewrite H. symmetry. apply Zdiv_Qdiv.
Qed.

(** The double product of a whole number below 2^31 and a coefficient of two
    decimals below 100 is within a hundredth of the exact product. *)
Lemma product_near (n k : Z) (N c : Q) :
  N == inject_Z n -> c == (k # 100) ->
  (0 <= n < 2 ^ 31)%Z -> (0 <= k <= 9999)%Z ->
  inject_Z n * (k # 100) - (1 # 100) < Js.mul N c
  /\ Js.mul N c < inject_Z n * (k # 100) + (1 # 100).
Proof.
  intros HN Hc Hn Hk. unfold Js.mul.
  assert (HNr : F64.round N == inject_Z n).
  { apply round_whole; [exact HN | ]. rewrite Z.abs_eq by lia.
    apply (Z.lt_trans _ (2 ^ 31)); [lia | reflexivity]. }
  assert (Hc0 : 0 <= c).
  { rewrite Hc. unfold Qle. simpl. lia. }
  assert (Hc1 : c <= 9999 # 100).
  { rewrite Hc. unfold Qle. simpl. lia. }
  assert (Hn0 : 0 <= inject_Z n).
  { change 0 with (inject_Z 0). rewrite <- Zle_Qle. lia. }
  assert (Hn1 : inject_Z n <= 2147483647).
  { change 2147483647 with (inject_Z 2147483647). rewrite <- Zle_Qle.
    change (2 ^ 31)%Z with 2147483648%Z in Hn. lia. }
  destruct (round_near c Hc0) as [HC1 HC2].
  assert (HC0 : 0 <= F64.round c) by (apply round_nonneg; exact Hc0).
  assert (HP0 : 0 <= F64.round N * F64.round c).
  { rewrite HNr. apply Qmult_le_0_compat; assumption. }
  destruct (round_near _ HP0) as [HR1 HR2].
  assert (HP : F64.round N * F64.round c == inject_Z n * F64.round c)
    by (rewrite HNr; reflexivity).
  set (P := F64.round N * F64.round c) in *.
  set (R := F64.round P) in *.
  assert (HX1 : inject_Z n * (c * (1 - (1 # 9007199254740992)))
                <= inject_Z n * F64.round c)
    by (apply Qmult_le_l_nonneg; assumption).
  assert (HX2 : inject_Z n * F64.round c
                <= inject_Z n * (c * (1 + (1 # 9007199254740992))))
    by (apply Qmult_le_l_nonneg; assumption).
  assert (HX3 : inject_Z n * c <= 2147483647 * c)
    by (apply Qmult_le_compat_r; assumption).
  assert (HX4 : 0 <= inject_Z n * c) by (apply Qmult_le_0_compat; assumption).
  rewrite <- HP in HX1, HX2.
  assert (HXa : inject_Z n * (c * (1 - (1 # 9007199254740992)))
                == inject_Z n * c * (1 - (1 # 9007199254740992))) by ring.
  assert (HXb : inject_Z n * (c * (1 + (1 # 9007199254740992)))
                == inject_Z n * c * (1 + (1 # 9007199254740992))) by ring.
  rewrite HXa in HX1. rewrite HXb in HX2.
  assert (HXc : inject_Z n * (k # 100) == inject_Z n * c) by (rewrite Hc; reflexivity).
  rewrite HXc.
  set (X := inject_Z n * c) in *.
  clearbody R P X. split; lra.
Qed.

(** Result coins in doubles: the claimed floor or one coin less. *)
Lemma result_coins_near (quantity base_coin hundredths : Z) :
  (0 <= quantity < 2 ^ 31)%Z -> (0 <= base_coin < 2 ^ 31)%Z ->
  (quantity * base_coin < 2 ^ 31)%Z -> (0 <= hundredths <= 9999)%Z ->
  let got :=
    CoinCalculationEngine.calculateResultCoins (inject_Z quantity)
      (inject_Z base_coin) (hundredths # 100) in
  let claimed :=
    Formula.result_coins (inject_Z quantity) (inject_Z base_coin)
      (hundredths # 100) in
  (got == claimed \/ got == claimed - 1)
  /\ ((quantity * base_coin * hundredths) mod 100 <> 0 -> got == claimed)%Z.
Proof.
  intros Hq Hb Hqb Hk got claimed.
  set (n := (quantity * base_coin)%Z).
  set (t := (n * hundredths)%Z).
  assert (Hclaimed : claimed = inject_Z (t / 100)).
  { unfold claimed, Formula.result_coins, Js.floor.
    rewrite (claimed_floor n hundredths); [reflexivity | ].
    unfold n. rewrite inject_Z_mult. reflexivity. }
  assert (HN : Js.mul (inject_Z quantity) (inject_Z base_coin) == inject_Z n).
  { apply mul_whole; try reflexivity.
    - rewrite Z.abs_eq by lia. apply (Z.lt_trans _ (2 ^ 31)); [lia | reflexivity].
    - rewrite Z.abs_eq by lia. apply (Z.lt_trans _ (2 ^ 31)); [lia | reflexivity].
    - rewrite Z.abs_eq by nia. apply (Z.lt_trans _ (2 ^ 31)); [lia | reflexivity]. }
  assert (Hn : (0 <= n < 2 ^ 31)%Z) by (unfold n; nia).
  destruct (product_near n hundredths _ (hundredths # 100) HN (Qeq_refl _) Hn Hk)
    as [Hlo Hhi].
  set (R := Js.mul (Js.mul (inject_Z quantity) (inject_Z base_coin))
              (hundredths # 100)) in *.
  assert (Hgot : got = inject_Z (Qfloor R)) by reflexivity.
  clearbody R.
  assert (HX : inject_Z n * (hundredths # 100)
               == inject_Z (t / 100) + inject_Z (t mod 100) * (1 # 100)).
  { assert (Ht : inject_Z n * (hundredths # 100) == inject_Z t / 100).
    { unfold t. rewrite inject_Z_mult.
      unfold Qeq, Qdiv, Qmult, Qinv, inject_Z. simpl. ring. }
    rewrite Ht. rewrite (Z.div_mod t 100) at 1 by discriminate.
    rewrite inject_Z_plus, inject_Z_mult. change (inject_Z 100) with 100. field. }
  rewrite HX in Hlo, Hhi.
  pose proof (Z.mod_pos_bound t 100 ltac:(reflexivity)) as Hmod.
  assert (Hm0 : 0 <= inject_Z (t mod 100)).
  { change 0 with (inject_Z 0). rewrite <- Zle_Qle. lia. }
  assert (Hm1 : inject_Z (t mod 100) <= 99).
  { change 99 with (inject_Z 99). rewrite <- Zle_Qle. lia. }
  rewrite Hgot, Hclaimed.
  destruct (Z.eq_dec (t mod 100) 0) as [Hzero | Hnonzero].
  - split; [ | intros H; contradiction].
    rewrite Hzero in Hlo, Hhi.
    assert (Hnil : inject_Z 0 * (1 # 100) == 0) by reflexivity.
    rewrite Hnil, Qplus_0_r in Hlo, Hhi.
    destruct (floor_edge R (t / 100) Hlo Hhi) as [Hfloor | Hfloor]; rewrite Hfloor.
    + left. reflexivity.
    + right. unfold Z.sub. rewrite inject_Z_plus. reflexivity.
  - assert (Hm2 : 1 <= inject_Z (t mod 100)).
    { change 1 with (inject_Z 1). rewrite <- Zle_Qle. lia. }
    rewrite (floor_mid R _ (t / 100) Hlo Hhi Hm2 Hm1).
    split; [left; reflexivity | intros _; reflexivity].
Qed.

(** With a whole coefficient the product is exact. *)
Lemma result_coins_whole (quantity base_coin coefficient : Z) :
  (0 <= quantity < 2 ^ 31)%Z -> (0 <= base_coin < 2 ^ 31)%Z ->
  (quantity * base_coin < 2 ^ 31)%Z -> (0 <= coefficient < 100)%Z ->
  CoinCalculationEngine.calculateResultCoins (inject_Z quantity)
    (inject_Z base_coin) (inject_Z coefficient)
  = Formula.result_coins (inject_Z quantity) (inject_Z base_coin)
      (inject_Z coefficient).
Proof.
  intros Hq Hb Hqb Hc.
  unfold CoinCalculationEngine.calculateResultCoins, Formula.result_coins, Js.floor.
  f_equal.
  assert (small : forall z, (0 <= z < 2 ^ 31)%Z -> (Z.abs z < 2 ^ 53)%Z).
  { intros z Hz. rewrite Z.abs_eq by lia.
    apply (Z.lt_trans _ (2 ^ 31)); [lia | reflexivity]. }
  assert (HN : Js.mul (inject_Z quantity) (inject_Z base_coin)
               == inject_Z (quantity * base_coin)).
  { apply mul_whole; try reflexivity; apply small; nia. }
  assert (HR : Js.mul (Js.mul (inject_Z quantity) (inject_Z base_coin))
                 (inject_Z coefficient)
               == inject_Z (quantity * base_coin * coefficient)).
  { apply mul_whole; [exact HN | reflexivity | apply small; nia | | ].
    - rewrite Z.abs_eq by lia. apply (Z.lt_trans _ 100); [lia | reflexivity].
    - rewrite Z.abs_eq by nia.
      apply (Z.lt_le_trans _ (2 ^ 31 * 100)); [nia | ].
      apply Z.leb_le. reflexivity. }
  rewrite HR, <- !inject_Z_mult. reflexivity.
Qed.

End ResultCoins.

(** C8, the claim as stated, on 100 results of a task of base coin 1 at
    coefficient 0.57: the claimed floor of 100 * 1 * 0.57 is 57 and the
    calculation returns 56 result coins. *)
Lemma result_coins_lose_a_coin :
  Formula.result_coins 100 1 0.57 = 57
  /\ exists r,
       CoinCalculationEngine.calculateCoins Sample9.hundred Sample9.drills
       = (Returned r, Sample9.drills)
       /\ CoinCalculationEngine.resultCoins r = 56
       /\ ~ CoinCalculationEngine.resultCoins r
            == Formula.result_coins
                 (CoinCalculationEngine.resultQuantity Sample9.hundred)
                 (Task.base_coin Sample9.drill)
                 (Difficulty.coefficient Sample9.gentle).
Proof.
  split; [reflexivity | ].
  eexists. split; [vm_compute; reflexivity | ].
  split; [reflexivity | ].
  intros H. vm_compute in H. discriminate H.
Qed.

(** C8, amended.  Whenever the task and the difficulty exist and are active,
    [calculateCoins] returns a result whose focus coins are
    [floor(focus_minutes / 30)] from 5 minutes on and 0 below, and whose
    result coins are the floor of [result_quantity * base_coin * coefficient]
    as doubles multiply: on a whole quantity and a whole base coin whose
    product is below 2^31 and a coefficient of two decimals below 100, the
    claimed floor or one coin less; the claimed floor whenever the exact
    product is not a whole number, and whenever the coefficient is whole.
    4, 30 and 65 minutes give 0, 1 and 2 focus coins, and quantity 10 at base
    coin 5 and coefficient 2.0 gives 100 result coins. *)
Theorem focus_and_result_coins :
  (forall (input : CoinCalculationEngine.CoinCalculationInput) db task difficulty,
     hd_error
       (filter (fun t => String.eqb (Task.task_id t)
                           (CoinCalculationEngine.taskId input)
                         && Task.is_active t) (task_definitions db)) = Some task ->
     hd_error
       (filter (fun d => String.eqb (Difficulty.difficulty_id d)
                           (CoinCalculationEngine.difficultyId input)
                         && Difficulty.is_active d) (difficulties db))
     = Some difficulty ->
     exists r,
       CoinCalculationEngine.calculateCoins input db = (Returned r, db)
       /\ CoinCalculationEngine.focusCoins r
          = Formula.focus_coins (CoinCalculationEngine.focusTimeMinutes input)
       /\ CoinCalculationEngine.resultCoins r
          = Js.floor
              (Js.mul
                 (Js.mul (CoinCalculationEngine.resultQuantity input)
                    (Task.base_coin task))
                 (Difficulty.coefficient difficulty)))
  /\ (forall quantity base_coin hundredths : Z,
        (0 <= quantity < 2 ^ 31)%Z -> (0 <= base_coin < 2 ^ 31)%Z ->
        (quantity * base_coin < 2 ^ 31)%Z -> (0 <= hundredths <= 9999)%Z ->
        let got :=
          Js.floor
            (Js.mul (Js.mul (inject_Z quantity) (inject_Z base_coin))
               (hundredths # 100)) in
        let claimed :=
          Formula.result_coins (inject_Z quantity) (inject_Z base_coin)
            (hundredths # 100) in
        (got == claimed \/ got == claimed - 1)
        /\ ((quantity * base_coin * hundredths) mod 100 <> 0 -> got == claimed)%Z)
  /\ (forall quantity base_coin coefficient : Z,
        (0 <= quantity < 2 ^ 31)%Z -> (0 <= base_coin < 2 ^ 31)%Z ->
        (quantity * base_coin < 2 ^ 31)%Z -> (0 <= coefficient < 100)%Z ->
        Js.floor
          (Js.mul (Js.mul (inject_Z quantity) (inject_Z base_coin))
             (inject_Z coefficient))
        = Formula.result_coins (inject_Z quantity) (inject_Z base_coin)
            (inject_Z coefficient))
  /\ (forall z : Z,
        Formula.focus_coins (inject_Z z)
        = inject_Z (if (5 <=? z)%Z then (z / 30)%Z else 0%Z))
  /\ Formula.focus_coins 4 = 0
  /\ Formula.focus_coins 30 = 1
  /\ Formula.focus_coins 65 = 2
  /\ Js.floor (Js.mul (Js.mul 10 5) 2.0) = 100
  /\ Formula.result_coins 10 5 2.0 = 100.
Proof.
  split; [ | split; [ | split]].
  - intros input db task difficulty Htask Hdiff.
    destruct (calculateBonusCoins_reads (CoinCalculationEngine.userId input)
                (CoinCalculationEngine.taskId input) (Difficulty.label difficulty)
                (CoinCalculationEngine.sessionDate input) db) as [bc Hbc].
    eexists. split; [ | split].
    + unfold CoinCalculationEngine.calculateCoins, bind, select.
      rewrite Htask, Hdiff, Hbc. reflexivity.
    + simpl. apply calculateFocusCoins_formula.
    + reflexivity.
  - exact result_coins_near.
  - exact result_coins_whole.
  - split; [exact focus_coins_whole_minutes | ].
    repeat split; reflexivity.
Qed.

(** C8 at a session of 65 minutes and 10 results, on a task of base
    coin 5 at coefficient 2.0. *)
Lemma focus_and_result_coins_witness :
  exists r,
    CoinCalculationEngine.calculateCoins
      {| CoinCalculationEngine.userId := "alice";
         CoinCalculationEngine.taskId := "task-math";
         CoinCalculationEngine.difficultyId := "diff-extreme";
         CoinCalculationEngine.focusTimeMinutes := 65;
         CoinCalculationEngine.resultQuantity := 10;
         CoinCalculationEngine.sessionDate := 101 |} Sample.spent_all
    = (Returned r, Sample.spent_all)
    /\ CoinCalculationEngine.focusCoins r = Formula.focus_coins 65
    /\ CoinCalculationEngine.resultCoins r
       = Js.floor (Js.mul (Js.mul 10 5) 2.0).
Proof.
  apply (proj1 focus_and_result_coins
           {| CoinCalculationEngine.userId := "alice";
              CoinCalculationEngine.taskId := "task-math";
              CoinCalculationEngine.difficultyId := "diff-extreme";
              CoinCalculationEngine.focusTimeMinutes := 65;
              CoinCalculationEngine.resultQuantity := 10;
              CoinCalculationEngine.sessionDate := 101 |}
           Sample.spent_all Sample.math Sample.extreme);
    reflexivity.
Defined.

(* --------------------------------------------------------------------- *)
(** ** The decay engine: one (session, rule) pair *)
(* --------------------------------------------------------------------- *)

Lemma hd_error_filter_none {A} (f : A -> bool) (l : list A) :
  existsb f l = false -> hd_error (filter f l) = None.
Proof.
  induction l as [ | x l IH]; simpl; [reflexivity | ].
  destruct (f x); simpl; [discriminate | exact IH].
Qed.

Lemma hd_error_filter_some {A} (f : A -> bool) (l : list A) :
  existsb f l = true -> exists x, hd_error (filter f l) = Some x.
Proof.
  induction l as [ | x l IH]; simpl; [discriminate | ].
  destruct (f x); simpl; [intros _; exists x; reflexivity | exact IH].
Qed.

Lemma added_nothing db : Decay.added db db = [].
Proof. unfold Decay.added. apply skipn_all. Qed.

Lemma unchanged_preserves {A} (I : DB -> Prop) (m : M A) :
  (forall db, run_db m db = db) -> preserves I m.
Proof.
  intros H db Hdb. specialize (H db). unfold run_db in H.
  destruct (m db) as [[a | msg] d]; simpl in H; subst d; exact Hdb.
Qed.

Lemma predictDecay_preserves (I : DB -> Prop) env userId days :
  preserves I (CoinDecayService.predictDecay env userId days).
Proof. apply unchanged_preserves. intros db. apply predictDecay_db. Qed.

(** C3 on the code.  [applyDecayToSession] begins with the idempotency
    query, and the database rejects it: for every user, session and rule
    the step throws before an amount is computed, and nothing is appended.
    For 10 coins under a fixed rate of 50 the claimed amount is 10 and for 100
    coins at rate 0.2 it is 20; where the claim has a row of -20, for Alice's
    session of 100 coins under the 20% rule, the ledger stays empty: in the
    step itself, in the daily job, which swallows the error, and in the
    manual trigger for her, which throws it. *)
Theorem decay_step_rejected_before_the_amount :
  (forall env userId session rule db,
     CoinDecayService.applyDecayToSession env userId session rule db
     = (Thrown Pg.syntax_error, db))
  /\ Formula.decay_amount 10 (Sample.rule "r50" 7 50 fixed (Js.JObj [])) = 10
  /\ Formula.decay_amount 100 (Sample.rule "r20" 7 0.2 percentage (Js.JObj []))
     == 20
  /\ coin_ledger
       (run_db
          (CoinDecayService.applyDecayToSession Sample.env120 "alice"
             (Sample.for_decay "s1" 100 100)
             (Sample.rule "r20" 7 0.2 percentage (Js.JObj []))) Sample2.one_pair)
     = []
  /\ CoinDecayService.dailyJob Sample.env120 Sample2.one_pair
     = (Returned tt, Sample2.one_pair)
  /\ CoinDecayService.triggerDecay Sample.env120 (Some "alice"%string)
       Sample2.one_pair
     = (Thrown Pg.syntax_error, Sample2.one_pair).
Proof.
  split; [exact applyDecayToSession_run | ].
  split; [reflexivity | ]. split; [reflexivity | ].
  split; [reflexivity | ]. split; reflexivity.
Qed.

(* --------------------------------------------------------------------- *)
(** ** The scheduler: the hourly job *)
(* --------------------------------------------------------------------- *)


(* --------------------------------------------------------------------- *)
(** ** The decay engine: the projection *)
(* --------------------------------------------------------------------- *)

Section Projection.
Import CoinDecayService.

Lemma fold_of_pure {A S} (l : list A) (body : S -> A -> M S) (f : S -> A -> S) db :
  (forall acc x, In x l -> body acc x db = (Returned (f acc x), db)) ->
  forall acc, fold_of l acc body db = (Returned (fold_left f l acc), db).
Proof.
  induction l as [ | x l IH]; intros H acc; simpl; [reflexivity | ].
  unfold bind. rewrite (H acc x (or_introl eq_refl)).
  apply IH. intros acc' y Hy. apply H. right. exact Hy.
Qed.

Lemma fold_left_snoc_map {A B} (f : A -> B) (l : list A) : forall acc,
  fold_left (fun acc x => acc ++ [f x]) l acc = acc ++ map f l.
Proof.
  induction l as [ | x l IH]; intros acc; simpl.
  - rewrite app_nil_r. reflexivity.
  - rewrite IH, <- app_assoc. reflexivity.
Qed.

(** A prediction of days on which nothing decays counts no session. *)
Lemma nothing_counted env l : forall n,
  fold_left (fun n p => n + affectedSessions p)%Z (map (Decay.nothing_on env) l) n = n.
Proof.
  induction l as [ | i l IH]; intros n; simpl; [reflexivity | ].
  rewrite IH. lia.
Qed.

(** What [predictDecay] returns when it returns. *)
Lemma predictDecay_returned env userId days db predictions :
  run_out (predictDecay env userId days) db = Returned predictions ->
  predictions = map (Decay.nothing_on env) (offsets days).
Proof.
  unfold run_out. rewrite predictDecay_run.
  destruct (existsb _ _); simpl; intros H; [discriminate H | ].
  injection H as <-. reflexivity.
Qed.

End Projection.

(** C7.  [predictDecay] leaves the database as it was.  It asks the
    idempotency query of the real cycle for every pair that has reached its
    threshold by a projected day, and the database rejects that query: a
    prediction is returned only when no pair reaches its threshold within the
    horizon, and every entry of it has amount 0 and no affected session.  So
    no pair is ever counted, neither one that is Decayed nor one a second
    time.  With Alice's session two days old and a threshold of 7, three
    days are projected with nothing on them, and seven are not projected. *)
Theorem predict_writes_nothing_counts_nothing :
  forall env userId days db,
    run_db (CoinDecayService.predictDecay env userId days) db = db
    /\ (forall predictions,
          run_out (CoinDecayService.predictDecay env userId days) db
          = Returned predictions ->
          Forall (fun p => CoinDecayService.predictedDecay p = 0
                           /\ CoinDecayService.affectedSessions p = 0%Z)
            predictions)
    /\ Decay.counted_once env userId days db
    /\ CoinDecayService.predictDecay Sample.env120 "alice" 3 Sample2.fresh
       = (Returned (map (Decay.nothing_on Sample.env120) [1; 2; 3]%Z), Sample2.fresh)
    /\ CoinDecayService.predictDecay Sample.env120 "alice" 7 Sample2.fresh
       = (Thrown Pg.syntax_error, Sample2.fresh).
Proof.
  intros env userId days db.
  split; [apply predictDecay_db | ]. split; [ | split; [ | split; reflexivity]].
  - intros predictions H. rewrite (predictDecay_returned _ _ _ _ _ H).
    apply Forall_forall. intros p Hp. apply in_map_iff in Hp.
    destruct Hp as [i [<- _]]. split; reflexivity.
  - intros predictions H. rewrite (predictDecay_returned _ _ _ _ _ H).
    rewrite nothing_counted. lia.
Qed.

(* --------------------------------------------------------------------- *)
(** ** The decay engine: idempotency *)
(* --------------------------------------------------------------------- *)

Section Idempotent.
Import CoinCalculationEngine CoinDecayService Idempotency.

Lemma ChangeType_eqb_eq a b : ChangeType_eqb a b = true <-> a = b.
Proof. destruct a, b; simpl; split; intros H; try reflexivity; discriminate. Qed.

Lemma record_none_decayed userId amount changeType sourceType referenceId
    description metadata :
  changeType <> decayed ->
  preserves none_decayed
    (recordCoinTransaction userId amount changeType sourceType referenceId
       description metadata).
Proof.
  intros Hkind db Hdb.
  destruct (recordCoinTransaction_run userId amount changeType sourceType
              referenceId description metadata db) as [b [_ Hrun]].
  rewrite Hrun. unfold none_decayed. simpl.
  apply Forall_app. split; [exact Hdb | ].
  constructor; [exact Hkind | constructor].
Qed.

Lemma run_none_decayed history : none_decayed (System.run history empty_db).
Proof.
  apply run_preserves.
  - intros. apply record_none_decayed. assumption.
  - unfold none_decayed. intros d d' Heq Hd. rewrite <- Heq. exact Hd.
  - constructor.
Qed.

Lemma none_decayed_rows db sessionId ruleId :
  none_decayed db -> decay_rows sessionId ruleId (coin_ledger db) = [].
Proof.
  unfold none_decayed, decay_rows. intros H.
  induction (coin_ledger db) as [ | e l IH]; simpl; [reflexivity | ].
  inversion H as [ | ? ? He Hl]; subst.
  destruct (ChangeType_eqb (Ledger.change_type e) decayed) eqn:Hc.
  - apply ChangeType_eqb_eq in Hc. contradiction.
  - simpl. exact (IH Hl).
Qed.

End Idempotent.

Section OverlapKinds.
Import CoinCalculationEngine Interleaving.

Lemma step_none_decayed c s db :
  changeType c <> decayed ->
  Idempotency.none_decayed db ->
  Idempotency.none_decayed (run_db (step c s) db).
Proof.
  intros Hkind Hdb. pose proof (step_run c s db) as H. unfold run_db.
  destruct s as [ | b | ].
  - destruct H as [b [_ H]]. rewrite H. exact Hdb.
  - rewrite H. unfold Idempotency.none_decayed. simpl.
    apply Forall_app. split; [exact Hdb | ].
    constructor; [exact Hkind | constructor].
  - rewrite H. exact Hdb.
Qed.

Lemma move_none_decayed : forall pool i db,
  Forall (fun cs => changeType (fst cs) <> decayed) pool ->
  Idempotency.none_decayed db ->
  exists pool',
    move i pool db = (Returned pool', run_db (move i pool) db)
    /\ Forall (fun cs => changeType (fst cs) <> decayed) pool'
    /\ Idempotency.none_decayed (run_db (move i pool) db).
Proof.
  induction pool as [ | [c s] rest IH]; intros i db Hpool Hdb.
  - exists []. destruct i; simpl; repeat split; try constructor; exact Hdb.
  - inversion Hpool as [ | ? ? Hc Hrest]; subst. simpl in Hc.
    destruct i as [ | i]; simpl.
    + destruct (step_returns c s db) as [s' Hstep].
      pose proof (step_none_decayed c s db Hc Hdb) as Hd.
      unfold run_db, bind in *. rewrite Hstep in *. simpl in *.
      exists ((c, s') :: rest). split; [reflexivity | ].
      split; [constructor; assumption | exact Hd].
    + destruct (IH i db Hrest Hdb) as [rest' [Hrun [Hrest' Hd]]].
      unfold run_db, bind in *. rewrite Hrun in *. simpl in *.
      exists ((c, s) :: rest'). split; [reflexivity | ].
      split; [constructor; assumption | exact Hd].
Qed.

(** Appends of other kinds, however they overlap, leave no [decayed] row. *)
Lemma overlapping_none_decayed : forall schedule pool db,
  Forall (fun cs => changeType (fst cs) <> decayed) pool ->
  Idempotency.none_decayed db ->
  Idempotency.none_decayed (run_db (run schedule pool) db).
Proof.
  unfold run.
  induction schedule as [ | i schedule IH]; intros pool db Hpool Hdb; simpl.
  - exact Hdb.
  - destruct (move_none_decayed pool i db Hpool Hdb) as [pool' [Hrun [Hpool' Hd]]].
    unfold run_db, bind in *. rewrite Hrun in *. simpl in *.
    apply IH; assumption.
Qed.

Lemma fresh_kinds calls :
  Forall (fun c => changeType c <> decayed) calls ->
  Forall (fun cs => changeType (fst cs) <> decayed) (fresh calls).
Proof.
  intros H. unfold fresh. apply Forall_map. exact H.
Qed.

End OverlapKinds.

(** C2.  After any history of operations, however often the daily job, the
    hourly job and the manual trigger ran in it, every (session, rule) pair
    has at most one [decayed] row with that [reference_id] and that
    [metadata.rule_id]: the ledger has no [decayed] row at all.  No run of
    the engine applies a decay, whatever the age of a session: a run of
    [processUserDecay], a manual trigger and a cycle add no row; and the
    appends of the other kinds, however they overlap, add no [decayed]
    one. *)
Theorem decay_written_once_per_pair :
  forall (history : list System.Op),
    let db := System.run history empty_db in
    (forall sessionId ruleId,
       (List.length (Idempotency.decay_rows sessionId ruleId (coin_ledger db))
        <= 1)%nat)
    /\ Idempotency.none_decayed db
    /\ (forall env userId decayRules,
          Decay.added db
            (run_db (CoinDecayService.processUserDecay env userId decayRules) db)
          = [])
    /\ (forall env userId,
          Decay.added db (run_db (CoinDecayService.triggerDecay env userId) db)
          = [])
    /\ (forall env,
          Decay.added db (run_db (CoinDecayService.executeDecayProcess env) db)
          = [])
    /\ (forall schedule calls,
          Forall (fun c => Interleaving.changeType c <> decayed) calls ->
          Idempotency.none_decayed
            (run_db (Interleaving.run schedule (Interleaving.fresh calls)) db)).
Proof.
  intros history db.
  pose proof (run_none_decayed history) as Hnone. fold db in Hnone.
  split; [ | split; [exact Hnone | split; [ | split; [ | split]]]].
  - intros sessionId ruleId. rewrite (none_decayed_rows db _ _ Hnone). simpl. lia.
  - intros. rewrite processUserDecay_db. apply added_nothing.
  - intros. rewrite triggerDecay_db. apply added_nothing.
  - intros. unfold run_db. rewrite executeDecayProcess_run. apply added_nothing.
  - intros schedule calls Hkinds.
    apply overlapping_none_decayed; [apply fresh_kinds; exact Hkinds | exact Hnone].
Qed.

(** C2 on Alice's session, due under the one rule, after the engine ran four
    times: no [decayed] row. *)
Lemma four_runs_write_no_decay_row :
  Idempotency.decay_rows "s1" "r20"
    (coin_ledger (System.run Sample3.four_runs empty_db)) = [].
Proof. reflexivity. Qed.

(* --------------------------------------------------------------------- *)
(** ** The decay engine: where a failure stops *)
(* --------------------------------------------------------------------- *)

Section Flatten.
Import CoinDecayService Isolation.






End Flatten.

Section Attempts.
Import CoinDecayService Isolation.

(** A loop whose every turn throws begins one turn. *)
Lemma turns_throwing {A} (body : A -> M unit) (l : list A) db :
  (forall x, exists msg d, body x db = (Thrown msg, d)) ->
  turns l body db = firstn 1 l.
Proof.
  intros Hbody. destruct l as [ | x l]; simpl; [reflexivity | ].
  destruct (Hbody x) as [msg [d H]]. rewrite H. reflexivity.
Qed.

Lemma attempted_run env userId decayRules db :
  attempted env userId decayRules db
  = firstn 1
      (filter (Decay.due_at env 0)
         (Decay.pairs_with decayRules (Decay.sessions_of env userId db))).
Proof.
  unfold attempted. apply turns_throwing.
  intros p. exists Pg.syntax_error, db. apply applyDecayToSession_run.
Qed.

Lemma cycle_attempts_run env decayRules db : forall userIds,
  cycle_attempts env userIds decayRules db
  = flat_map
      (fun user =>
         map (fun p => (user, p))
           (firstn 1
              (filter (Decay.due_at env 0)
                 (Decay.pairs_with decayRules (Decay.sessions_of env user db)))))
      userIds.
Proof.
  induction userIds as [ | user userIds IH]; simpl; [reflexivity | ].
  rewrite attempted_run. unfold run_db at 1. rewrite user_turn_run. simpl.
  rewrite IH. reflexivity.
Qed.

Lemma processed_in_cycle_iff env db userId p :
  processed_in_cycle env db userId p
  <-> In userId (active_users env db) /\ In p (first_due env userId db).
Proof.
  unfold processed_in_cycle, first_due, Decay.pairs.
  rewrite cycle_attempts_run, in_flat_map. split.
  - intros [user [Huser Hin]]. apply in_map_iff in Hin.
    destruct Hin as [p' [Heq Hp']]. injection Heq as -> ->. split; assumption.
  - intros [Huser Hp]. exists userId. split; [exact Huser | ].
    apply in_map_iff. exists p. split; [reflexivity | exact Hp].
Qed.

End Attempts.



(* --------------------------------------------------------------------- *)
(** ** The reward calculator: daily goal *)
(* --------------------------------------------------------------------- *)

(** The daily-goal rule counts the completed sessions stored for the date. *)
Lemma daily_goal_counts_stored_sessions userId sessionDate db :
  exists b,
    CoinCalculationEngine.calculateDailyGoalBonus userId sessionDate db
    = (Returned b, db)
    /\ CoinCalculationEngine.type b = "daily_goal"%string
    /\ CoinCalculationEngine.amount b
       = if (CoinCalculationEngine.dailySessions userId sessionDate db >=? 3)%Z
         then 15 else 0.
Proof.
  unfold CoinCalculationEngine.calculateDailyGoalBonus, bind, select.
  destruct (_ >=? 3)%Z; eexists; repeat split.
Qed.

(** Storing a completed session of the user for the date adds one to that
    count. *)
Lemma daily_sessions_after_insert userId sessionDate db row :
  Session.user_id row = userId ->
  Session.session_date row = sessionDate ->
  Session.status row = completed ->
  CoinCalculationEngine.dailySessions userId sessionDate
    (run_db (LearningSessionModel.insert_learning_session row) db)
  = (CoinCalculationEngine.dailySessions userId sessionDate db + 1)%Z.
Proof.
  intros Hu Hd Hs. unfold CoinCalculationEngine.dailySessions, run_db. simpl.
  rewrite filter_app, length_app. simpl.
  unfold CoinCalculationEngine.completed_of.
  rewrite Hu, Hd, Hs, String.eqb_refl, Z.eqb_refl. simpl. lia.
Qed.

(** [create] calculates twice: the total it stores comes from the database
    before the insert, what it pays into the ledger from the database after
    it. *)
Lemma create_calculates_twice sessionId now sessionData db r :
  CoinCalculationEngine.calculateCoins
    (LearningSessionModel.calculation_input sessionData) db = (Returned r, db) ->
  exists row,
    Session.session_id row = sessionId
    /\ Session.user_id row = LearningSessionModel.user_id sessionData
    /\ Session.session_date row = LearningSessionModel.session_date sessionData
    /\ Session.status row = completed
    /\ Session.total_coins row = CoinCalculationEngine.totalCoins r
    /\ run_db (LearningSessionModel.create sessionId now [] sessionData) db
       = run_db
           (CoinService.processSessionReward sessionId
              (LearningSessionModel.calculation_input sessionData))
           (run_db (LearningSessionModel.insert_learning_session row) db).
Proof.
  intros Hcalc.
  exists
    {| Session.session_id := sessionId;
       Session.user_id := LearningSessionModel.user_id sessionData;
       Session.task_id := LearningSessionModel.task_id sessionData;
       Session.difficulty_id := LearningSessionModel.difficulty_id sessionData;
       Session.session_date := LearningSessionModel.session_date sessionData;
       Session.focus_time_minutes :=
         LearningSessionModel.focus_time_minutes sessionData;
       Session.result_quantity := LearningSessionModel.result_quantity sessionData;
       Session.focus_coins := CoinCalculationEngine.focusCoins r;
       Session.result_coins := CoinCalculationEngine.resultCoins r;
       Session.total_coins := CoinCalculationEngine.totalCoins r;
       Session.notes := LearningSessionModel.notes sessionData;
       Session.metadata :=
         match LearningSessionModel.metadata sessionData with
         | Some md => md
         | None => Js.JObj []
         end;
       Session.status := completed;
       Session.created_at := now |}.
  repeat split.
  unfold run_db, LearningSessionModel.create, bind. rewrite Hcalc. simpl.
  destruct (CoinService.processSessionReward _ _ _) as [[[] | msg] d]; reflexivity.
Qed.

(** C5 on the code.  With two completed sessions stored for the day, the third
    one is created: the calculation whose result [create] stores on the
    session runs before the insert, counts 2 and grants no daily-goal bonus
    (total 12 = 2 focus + 10 result coins); the calculation
    [processSessionReward] repeats after the insert counts 3 and pays the
    +15 into the ledger for the same session. *)
Theorem daily_goal_skips_third_session_in_create :
  CoinCalculationEngine.dailySessions "alice" 98 Sample5.two_today = 2%Z
  /\ (exists r,
        CoinCalculationEngine.calculateCoins Sample5.preview Sample5.two_today
        = (Returned r, Sample5.two_today)
        /\ CoinCalculationEngine.bonusCoins r = 0
        /\ CoinCalculationEngine.totalCoins r = 12)
  /\ (exists row,
        run_out (LearningSessionModel.create "s3" (Sample.at_day 98) []
                   Sample5.one_more) Sample5.two_today = Returned row
        /\ Session.focus_coins row = 2
        /\ Session.result_coins row = 10
        /\ Session.total_coins row = 12)
  /\ map (fun e => (Ledger.change_type e, Ledger.amount e, Ledger.reference_id e))
       (coin_ledger
          (run_db (LearningSessionModel.create "s3" (Sample.at_day 98) []
                     Sample5.one_more) Sample5.two_today))
     = [(earned, 27, "s3"%string); (bonus, 15, "s3"%string)].
Proof.
  split; [reflexivity | ].
  split; [eexists; split; [vm_compute; reflexivity | split; reflexivity] | ].
  split; [eexists; split; [vm_compute; reflexivity | repeat split] | ].
  vm_compute. reflexivity.
Qed.

(* --------------------------------------------------------------------- *)
(** ** The reward calculator: streak *)
(* --------------------------------------------------------------------- *)

Section StreakWalk.
Import CoinCalculationEngine.

Lemma consecutive_bonus_thresholds userId sessionDate db :
  exists days b,
    getConsecutiveLearningDays userId sessionDate db = (Returned days, db)
    /\ calculateConsecutiveBonus userId sessionDate db = (Returned b, db)
    /\ amount b = Streak.bonus_for days.
Proof.
  unfold calculateConsecutiveBonus, Streak.bonus_for, bind.
  assert (Hdays : exists days,
            getConsecutiveLearningDays userId sessionDate db = (Returned days, db)).
  { unfold getConsecutiveLearningDays, bind, select.
    destruct (List.length _ =? 0)%nat; eexists; reflexivity. }
  destruct Hdays as [days Hdays]. rewrite Hdays. exists days.
  destruct (days >=? 7)%Z; [eexists; repeat split | ].
  destruct (days >=? 3)%Z; eexists; repeat split.
Qed.

(** The latest date heads the list of distinct dates. *)
Lemma insert_desc_head d l :
  exists m rest,
    insert_desc d l = m :: rest
    /\ (d <= m)%Z
    /\ (forall x tl, l = x :: tl -> (x <= m)%Z).
Proof.
  destruct l as [ | x l]; simpl.
  - exists d, []. split; [reflexivity | split; [lia | discriminate]].
  - destruct (x <? d)%Z eqn:Hlt.
    + apply Z.ltb_lt in Hlt. exists d, (x :: l).
      split; [reflexivity | split; [lia | ]].
      intros y tl Heq. injection Heq as -> _. lia.
    + apply Z.ltb_ge in Hlt. destruct (x =? d)%Z eqn:Heq.
      * apply Z.eqb_eq in Heq. subst x. exists d, l.
        split; [reflexivity | split; [lia | ]].
        intros y tl Hy. injection Hy as -> _. lia.
      * exists x, (insert_desc d l).
        split; [reflexivity | split; [lia | ]].
        intros y tl Hy. injection Hy as -> _. lia.
Qed.

Lemma distinct_desc_head l x :
  In x l -> exists m rest, distinct_desc l = m :: rest /\ (x <= m)%Z.
Proof.
  induction l as [ | a l IH]; intros Hx; [destruct Hx | ].
  simpl. destruct (insert_desc_head a (distinct_desc l)) as [m [rest [Heq [Ha Hhd]]]].
  exists m, rest. split; [exact Heq | ].
  destruct Hx as [-> | Hx]; [exact Ha | ].
  destruct (IH Hx) as [m' [rest' [Heq' Hx']]].
  specialize (Hhd m' rest' Heq'). lia.
Qed.

(** Once a completed session dated [currentDate] or later is stored, the walk
    stops at its first step: the streak is 1 and the bonus 0. *)
Lemma streak_reset_by_stored_day userId currentDate db s :
  In s (learning_sessions db) ->
  completed_of userId s = true ->
  (currentDate <= Session.session_date s)%Z ->
  getConsecutiveLearningDays userId currentDate db = (Returned 1%Z, db).
Proof.
  intros Hin Hc Hdate.
  unfold getConsecutiveLearningDays, bind, select, recentSessions.
  assert (Hd : In (Session.session_date s)
                 (map Session.session_date
                    (filter (completed_of userId) (learning_sessions db)))).
  { apply in_map. apply filter_In. split; assumption. }
  destruct (distinct_desc_head _ _ Hd) as [m [rest [Heq Hm]]].
  rewrite Heq. simpl.
  destruct (m =? currentDate - 1)%Z eqn:Hstep; [ | reflexivity].
  apply Z.eqb_eq in Hstep. lia.
Qed.

Lemma insert_desc_In d l x : In x (insert_desc d l) <-> x = d \/ In x l.
Proof.
  induction l as [ | a l IH]; simpl.
  - intuition.
  - destruct (a <? d)%Z; [simpl; intuition | ].
    destruct (a =? d)%Z eqn:Heq.
    + apply Z.eqb_eq in Heq. subst a. simpl. intuition.
    + simpl. rewrite IH. intuition.
Qed.

Lemma insert_desc_descending d l :
  Streak.descending l -> Streak.descending (insert_desc d l).
Proof.
  induction l as [ | a l IH]; simpl; intros Hl.
  - split; [intros y [] | exact Logic.I].
  - destruct Hl as [Ha Hl]. destruct (a <? d)%Z eqn:Hlt.
    + apply Z.ltb_lt in Hlt. simpl. split; [ | split; assumption].
      intros y [<- | Hy]; [exact Hlt | ]. specialize (Ha y Hy). lia.
    + apply Z.ltb_ge in Hlt. destruct (a =? d)%Z eqn:Heq.
      * simpl. split; assumption.
      * apply Z.eqb_neq in Heq. simpl. split; [ | apply IH; exact Hl].
        intros y Hy. apply insert_desc_In in Hy.
        destruct Hy as [-> | Hy]; [lia | apply Ha; exact Hy].
Qed.

Lemma distinct_desc_In l x : In x (distinct_desc l) <-> In x l.
Proof.
  induction l as [ | a l IH]; simpl; [reflexivity | ].
  rewrite insert_desc_In, IH. intuition.
Qed.

Lemma distinct_desc_descending l : Streak.descending (distinct_desc l).
Proof.
  induction l as [ | a l IH]; simpl; [exact Logic.I | ].
  apply insert_desc_descending. exact IH.
Qed.

Lemma run_before_ext has has' day window :
  (forall y, (y < day)%Z -> has y = has' y) ->
  Streak.run_before has day window = Streak.run_before has' day window.
Proof.
  revert day. induction window as [ | w IH]; intros day H;
    cbn [Streak.run_before]; [reflexivity | ].
  rewrite <- (H (day - 1)%Z) by lia.
  destruct (has (day - 1)%Z); [ | reflexivity].
  rewrite (IH (day - 1)%Z); [reflexivity | ]. intros y Hy. apply H. lia.
Qed.

Lemma has_date_false l d :
  (forall y, In y l -> (y < d)%Z) -> Streak.has_date l d = false.
Proof.
  intros H. unfold Streak.has_date.
  destruct (existsb (Z.eqb d) l) eqn:Hex; [ | reflexivity].
  apply existsb_exists in Hex. destruct Hex as [y [Hy Heq]].
  apply Z.eqb_eq in Heq. subst y. specialize (H d Hy). lia.
Qed.

(** On descending dates that all lie before the day expected next, the walk
    counts the unbroken run of days. *)
Lemma walk_back_counts_run today : forall window dates counted,
  Streak.descending dates ->
  (forall y, In y dates -> (y <= today - counted)%Z) ->
  walk_back today counted (firstn window dates)
  = (counted
     + Streak.run_before (Streak.has_date dates) (today - counted + 1) window)%Z.
Proof.
  induction window as [ | w IH]; intros dates counted Hdesc Hbound.
  - destruct dates; cbn [firstn walk_back Streak.run_before]; lia.
  - cbn [Streak.run_before].
    replace (today - counted + 1 - 1)%Z with (today - counted)%Z by lia.
    destruct dates as [ | x dates].
    + cbn [firstn walk_back]. unfold Streak.has_date at 1. cbn [existsb]. lia.
    + cbn [firstn walk_back].
      destruct Hdesc as [Hx Hdesc].
      assert (Hxb : (x <= today - counted)%Z) by (apply Hbound; left; reflexivity).
      destruct (x =? today - counted)%Z eqn:Heq.
      * apply Z.eqb_eq in Heq.
        assert (Hhas : Streak.has_date (x :: dates) (today - counted) = true).
        { unfold Streak.has_date. cbn [existsb]. rewrite Heq, Z.eqb_refl.
          reflexivity. }
        rewrite Hhas.
        rewrite (IH dates (counted + 1)%Z Hdesc).
        -- replace (today - (counted + 1) + 1)%Z with (today - counted)%Z by lia.
           rewrite (run_before_ext (Streak.has_date (x :: dates))
                      (Streak.has_date dates)); [lia | ].
           intros y Hy. unfold Streak.has_date. cbn [existsb].
           destruct (y =? x)%Z eqn:Hyx; [apply Z.eqb_eq in Hyx; lia | reflexivity].
        -- intros y Hy. specialize (Hx y Hy). lia.
      * apply Z.eqb_neq in Heq.
        rewrite (has_date_false (x :: dates) (today - counted)); [lia | ].
        intros y [<- | Hy]; [lia | ]. specialize (Hx y Hy). lia.
Qed.

Lemma learned_on_has_date userId db d :
  Streak.learned_on userId db d
  = Streak.has_date
      (distinct_desc
         (map Session.session_date
            (filter (completed_of userId) (learning_sessions db)))) d.
Proof.
  unfold Streak.learned_on, Streak.has_date.
  apply eq_true_iff_eq. rewrite !existsb_exists. split.
  - intros [s [Hs Hc]]. apply andb_true_iff in Hc. destruct Hc as [Hc Hd].
    apply Z.eqb_eq in Hd. exists d. split; [ | apply Z.eqb_refl].
    apply (proj2 (distinct_desc_In _ _)). rewrite <- Hd. apply in_map. apply filter_In.
    split; assumption.
  - intros [y [Hy Heq]]. apply Z.eqb_eq in Heq. subst y.
    apply (proj1 (distinct_desc_In _ _)) in Hy. apply in_map_iff in Hy.
    destruct Hy as [s [Hd Hs]]. apply filter_In in Hs. destruct Hs as [Hs Hc].
    exists s. split; [exact Hs | ]. rewrite Hc, Hd, Z.eqb_refl. reflexivity.
Qed.

(** As long as no completed session dated [currentDate] or later is stored,
    the walk returns the streak ending at [currentDate]. *)
Lemma streak_before_day_is_stored userId currentDate db :
  (forall s, In s (learning_sessions db) -> completed_of userId s = true ->
             (Session.session_date s < currentDate)%Z) ->
  getConsecutiveLearningDays userId currentDate db
  = (Returned (Streak.streak userId db currentDate), db).
Proof.
  intros Hbefore.
  unfold getConsecutiveLearningDays, bind, select, recentSessions, Streak.streak.
  rewrite (run_before_ext _ _ _ _
             (fun y _ => learned_on_has_date userId db y)).
  set (dates := distinct_desc
                  (map Session.session_date
                     (filter (completed_of userId) (learning_sessions db)))).
  assert (Hwalk : walk_back currentDate 1 (firstn 30 dates)
                  = (1 + Streak.run_before (Streak.has_date dates) currentDate 30)%Z).
  { rewrite (walk_back_counts_run currentDate 30 dates 1).
    - replace (currentDate - 1 + 1)%Z with currentDate by lia. reflexivity.
    - apply distinct_desc_descending.
    - intros y Hy. apply (proj1 (distinct_desc_In _ _)) in Hy.
      apply in_map_iff in Hy.
      destruct Hy as [s [<- Hs]]. apply filter_In in Hs.
      specialize (Hbefore s (proj1 Hs) (proj2 Hs)). lia. }
  destruct (List.length (firstn 30 dates) =? 0)%nat eqn:Hlen.
  - apply Nat.eqb_eq in Hlen. apply length_zero_iff_nil in Hlen.
    rewrite <- Hwalk, Hlen. reflexivity.
  - rewrite Hwalk. reflexivity.
Qed.

End StreakWalk.

(** C9 on the code.  Alice has completed sessions on the seven days 92 to 98:
    her streak ending on day 98 is 7, worth +10, yet the walk meets day 98
    itself where it expects day 97 and the bonus is 0; with the days 92 to
    97 alone stored, the same calculation gives +10.  In [create] the
    session is stored before [processSessionReward] calculates, so on her
    seventh consecutive day the stored total carries the +10 (22) and the
    ledger receives 12. *)
Theorem streak_lost_once_day_has_session :
  Streak.streak "alice" Sample5.week 98 = 7%Z
  /\ Streak.bonus_for 7 = 10
  /\ Streak.bonus_for 4 = 5
  /\ Streak.bonus_for 2 = 0
  /\ run_out (CoinCalculationEngine.getConsecutiveLearningDays "alice" 98)
       Sample5.week = Returned 1%Z
  /\ run_out (CoinCalculationEngine.calculateConsecutiveBonus "alice" 98)
       Sample5.week
     = Returned {| CoinCalculationEngine.type := "consecutive";
                   CoinCalculationEngine.amount := 0;
                   CoinCalculationEngine.reason := "" |}
  /\ Streak.streak "alice" Sample5.six_days 98 = 7%Z
  /\ (exists b,
        run_out (CoinCalculationEngine.calculateConsecutiveBonus "alice" 98)
          Sample5.six_days = Returned b
        /\ CoinCalculationEngine.amount b = 10)
  /\ (exists row,
        run_out (LearningSessionModel.create "s7" (Sample.at_day 98) []
                   Sample5.one_more) Sample5.six_days = Returned row
        /\ Session.total_coins row = 22)
  /\ map (fun e => (Ledger.change_type e, Ledger.amount e, Ledger.reference_id e))
       (coin_ledger
          (run_db (LearningSessionModel.create "s7" (Sample.at_day 98) []
                     Sample5.one_more) Sample5.six_days))
     = [(earned, 12, "s7"%string)].
Proof.
  split; [reflexivity | ]. split; [reflexivity | ].
  split; [reflexivity | ]. split; [reflexivity | ].
  split; [vm_compute; reflexivity | ]. split; [vm_compute; reflexivity | ].
  split; [reflexivity | ].
  split; [eexists; split; [vm_compute; reflexivity | reflexivity] | ].
  split; [eexists; split; [vm_compute; reflexivity | reflexivity] | ].
  vm_compute. reflexivity.
Qed.

(* ===================================================================== *)
(** * Further properties of the code *)
(* ===================================================================== *)

(* --------------------------------------------------------------------- *)
(** ** [calculateCoins]: errors, focus coins, bonus rules *)
(* --------------------------------------------------------------------- *)

Lemma calculateCoins_reads_only input db :
  run_db (CoinCalculationEngine.calculateCoins input) db = db.
Proof.
  apply (preserves_run (fun d => d = db)); [ | reflexivity].
  apply calculateCoins_preserves.
Qed.

(** X1.  [calculateCoins] never writes.  Without an active task of the given
    id it throws 'Task not found or inactive', whatever the difficulty; with
    the task but without an active difficulty it throws 'Difficulty not found
    or inactive'. *)
Theorem calculateCoins_missing_catalog_rows :
  forall input db,
    run_db (CoinCalculationEngine.calculateCoins input) db = db
    /\ (Lookup.active_task (CoinCalculationEngine.taskId input) db = None ->
        run_out (CoinCalculationEngine.calculateCoins input) db
        = Thrown "Task not found or inactive")
    /\ (Lookup.active_task (CoinCalculationEngine.taskId input) db <> None ->
        Lookup.active_difficulty (CoinCalculationEngine.difficultyId input) db = None ->
        run_out (CoinCalculationEngine.calculateCoins input) db
        = Thrown "Difficulty not found or inactive").
Proof.
  intros input db. split; [apply calculateCoins_reads_only | split].
  - intros Htask. unfold run_out, CoinCalculationEngine.calculateCoins, bind, select.
    unfold Lookup.active_task in Htask. rewrite Htask. reflexivity.
  - intros Htask Hdiff.
    unfold run_out, CoinCalculationEngine.calculateCoins, bind, select.
    unfold Lookup.active_task in Htask. unfold Lookup.active_difficulty in Hdiff.
    destruct (hd_error (filter _ (task_definitions db))) as [task | ];
      [ | contradiction Htask; reflexivity].
    rewrite Hdiff. reflexivity.
Qed.

(** X1 on the sample catalog: an unknown task id and, with the known task, an
    unknown difficulty id. *)
Lemma calculateCoins_missing_catalog_rows_witness :
  run_out
    (CoinCalculationEngine.calculateCoins
       {| CoinCalculationEngine.userId := "alice";
          CoinCalculationEngine.taskId := "task-unknown";
          CoinCalculationEngine.difficultyId := "diff-unknown";
          CoinCalculationEngine.focusTimeMinutes := 60;
          CoinCalculationEngine.resultQuantity := 1;
          CoinCalculationEngine.sessionDate := 98 |}) Sample.spent_all
  = Thrown "Task not found or inactive"
  /\ run_out
       (CoinCalculationEngine.calculateCoins
          {| CoinCalculationEngine.userId := "alice";
             CoinCalculationEngine.taskId := "task-math";
             CoinCalculationEngine.difficultyId := "diff-unknown";
             CoinCalculationEngine.focusTimeMinutes := 60;
             CoinCalculationEngine.resultQuantity := 1;
             CoinCalculationEngine.sessionDate := 98 |}) Sample.spent_all
     = Thrown "Difficulty not found or inactive".
Proof.
  split.
  - apply (proj1 (proj2 (calculateCoins_missing_catalog_rows _ Sample.spent_all))).
    reflexivity.
  - apply (proj2 (proj2 (calculateCoins_missing_catalog_rows _ Sample.spent_all))).
    + discriminate.
    + reflexivity.
Defined.

Lemma Qfloor_unit_interval (x : Q) : 0 <= x -> x < 1 -> Qfloor x = 0%Z.
Proof.
  intros H0 H1.
  assert (Hlo : (0 <= Qfloor x)%Z).
  { change 0%Z with (Qfloor 0). apply Qfloor_resp_le. exact H0. }
  assert (Hhi : (Qfloor x < 1)%Z).
  { rewrite Zlt_Qlt. apply (Qle_lt_trans _ x); [apply Qfloor_le | exact H1]. }
  lia.
Qed.

Lemma Js_lt_true (x y : Js.number) : Js.lt x y = true <-> x < y.
Proof.
  rewrite Js_lt_dec. destruct (Qlt_le_dec x y) as [H | H]; split; intros G;
    try reflexivity; try assumption; try discriminate.
  exfalso. exact (Qlt_not_le _ _ G H).
Qed.

Lemma Js_lt_false (x y : Js.number) : Js.lt x y = false <-> y <= x.
Proof.
  rewrite Js_lt_dec. destruct (Qlt_le_dec x y) as [H | H]; split; intros G;
    try reflexivity; try assumption; try discriminate.
  exfalso. exact (Qlt_not_le _ _ H G).
Qed.

Lemma calculateFocusCoins_floor_monotone :
  (forall m, 0 <= m ->
     CoinCalculationEngine.calculateFocusCoins m = Js.floor (m / 30))
  /\ (forall m m', m <= m' ->
        CoinCalculationEngine.calculateFocusCoins m
        <= CoinCalculationEngine.calculateFocusCoins m').
Proof.
  assert (Hdiv : forall a b : Q, a <= b -> a / 30 <= b / 30).
  { intros a b Hab. unfold Qdiv. apply Qmult_le_compat_r; [exact Hab | ].
    discriminate. }
  split.
  - intros m Hm. unfold CoinCalculationEngine.calculateFocusCoins,
      CoinCalculationEngine.MIN_FOCUS_TIME, CoinCalculationEngine.FOCUS_COIN_RATE.
    destruct (Js.lt m 5) eqn:Hlt; [ | reflexivity].
    apply Js_lt_true in Hlt. unfold Js.floor.
    rewrite Qfloor_unit_interval; [reflexivity | | ].
    + apply (Qle_trans _ (0 / 30)); [discriminate | apply Hdiv; exact Hm].
    + apply (Qlt_le_trans _ (5 / 30)); [ | discriminate].
      unfold Qdiv. apply Qmult_lt_compat_r; [reflexivity | exact Hlt].
  - intros m m' Hmm.
    unfold CoinCalculationEngine.calculateFocusCoins,
      CoinCalculationEngine.MIN_FOCUS_TIME, CoinCalculationEngine.FOCUS_COIN_RATE.
    destruct (Js.lt m 5) eqn:Hm; destruct (Js.lt m' 5) eqn:Hm'.
    + apply Qle_refl.
    + apply Js_lt_false in Hm'. unfold Js.floor.
      change 0 with (inject_Z (Qfloor 0)). rewrite <- Zle_Qle.
      apply Qfloor_resp_le.
      apply (Qle_trans _ (5 / 30)); [discriminate | apply Hdiv; exact Hm'].
    + apply Js_lt_true in Hm'. apply Js_lt_false in Hm. exfalso.
      apply (Qlt_not_le _ _ Hm'). apply (Qle_trans _ m); assumption.
    + unfold Js.floor. rewrite <- Zle_Qle. apply Qfloor_resp_le.
      apply Hdiv. exact Hmm.
Qed.

(** X2.  On non-negative minutes the 5-minute minimum changes nothing: the
    focus coins are [floor(minutes / 30)]; and focus coins never decrease
    when the minutes grow. *)
Theorem focus_coins_floor_and_monotone :
  (forall m, 0 <= m ->
     CoinCalculationEngine.calculateFocusCoins m = Js.floor (m / 30))
  /\ (forall m m', m <= m' ->
        CoinCalculationEngine.calculateFocusCoins m
        <= CoinCalculationEngine.calculateFocusCoins m').
Proof. exact calculateFocusCoins_floor_monotone. Qed.

(** X2 at 4 and at 65 minutes. *)
Lemma focus_coins_floor_and_monotone_witness :
  CoinCalculationEngine.calculateFocusCoins 4 = Js.floor (4 / 30)
  /\ CoinCalculationEngine.calculateFocusCoins 4
     <= CoinCalculationEngine.calculateFocusCoins 65.
Proof.
  split.
  - apply (proj1 focus_coins_floor_and_monotone). discriminate.
  - apply (proj2 focus_coins_floor_and_monotone). discriminate.
Defined.

Lemma calculateBonusCoins_bounds userId taskId difficultyLabel sessionDate db :
  exists total bonuses,
    CoinCalculationEngine.calculateBonusCoins userId taskId difficultyLabel
      sessionDate db = (Returned (total, bonuses), db)
    /\ 0 <= total /\ total <= 40
    /\ Forall (fun b => 0 < CoinCalculationEngine.amount b) bonuses
    /\ NoDup (map CoinCalculationEngine.type bonuses)
    /\ (List.length bonuses <= 5)%nat.
Proof.
  unfold CoinCalculationEngine.calculateBonusCoins,
    CoinCalculationEngine.calculateConsecutiveBonus,
    CoinCalculationEngine.getConsecutiveLearningDays,
    CoinCalculationEngine.calculateFirstTimeBonus,
    CoinCalculationEngine.calculateDailyGoalBonus,
    CoinCalculationEngine.calculateDifficultyBonus,
    CoinCalculationEngine.calculateWeekendBonus, bind, select.
  repeat match goal with
    | |- context [if ?c then _ else _] => destruct c; cbn [ret]
    | |- context [match hd_error ?l with _ => _ end] =>
        destruct (hd_error l); cbn [ret]
    end.
  all: eexists; eexists; (split; [reflexivity | ]).
  all: (split; [discriminate | ]); (split; [discriminate | ]).
  all: (split; [repeat constructor | ]).
  all: (split; [ | cbn; lia]).
  all: cbn; repeat constructor; cbn; intuition discriminate.
Qed.

(** X3.  [calculateBonusCoins] only reads and returns.  Every bonus it lists
    has a positive amount, no rule is listed twice, at most five are listed,
    and the total lies between 0 and 40 (10 + 5 + 8 + 15 + 2). *)
Theorem bonus_total_between_0_and_40 :
  forall userId taskId difficultyLabel sessionDate db,
    exists total bonuses,
      CoinCalculationEngine.calculateBonusCoins userId taskId difficultyLabel
        sessionDate db = (Returned (total, bonuses), db)
      /\ 0 <= total /\ total <= 40
      /\ Forall (fun b => 0 < CoinCalculationEngine.amount b) bonuses
      /\ NoDup (map CoinCalculationEngine.type bonuses)
      /\ (List.length bonuses <= 5)%nat.
Proof. exact calculateBonusCoins_bounds. Qed.

(* --------------------------------------------------------------------- *)
(** ** [processSessionReward]: what reaches the ledger *)
(* --------------------------------------------------------------------- *)

Section Reward.
Import CoinCalculationEngine.

Lemma calculateCoins_run input db r db' :
  calculateCoins input db = (Returned r, db') ->
  db' = db
  /\ exists task difficulty,
       Lookup.active_task (taskId input) db = Some task
       /\ Lookup.active_difficulty (difficultyId input) db = Some difficulty
       /\ focusCoins r = calculateFocusCoins (focusTimeMinutes input)
       /\ resultCoins r
          = calculateResultCoins (resultQuantity input) (Task.base_coin task)
              (Difficulty.coefficient difficulty)
       /\ totalCoins r = focusCoins r + resultCoins r + bonusCoins r
       /\ calculateBonusCoins (userId input) (taskId input)
            (Difficulty.label difficulty) (sessionDate input) db
          = (Returned (bonusCoins r, Calc.bonuses (calculations r)), db).
Proof.
  unfold calculateCoins, bind, select, Lookup.active_task, Lookup.active_difficulty.
  destruct (hd_error (filter _ (task_definitions db))) as [task | ];
    [ | discriminate].
  destruct (hd_error (filter _ (difficulties db))) as [difficulty | ];
    [ | discriminate].
  destruct (calculateBonusCoins_bounds (userId input) (taskId input)
              (Difficulty.label difficulty) (sessionDate input) db)
    as [total [bonuses [Hrun _]]].
  rewrite Hrun. unfold ret. intros H. injection H as <- <-.
  split; [reflexivity | ]. exists task, difficulty. repeat split. exact Hrun.
Qed.

Lemma bonusCoins_bounds input db r db' :
  calculateCoins input db = (Returned r, db') ->
  0 <= bonusCoins r /\ bonusCoins r <= 40.
Proof.
  intros H. apply calculateCoins_run in H.
  destruct H as [_ [task [difficulty [_ [_ [_ [_ [_ Hrun]]]]]]]].
  destruct (calculateBonusCoins_bounds (userId input) (taskId input)
              (Difficulty.label difficulty) (sessionDate input) db)
    as [total [bonuses [Hrun' [H0 [H40 _]]]]].
  rewrite Hrun in Hrun'. injection Hrun' as -> _. split; assumption.
Qed.

Lemma Js_gt_true (x y : Js.number) : Js.gt x y = true <-> y < x.
Proof. unfold Js.gt. apply Js_lt_true. Qed.

Lemma Js_gt_false (x y : Js.number) : Js.gt x y = false <-> x <= y.
Proof. unfold Js.gt. apply Js_lt_false. Qed.

(** [bonusCoins !== 0 && bonusCoins > 0] *)
Lemma nonzero_and_positive (x : Js.number) :
  negb (Qeq_bool x 0) && Js.gt x 0 = Js.gt x 0.
Proof.
  destruct (Js.gt x 0) eqn:H; [ | apply andb_false_r].
  rewrite andb_true_r. apply Js_gt_true in H.
  destruct (Qeq_bool x 0) eqn:E; [ | reflexivity].
  apply Qeq_bool_iff in E. rewrite E in H. discriminate.
Qed.

Lemma currentBalance_append userId db e :
  Ledger.user_id e = userId ->
  Spec.currentBalance userId (coin_ledger (Rows.append db e)) = Ledger.balance_after e.
Proof.
  intros H. unfold Spec.currentBalance, Rows.append. simpl.
  rewrite entries_of_snoc. rewrite H, String.eqb_refl. apply closing_snoc.
Qed.

Lemma added_app db d rows :
  coin_ledger d = coin_ledger db ++ rows -> Decay.added db d = rows.
Proof.
  intros H. unfold Decay.added. rewrite H.
  rewrite skipn_app, skipn_all, Nat.sub_diag. reflexivity.
Qed.

Lemma processSessionReward_run sessionId input db r :
  calculateCoins input db = (Returned r, db) ->
  0 < totalCoins r ->
  exists d,
    CoinService.processSessionReward sessionId input db = (Returned tt, d)
    /\ Isolation.same_tables db d
    /\ map (fun e => (Ledger.user_id e, Ledger.change_type e, Ledger.amount e,
                      Ledger.reference_id e))
         (Decay.added db d)
       = (userId input, earned, totalCoins r, sessionId)
         :: (if Js.gt (bonusCoins r) 0
             then [(userId input, bonus, bonusCoins r, sessionId)] else [])
    /\ Spec.currentBalance (userId input) (coin_ledger d)
       == Spec.currentBalance (userId input) (coin_ledger db)
          + focusCoins r + resultCoins r + 2 * bonusCoins r.
Proof.
  intros Hcalc Hpos.
  destruct (calculateCoins_run _ _ _ _ Hcalc)
    as [_ [task [difficulty [_ [_ [_ [_ [Htotal _]]]]]]]].
  destruct (bonusCoins_bounds _ _ _ _ Hcalc) as [Hb0 _].
  unfold CoinService.processSessionReward, try_catch.
  unfold bind at 1. rewrite Hcalc. cbv beta iota.
  apply Js_gt_true in Hpos. rewrite Hpos, nonzero_and_positive.
  apply Js_gt_true in Hpos.
  unfold bind, when.
  match goal with
  | |- context [recordCoinTransaction ?u ?a ?c ?s ?i ?m ?j db] =>
      destruct (record_appends u a c s i m j db) as [b [Hb Hrun]]; rewrite Hrun
  end.
  destruct (Js.gt (bonusCoins r) 0) eqn:Hbonus.
  - match goal with
    | |- context [recordCoinTransaction ?u ?a ?c ?s ?i ?m ?j ?d] =>
        destruct (record_appends u a c s i m j d) as [b' [Hb' Hrun']]; rewrite Hrun'
    end.
    eexists. split; [reflexivity | ]. split; [repeat split | ]. split.
    + erewrite added_app; [ | cbn; rewrite <- app_assoc; reflexivity]. reflexivity.
    + rewrite currentBalance_append in Hb' by reflexivity.
      rewrite currentBalance_append by reflexivity. cbn in *.
      rewrite Hb', Hb, Htotal. ring.
  - eexists. split; [reflexivity | ]. split; [repeat split | ]. split.
    + erewrite added_app; [ | cbn; reflexivity]. reflexivity.
    + rewrite currentBalance_append by reflexivity. cbn.
      apply Js_gt_false in Hbonus.
      assert (Hz : bonusCoins r == 0) by (apply Qle_antisym; assumption).
      rewrite Hb, Htotal, Hz. ring.
Qed.

End Reward.

(** X4.  When the calculation returns a positive total, [processSessionReward]
    returns and writes nothing but the ledger: an [earned] row of
    [totalCoins], which already contains the bonus, and then, when the bonus
    is positive, a [bonus] row of [bonusCoins] for the same session.  The
    user's balance rises by focus + result + twice the bonus. *)
Theorem session_reward_credits_bonus_twice :
  forall sessionId input db r,
    CoinCalculationEngine.calculateCoins input db = (Returned r, db) ->
    0 < CoinCalculationEngine.totalCoins r ->
    let db' := run_db (CoinService.processSessionReward sessionId input) db in
    run_out (CoinService.processSessionReward sessionId input) db = Returned tt
    /\ Isolation.same_tables db db'
    /\ map (fun e => (Ledger.user_id e, Ledger.change_type e, Ledger.amount e,
                      Ledger.reference_id e))
         (Decay.added db db')
       = (CoinCalculationEngine.userId input, earned,
          CoinCalculationEngine.totalCoins r, sessionId)
         :: (if Js.gt (CoinCalculationEngine.bonusCoins r) 0
             then [(CoinCalculationEngine.userId input, bonus,
                    CoinCalculationEngine.bonusCoins r, sessionId)]
             else [])
    /\ Spec.currentBalance (CoinCalculationEngine.userId input) (coin_ledger db')
       == Spec.currentBalance (CoinCalculationEngine.userId input) (coin_ledger db)
          + CoinCalculationEngine.focusCoins r
          + CoinCalculationEngine.resultCoins r
          + 2 * CoinCalculationEngine.bonusCoins r.
Proof.
  intros sessionId input db r Hcalc Hpos db'.
  destruct (processSessionReward_run sessionId input db r Hcalc Hpos)
    as [d [Hrun H]].
  subst db'. unfold run_out, run_db. rewrite Hrun. split; [reflexivity | exact H].
Qed.

(** X4 after six days in a row: 2 focus + 10 result + 10 streak coins are
    credited as 22 and then 10 again. *)
Lemma session_reward_credits_bonus_twice_witness :
  map (fun e => (Ledger.user_id e, Ledger.change_type e, Ledger.amount e,
                 Ledger.reference_id e))
    (Decay.added Sample5.six_days
       (run_db (CoinService.processSessionReward "s7" Sample5.preview)
          Sample5.six_days))
  = [("alice"%string, earned, 22, "s7"%string);
     ("alice"%string, bonus, 10, "s7"%string)]
  /\ Spec.currentBalance "alice"
       (coin_ledger
          (run_db (CoinService.processSessionReward "s7" Sample5.preview)
             Sample5.six_days))
     == 32.
Proof.
  assert (Hcalc : exists r,
            CoinCalculationEngine.calculateCoins Sample5.preview Sample5.six_days
            = (Returned r, Sample5.six_days)
            /\ 0 < CoinCalculationEngine.totalCoins r).
  { eexists. split; [vm_compute; reflexivity | reflexivity]. }
  destruct Hcalc as [r [Hcalc Hpos]].
  destruct (session_reward_credits_bonus_twice "s7" _ _ r Hcalc Hpos)
    as [_ [_ [Hrows Hbalance]]].
  split.
  - rewrite Hrows. vm_compute in Hcalc. injection Hcalc as <-. reflexivity.
  - rewrite Hbalance. vm_compute in Hcalc. injection Hcalc as <-. reflexivity.
Defined.

(* --------------------------------------------------------------------- *)
(** ** What an operation for one user writes *)
(* --------------------------------------------------------------------- *)

Section OneUser.
Import CoinCalculationEngine CoinDecayService.

Variable I : DB -> Prop.
Variable u : string.
Hypothesis I_record :
  forall amount changeType sourceType referenceId description metadata,
    preserves I
      (recordCoinTransaction u amount changeType sourceType referenceId
         description metadata).

Lemma processSessionReward_for sessionId input :
  userId input = u ->
  preserves I (CoinService.processSessionReward sessionId input).
Proof.
  intros Hu. unfold CoinService.processSessionReward. rewrite Hu.
  repeat first [apply calculateCoins_preserves | apply I_record | preserve_step].
Qed.

Lemma redeemReward_for rewardId cost description :
  preserves I (CoinService.redeemReward u rewardId cost description).
Proof.
  unfold CoinService.redeemReward.
  repeat first [apply getCurrentBalance_preserves | apply I_record | preserve_step].
Qed.

Lemma adjustCoins_for amount reason adminId :
  preserves I (CoinService.adjustCoins u amount reason adminId).
Proof.
  unfold CoinService.adjustCoins.
  repeat first [apply I_record | preserve_step].
Qed.

Lemma awardAchievement_for a :
  preserves I (LearningSessionModel.awardAchievement u a).
Proof.
  unfold LearningSessionModel.awardAchievement.
  repeat first [apply I_record | preserve_step].
Qed.

Lemma create_for sessionId now earned_now sessionData :
  LearningSessionModel.user_id sessionData = u ->
  (forall s, preserves I (LearningSessionModel.insert_learning_session s)) ->
  preserves I (LearningSessionModel.create sessionId now earned_now sessionData).
Proof.
  intros Hu I_insert. unfold LearningSessionModel.create. rewrite Hu.
  repeat first [apply calculateCoins_preserves
               | apply I_insert
               | apply processSessionReward_for; exact Hu
               | apply awardAchievement_for
               | preserve_step].
Qed.

End OneUser.

Lemma grown_for_refl u db : Frame.grown_for u db db.
Proof. exists []. rewrite app_nil_r. split; [reflexivity | constructor]. Qed.

Lemma grown_for_record u db amount changeType sourceType referenceId
    description metadata :
  preserves (Frame.grown_for u db)
    (CoinCalculationEngine.recordCoinTransaction u amount changeType sourceType
       referenceId description metadata).
Proof.
  intros d [suffix [Hd Hall]].
  destruct (record_appends u amount changeType sourceType referenceId
              description metadata d) as [b [_ Hrun]].
  rewrite Hrun. eexists. split.
  - cbn. rewrite Hd, <- app_assoc. reflexivity.
  - apply Forall_app. split; [exact Hall | ]. constructor; [reflexivity | constructor].
Qed.

Lemma grown_for_others u v db d :
  Frame.grown_for u db d -> v <> u ->
  Spec.entries_of v (coin_ledger d) = Spec.entries_of v (coin_ledger db).
Proof.
  intros [suffix [-> Hall]] Hv. unfold Spec.entries_of.
  rewrite filter_app.
  assert (Hnone : filter (fun e => String.eqb (Ledger.user_id e) v) suffix = []).
  { induction Hall as [ | e l He _ IH]; [reflexivity | ].
    simpl. rewrite He. destruct (String.eqb_spec u v) as [Heq | _].
    - contradiction Hv. symmetry. exact Heq.
    - exact IH. }
  rewrite Hnone. apply app_nil_r.
Qed.

Lemma exec_grown_for u op db :
  Frame.on_behalf u op -> Frame.grown_for u db (System.exec op db).
Proof.
  intros Hop. destruct op; simpl in *; try contradiction.
  - apply preserves_run; [ | apply grown_for_refl].
    apply (create_for _ u); [apply grown_for_record | exact Hop | ].
    intros s d Hd. exact Hd.
  - subst userId. apply preserves_run; [ | apply grown_for_refl].
    apply redeemReward_for. apply grown_for_record.
  - subst userId. apply preserves_run; [ | apply grown_for_refl].
    apply adjustCoins_for. apply grown_for_record.
  - subst userId. apply preserves_run; [ | apply grown_for_refl].
    apply awardAchievement_for. apply grown_for_record.
  - destruct userId as [userId | ]; [ | contradiction].
    rewrite triggerDecay_db. apply grown_for_refl.
  - apply preserves_run; [ | apply grown_for_refl]. apply predictDecay_preserves.
Qed.

(** X5.  An operation made for one user (creating a session, redeeming,
    an adjustment, an achievement, a decay run triggered for the user, a
    prediction) appends only rows of that user to the ledger: the rows of any
    other user, and the balance [getCurrentBalance] returns for them, stay as
    they were. *)
Theorem operation_for_one_user_leaves_others :
  forall u op db,
    Frame.on_behalf u op ->
    Frame.grown_for u db (System.exec op db)
    /\ forall v, v <> u ->
         Spec.entries_of v (coin_ledger (System.exec op db))
         = Spec.entries_of v (coin_ledger db)
         /\ run_out (CoinCalculationEngine.getCurrentBalance v) (System.exec op db)
            = run_out (CoinCalculationEngine.getCurrentBalance v) db.
Proof.
  intros u op db Hop. pose proof (exec_grown_for u op db Hop) as Hgrown.
  split; [exact Hgrown | ]. intros v Hv.
  pose proof (grown_for_others u v db _ Hgrown Hv) as Hrows.
  split; [exact Hrows | ].
  unfold run_out, CoinCalculationEngine.getCurrentBalance, bind, select,
    CoinCalculationEngine.latestRecord.
  fold (Spec.entries_of v (coin_ledger (System.exec op db))).
  fold (Spec.entries_of v (coin_ledger db)).
  rewrite Hrows. destruct (hd_error _); reflexivity.
Qed.

(** X5 when Alice's coins are adjusted: Bob's rows are untouched. *)
Lemma operation_for_one_user_leaves_others_witness :
  Spec.entries_of "bob"
    (coin_ledger
       (System.exec (System.AdjustCoins "alice" 7 "gift" "admin")
          (System.exec (System.AdjustCoins "bob" 5 "gift" "admin") Sample.spent_all)))
  = Spec.entries_of "bob"
      (coin_ledger
         (System.exec (System.AdjustCoins "bob" 5 "gift" "admin") Sample.spent_all)).
Proof.
  apply (operation_for_one_user_leaves_others "alice"
           (System.AdjustCoins "alice" 7 "gift" "admin")
           (System.exec (System.AdjustCoins "bob" 5 "gift" "admin") Sample.spent_all)).
  - reflexivity.
  - discriminate.
Defined.

Section CreateSession.
Import CoinCalculationEngine.

Lemma calculateCoins_returns input db task difficulty :
  Lookup.active_task (taskId input) db = Some task ->
  Lookup.active_difficulty (difficultyId input) db = Some difficulty ->
  exists r, calculateCoins input db = (Returned r, db).
Proof.
  unfold Lookup.active_task, Lookup.active_difficulty. intros Ht Hd.
  unfold calculateCoins, bind at 1, select at 1. rewrite Ht.
  unfold bind at 1, select at 1. rewrite Hd.
  destruct (calculateBonusCoins_bounds (userId input) (taskId input)
              (Difficulty.label difficulty) (sessionDate input) db)
    as [total [bonuses [Hrun _]]].
  unfold bind. rewrite Hrun. eexists. reflexivity.
Qed.

(** The recalculation of [processSessionReward] returns once the catalog
    rows are there, and so does [processSessionReward]. *)
Lemma processSessionReward_returns sessionId input db r :
  calculateCoins input db = (Returned r, db) ->
  run_out (CoinService.processSessionReward sessionId input) db = Returned tt.
Proof.
  intros Hcalc. unfold run_out, CoinService.processSessionReward, try_catch.
  unfold bind at 1. rewrite Hcalc. cbv beta iota.
  unfold bind, when.
  destruct (Js.gt (totalCoins r) 0).
  - match goal with
    | |- context [recordCoinTransaction ?u ?a ?c ?s ?i ?m ?j db] =>
        destruct (record_appends u a c s i m j db) as [b [Hb Hrun]]; rewrite Hrun
    end.
    destruct (_ && _).
    + match goal with
      | |- context [recordCoinTransaction ?u ?a ?c ?s ?i ?m ?j ?d] =>
          destruct (record_appends u a c s i m j d) as [b' [Hb' Hrun']];
            rewrite Hrun'
      end.
      reflexivity.
    + reflexivity.
  - cbn [ret]. destruct (_ && _).
    + match goal with
      | |- context [recordCoinTransaction ?u ?a ?c ?s ?i ?m ?j ?d] =>
          destruct (record_appends u a c s i m j d) as [b' [Hb' Hrun']];
            rewrite Hrun'
      end.
      reflexivity.
    + reflexivity.
Qed.

End CreateSession.

Section CreateAllOrNothing.
Import CoinCalculationEngine LearningSessionModel.

Lemma swallowed_returns (m : M unit) d :
  run_out (try_catch m (fun _ => ret tt)) d = Returned tt.
Proof.
  unfold run_out, try_catch. destruct (m d) as [[[] | msg] d']; reflexivity.
Qed.

Lemma stored_record u db row amount changeType sourceType referenceId
    description metadata :
  preserves (Frame.stored u db row)
    (recordCoinTransaction u amount changeType sourceType referenceId
       description metadata).
Proof.
  intros d [Hs [Hc Hg]].
  pose proof (grown_for_record u db amount changeType sourceType referenceId
                description metadata d Hg) as H.
  destruct (record_appends u amount changeType sourceType referenceId
              description metadata d) as [b [_ Hrun]].
  rewrite Hrun in *. split; [exact Hs | split; [exact Hc | exact H]].
Qed.

End CreateAllOrNothing.

Lemma create_run :
  forall sessionId now earned_now sessionData db,
    match CoinCalculationEngine.calculateCoins
            (LearningSessionModel.calculation_input sessionData) db with
    | (Thrown msg, _) =>
        LearningSessionModel.create sessionId now earned_now sessionData db
        = (Thrown msg, db)
    | (Returned r, _) =>
        exists row d,
          LearningSessionModel.create sessionId now earned_now sessionData db
          = (Returned row, d)
          /\ learning_sessions d = learning_sessions db ++ [row]
          /\ Session.session_id row = sessionId
          /\ Session.user_id row = LearningSessionModel.user_id sessionData
          /\ Session.status row = completed
          /\ Session.total_coins row = CoinCalculationEngine.totalCoins r
          /\ Frame.same_catalog db d
          /\ Frame.grown_for (LearningSessionModel.user_id sessionData) db d
    end.
Proof.
  intros sessionId now earned_now sessionData db.
  destruct (CoinCalculationEngine.calculateCoins _ db) as [[r | msg] db0] eqn:Hcalc.
  - destruct (calculateCoins_run _ _ _ _ Hcalc)
      as [-> [task [difficulty [Htask [Hdiff _]]]]].
    unfold LearningSessionModel.create. unfold bind at 1. rewrite Hcalc.
    unfold bind at 1. cbn [LearningSessionModel.insert_learning_session].
    match goal with
    | |- context [with_sessions db (learning_sessions db ++ [?s])] =>
        set (row := s); set (d1 := with_sessions db (learning_sessions db ++ [row]))
    end.
    destruct (calculateCoins_returns
                (LearningSessionModel.calculation_input sessionData) d1
                task difficulty Htask Hdiff) as [r' Hcalc'].
    pose proof (processSessionReward_returns sessionId _ _ _ Hcalc') as Hret.
    assert (H1 : Frame.stored (LearningSessionModel.user_id sessionData) db row d1).
    { split; [reflexivity | split; [repeat split | ]].
      exists []. rewrite app_nil_r. split; [reflexivity | constructor]. }
    pose proof (processSessionReward_for _ _
                  (stored_record _ db row) sessionId
                  (LearningSessionModel.calculation_input sessionData)
                  eq_refl d1 H1) as H2.
    unfold run_out in Hret. unfold bind at 1.
    destruct (CoinService.processSessionReward sessionId _ d1)
      as [[[] | msg] d2]; [ | discriminate Hret].
    unfold bind at 1.
    pose proof (swallowed_returns
                  (for_of earned_now
                     (LearningSessionModel.awardAchievement
                        (LearningSessionModel.user_id sessionData))) d2) as Hret3.
    assert (H3 : preserves
                   (Frame.stored (LearningSessionModel.user_id sessionData) db row)
                   (try_catch
                      (for_of earned_now
                         (LearningSessionModel.awardAchievement
                            (LearningSessionModel.user_id sessionData)))
                      (fun _ => ret tt))).
    { repeat first [apply awardAchievement_for;
                    apply (stored_record _ db row)
                   | preserve_step]. }
    specialize (H3 d2 H2). unfold run_out in Hret3.
    destruct (try_catch _ _ d2) as [[[] | msg] d3]; [ | discriminate Hret3].
    exists row, d3. split; [reflexivity | ].
    destruct H3 as [Hs [Hc Hg]]. repeat split; try assumption; apply Hc.
  - unfold LearningSessionModel.create, bind. rewrite Hcalc.
    pose proof (calculateCoins_reads_only
                  (LearningSessionModel.calculation_input sessionData) db) as Hdb.
    unfold run_db in Hdb. rewrite Hcalc in Hdb. simpl in Hdb. rewrite Hdb.
    reflexivity.
Qed.

(** X6.  [create] calculates, stores the session, then rewards it.  When
    the calculation throws, [create] throws the same message and the
    database is as before.  When the calculation returns and the database
    takes the rows [create] writes (the session with its foreign keys and 32
    bit integers, the ledger rows of the reward and of the achievements),
    [create] returns: it has stored exactly one session, completed, under the
    given id, with the calculated total; the catalog, users and rules are
    untouched and the ledger has grown by rows of that user only. *)
Theorem create_stores_then_rewards :
  forall sessionId now earned_now sessionData db,
    match CoinCalculationEngine.calculateCoins
            (LearningSessionModel.calculation_input sessionData) db with
    | (Thrown msg, _) =>
        LearningSessionModel.create sessionId now earned_now sessionData db
        = (Thrown msg, db)
    | (Returned r, _) =>
        Frame.taken db
          (run_db (LearningSessionModel.create sessionId now earned_now sessionData)
             db) = true ->
        exists row d,
          LearningSessionModel.create sessionId now earned_now sessionData db
          = (Returned row, d)
          /\ learning_sessions d = learning_sessions db ++ [row]
          /\ Session.session_id row = sessionId
          /\ Session.user_id row = LearningSessionModel.user_id sessionData
          /\ Session.status row = completed
          /\ Session.total_coins row = CoinCalculationEngine.totalCoins r
          /\ Frame.same_catalog db d
          /\ Frame.grown_for (LearningSessionModel.user_id sessionData) db d
    end.
Proof.
  intros sessionId now earned_now sessionData db.
  pose proof (create_run sessionId now earned_now sessionData db) as H.
  destruct (CoinCalculationEngine.calculateCoins _ db) as [[r | msg] db0].
  - intros _. exact H.
  - exact H.
Qed.

(** X6 on Alice's third session of day 98: the rows are taken, and the
    session is stored. *)
Lemma create_stores_then_rewards_witness :
  Frame.taken Sample5.two_today
    (run_db (LearningSessionModel.create "s3" (Sample.at_day 98) []
               Sample5.one_more) Sample5.two_today) = true
  /\ exists row d,
       LearningSessionModel.create "s3" (Sample.at_day 98) [] Sample5.one_more
         Sample5.two_today = (Returned row, d)
       /\ learning_sessions d = learning_sessions Sample5.two_today ++ [row]
       /\ Session.total_coins row = 12.
Proof.
  split; [vm_compute; reflexivity | ].
  generalize (create_stores_then_rewards "s3" (Sample.at_day 98) []
                Sample5.one_more Sample5.two_today).
  destruct (CoinCalculationEngine.calculateCoins
              (LearningSessionModel.calculation_input Sample5.one_more)
              Sample5.two_today) as [[r | msg] db0] eqn:Hcalc.
  - intros H. destruct H as [row [d [Hrun [Hrows [_ [_ [_ [Htotal _]]]]]]]].
    + vm_compute. reflexivity.
    + exists row, d. split; [exact Hrun | ]. split; [exact Hrows | ].
      rewrite Htotal. vm_compute in Hcalc. injection Hcalc as <- _. reflexivity.
  - vm_compute in Hcalc. discriminate Hcalc.
Defined.

(* --------------------------------------------------------------------- *)
(** ** [create]: the first-time bonus *)
(* --------------------------------------------------------------------- *)

Section FirstTime.
Import CoinCalculationEngine.

Lemma calculateFirstTimeBonus_run userId taskId db :
  calculateFirstTimeBonus userId taskId db
  = (Returned
       (if Lookup.completed_task userId taskId db
        then {| type := "first_time"; amount := 0; reason := "" |}
        else {| type := "first_time"; amount := 5;
                reason := "首次完成此类任务奖励" |}),
     db).
Proof.
  unfold calculateFirstTimeBonus, bind, select, Lookup.completed_task.
  destruct (existsb _ (learning_sessions db)) eqn:H.
  - destruct (hd_error_filter_some _ _ H) as [x Hx]. rewrite Hx. reflexivity.
  - rewrite (hd_error_filter_none _ _ H). reflexivity.
Qed.

Lemma calculateConsecutiveBonus_type userId sessionDate db :
  exists b,
    calculateConsecutiveBonus userId sessionDate db = (Returned b, db)
    /\ type b = "consecutive"%string.
Proof.
  unfold calculateConsecutiveBonus, getConsecutiveLearningDays, bind, select.
  repeat match goal with
    | |- context [if ?c then _ else _] => destruct c; cbn [ret]
    end; eexists; split; reflexivity.
Qed.

Lemma existsb_push (f : Bonus -> bool) bonuses b :
  existsb f (push_if_positive bonuses b)
  = existsb f bonuses || (Js.gt (amount b) 0 && f b).
Proof.
  unfold push_if_positive. destruct (Js.gt (amount b) 0); simpl.
  - rewrite existsb_app. simpl. rewrite orb_false_r. reflexivity.
  - rewrite orb_false_r. reflexivity.
Qed.

Lemma first_time_listed userId taskId difficultyLabel sessionDate db :
  exists total bonuses,
    calculateBonusCoins userId taskId difficultyLabel sessionDate db
    = (Returned (total, bonuses), db)
    /\ existsb (fun b => String.eqb (type b) "first_time") bonuses
       = negb (Lookup.completed_task userId taskId db).
Proof.
  unfold calculateBonusCoins. unfold bind at 1.
  destruct (calculateConsecutiveBonus_type userId sessionDate db)
    as [b [Hrun Hb]].
  rewrite Hrun. unfold bind at 1. rewrite calculateFirstTimeBonus_run.
  unfold bind.
  destruct (daily_goal_counts_stored_sessions userId sessionDate db)
    as [g [Hg [Htype _]]].
  rewrite Hg. cbn [ret]. eexists. eexists. split; [reflexivity | ].
  rewrite !existsb_push. rewrite Hb, Htype. cbn [existsb orb].
  assert (Hd : String.eqb (type (calculateDifficultyBonus difficultyLabel))
                 "first_time" = false).
  { unfold calculateDifficultyBonus.
    destruct (String.eqb difficultyLabel _); [reflexivity | ].
    destruct (String.eqb difficultyLabel _); reflexivity. }
  assert (Hw : String.eqb (type (calculateWeekendBonus sessionDate))
                 "first_time" = false).
  { unfold calculateWeekendBonus. destruct (_ || _); reflexivity. }
  rewrite Hd, Hw.
  change (String.eqb "consecutive" "first_time") with false.
  change (String.eqb "daily_goal" "first_time") with false.
  rewrite !andb_false_r. cbn [orb]. rewrite !orb_false_r.
  destruct (Lookup.completed_task userId taskId db); reflexivity.
Qed.

Lemma completed_task_after_insert userId taskId db row :
  Session.user_id row = userId ->
  Session.task_id row = taskId ->
  Session.status row = completed ->
  Lookup.completed_task userId taskId
    (run_db (LearningSessionModel.insert_learning_session row) db) = true.
Proof.
  intros Hu Ht Hs. unfold Lookup.completed_task, run_db. simpl.
  rewrite existsb_app. simpl. unfold completed_of.
  rewrite Hu, Ht, Hs, !String.eqb_refl. simpl. apply orb_true_r.
Qed.

Lemma first_time_in_result input db r :
  calculateCoins input db = (Returned r, db) ->
  existsb (fun b => String.eqb (type b) "first_time") (Calc.bonuses (calculations r))
  = negb (Lookup.completed_task (userId input) (taskId input) db).
Proof.
  intros Hcalc.
  destruct (calculateCoins_run _ _ _ _ Hcalc)
    as [_ [task [difficulty [_ [_ [_ [_ [_ Hbonus]]]]]]]].
  destruct (first_time_listed (userId input) (taskId input)
              (Difficulty.label difficulty) (sessionDate input) db)
    as [total [bonuses [Hrun Hlisted]]].
  rewrite Hbonus in Hrun. injection Hrun as _ <-. exact Hlisted.
Qed.

(** [create] after a calculation that returned: the insert, the reward, the
    achievements. *)
Lemma create_steps sessionId now earned_now sessionData db r :
  calculateCoins (LearningSessionModel.calculation_input sessionData) db
  = (Returned r, db) ->
  run_db (LearningSessionModel.create sessionId now earned_now sessionData) db
  = run_db
      (try_catch
         (for_of earned_now
            (LearningSessionModel.awardAchievement
               (LearningSessionModel.user_id sessionData)))
         (fun _ => ret tt))
      (run_db
         (CoinService.processSessionReward sessionId
            (LearningSessionModel.calculation_input sessionData))
         (run_db
            (LearningSessionModel.insert_learning_session
               (Frame.created_row sessionId now sessionData r)) db)).
Proof.
  intros Hcalc.
  destruct (calculateCoins_run _ _ _ _ Hcalc)
    as [_ [task [difficulty [Htask [Hdiff _]]]]].
  unfold run_db at 1. unfold LearningSessionModel.create. unfold bind at 1.
  rewrite Hcalc. unfold bind at 1.
  cbn [LearningSessionModel.insert_learning_session].
  fold (Frame.created_row sessionId now sessionData r).
  unfold run_db at 3. cbn [LearningSessionModel.insert_learning_session snd].
  set (d1 := with_sessions db _).
  destruct (calculateCoins_returns
              (LearningSessionModel.calculation_input sessionData) d1
              task difficulty Htask Hdiff) as [r' Hcalc'].
  pose proof (processSessionReward_returns sessionId _ _ _ Hcalc') as Hret.
  unfold run_out in Hret. unfold bind at 1. unfold run_db at 2.
  destruct (CoinService.processSessionReward sessionId _ d1)
    as [[[] | msg] d2]; [ | discriminate Hret].
  cbn [snd]. unfold bind. unfold run_db.
  destruct (try_catch _ _ d2) as [[[] | msg] d3]; reflexivity.
Qed.

End FirstTime.

(** X7.  [create] never pays the first-time bonus.  For a user's first
    completed session of a task, the calculation whose total [create] stores
    on the session lists the [first_time] bonus; the calculation that
    [processSessionReward] repeats after the insert, and from which the ledger
    is credited, finds the session just stored and does not list it. *)
Theorem first_time_bonus_stored_not_paid :
  forall sessionId now earned_now sessionData db r,
    let input := LearningSessionModel.calculation_input sessionData in
    let row := Frame.created_row sessionId now sessionData r in
    let stored := run_db (LearningSessionModel.insert_learning_session row) db in
    CoinCalculationEngine.calculateCoins input db = (Returned r, db) ->
    Lookup.completed_task (LearningSessionModel.user_id sessionData)
      (LearningSessionModel.task_id sessionData) db = false ->
    In "first_time"%string
      (map CoinCalculationEngine.type
         (CoinCalculationEngine.Calc.bonuses
            (CoinCalculationEngine.calculations r)))
    /\ run_db (LearningSessionModel.create sessionId now earned_now sessionData) db
       = run_db
           (try_catch
              (for_of earned_now
                 (LearningSessionModel.awardAchievement
                    (LearningSessionModel.user_id sessionData)))
              (fun _ => ret tt))
           (run_db (CoinService.processSessionReward sessionId input) stored)
    /\ exists r',
         CoinCalculationEngine.calculateCoins input stored = (Returned r', stored)
         /\ ~ In "first_time"%string
                (map CoinCalculationEngine.type
                   (CoinCalculationEngine.Calc.bonuses
                      (CoinCalculationEngine.calculations r'))).
Proof.
  intros sessionId now earned_now sessionData db r input row stored Hcalc Hfirst.
  assert (Hin : forall bonuses,
            In "first_time"%string (map CoinCalculationEngine.type bonuses)
            <-> existsb (fun b => String.eqb (CoinCalculationEngine.type b)
                                    "first_time") bonuses = true).
  { intros bonuses. rewrite existsb_exists, in_map_iff. split.
    - intros [b [Hb Hl]]. exists b. split; [exact Hl | ]. rewrite Hb. reflexivity.
    - intros [b [Hl Hb]]. exists b. apply String.eqb_eq in Hb. split; assumption. }
  split; [ | split].
  - apply Hin. rewrite (first_time_in_result input db r Hcalc).
    unfold input. simpl. rewrite Hfirst. reflexivity.
  - apply create_steps. exact Hcalc.
  - destruct (calculateCoins_run _ _ _ _ Hcalc)
      as [_ [task [difficulty [Htask [Hdiff _]]]]].
    destruct (calculateCoins_returns input stored task difficulty Htask Hdiff)
      as [r' Hcalc'].
    exists r'. split; [exact Hcalc' | ].
    rewrite Hin, (first_time_in_result input stored r' Hcalc').
    unfold input, stored. simpl.
    rewrite completed_task_after_insert; [discriminate | reflexivity ..].
Qed.

(** X7 on an empty history: Alice's first session is stored with 17 coins
    (2 + 10 + 5), and the ledger is credited without the 5. *)
Lemma first_time_bonus_stored_not_paid_witness :
  exists r,
    CoinCalculationEngine.calculateCoins Sample5.preview
      (Sample.catalog [Sample.user "alice"] [] []) = (Returned r, Sample.catalog [Sample.user "alice"] [] [])
    /\ In "first_time"%string
         (map CoinCalculationEngine.type
            (CoinCalculationEngine.Calc.bonuses
               (CoinCalculationEngine.calculations r)))
    /\ map (fun e => (Ledger.change_type e, Ledger.amount e))
         (coin_ledger
            (run_db (LearningSessionModel.create "s1" (Sample.at_day 98) []
                       Sample5.one_more)
               (Sample.catalog [Sample.user "alice"] [] [])))
       = [(earned, 12)].
Proof.
  eexists. split; [vm_compute; reflexivity | ]. split.
  - apply (first_time_bonus_stored_not_paid "s1" (Sample.at_day 98) []
             Sample5.one_more (Sample.catalog [Sample.user "alice"] [] [])).
    + vm_compute. reflexivity.
    + reflexivity.
  - vm_compute. reflexivity.
Defined.

(* --------------------------------------------------------------------- *)
(** ** The decay engine: what a run writes *)
(* --------------------------------------------------------------------- *)

Section DecayHistoryEmpty.
Import DecayHistory.

Lemma filter_none {A} (f : A -> bool) (l : list A) :
  (forall x, In x l -> f x = false) -> filter f l = [].
Proof.
  induction l as [ | x l IH]; intros H; simpl; [reflexivity | ].
  rewrite (H x (or_introl eq_refl)). apply IH.
  intros y Hy. apply H. right. exact Hy.
Qed.

Lemma none_decayed_selected created_at userId options db :
  Idempotency.none_decayed db ->
  filter (selected userId options) (CoinHistory.stamped created_at (coin_ledger db))
  = [].
Proof.
  intros Hnone. apply filter_none. intros [t e] Hin.
  unfold CoinHistory.stamped in Hin. apply in_combine_r in Hin.
  unfold Idempotency.none_decayed in Hnone. rewrite Forall_forall in Hnone.
  specialize (Hnone e Hin). unfold selected. cbn [snd].
  destruct (ChangeType_eqb (Ledger.change_type e) decayed) eqn:Hc.
  - apply ChangeType_eqb_eq in Hc. contradiction.
  - rewrite andb_false_r. reflexivity.
Qed.

End DecayHistoryEmpty.

(** X8.  The decay engine writes nothing, so there is no decay history.
    After any history of operations, with as many daily and hourly jobs and
    manual triggers as one likes, [getDecayHistory] returns no record and a
    total of 0 for every user and every page; and neither the daily nor the
    hourly job adds a row to the ledger. *)
Theorem decay_history_stays_empty :
  forall (history : list System.Op) created_at userId options,
    let db := System.run history empty_db in
    DecayHistory.getDecayHistory created_at userId options db
    = (Returned {| CoinHistory.records := []; CoinHistory.total := 0%nat |}, db)
    /\ (forall env,
          Decay.added db (run_db (CoinDecayService.dailyJob env) db) = []
          /\ Decay.added db (run_db (CoinDecayService.hourlyJob env) db) = []).
Proof.
  intros history created_at userId options db.
  pose proof (run_none_decayed history) as Hnone. fold db in Hnone.
  split.
  - unfold DecayHistory.getDecayHistory, bind, select, ret.
    rewrite (none_decayed_selected created_at userId options db Hnone).
    simpl. rewrite skipn_nil, firstn_nil. reflexivity.
  - intros env. unfold run_db. rewrite dailyJob_run, hourlyJob_run.
    split; apply added_nothing.
Qed.

(* --------------------------------------------------------------------- *)
(** ** The decay engine: a second cycle *)
(* --------------------------------------------------------------------- *)

(** X9.  A decay cycle returns and changes nothing, and so does a cycle run
    again after it: no pair is ever marked, and the second cycle processes
    the very triples the first did. *)
Theorem second_cycle_changes_nothing :
  forall env db,
    let d := run_db (CoinDecayService.executeDecayProcess env) db in
    CoinDecayService.executeDecayProcess env d = (Returned tt, d)
    /\ d = db
    /\ Isolation.cycle_attempts env (Isolation.active_users env d)
         (Decay.rules_of d) d
       = Isolation.cycle_attempts env (Isolation.active_users env db)
           (Decay.rules_of db) db.
Proof.
  intros env db d.
  assert (Hd : d = db).
  { unfold d, run_db. rewrite executeDecayProcess_run. reflexivity. }
  rewrite Hd. split; [apply executeDecayProcess_run | ]. split; reflexivity.
Qed.

(* --------------------------------------------------------------------- *)
(** ** The decay engine: the manual trigger *)
(* --------------------------------------------------------------------- *)

Section ManualTrigger.
Import CoinDecayService Isolation.

Lemma trigger_is_user_run env db userId :
  userId <> ""%string ->
  triggerDecay env (Some userId) db
  = processUserDecay env userId (Decay.rules_of db) db.
Proof.
  intros Hne. unfold triggerDecay.
  destruct (String.eqb_spec userId ""%string) as [He | _]; [contradiction | ].
  reflexivity.
Qed.

End ManualTrigger.

(** X10.  [triggerDecay] for one user does not ask whether the user is
    active: it is the run of [processUserDecay] for that user under the
    active rules.  It throws the error of the rejected query when a pair of
    the user has reached its threshold and returns otherwise, and the
    database is as before in both cases.  A cycle, in contrast, processes no
    triple of a user it does not count as active. *)
Theorem manual_trigger_reaches_inactive_user :
  forall env db userId,
    userId <> ""%string ->
    CoinDecayService.triggerDecay env (Some userId) db
    = CoinDecayService.processUserDecay env userId (Decay.rules_of db) db
    /\ CoinDecayService.triggerDecay env (Some userId) db
       = (if existsb (Decay.due_at env 0) (Decay.pairs env userId db)
          then Thrown Pg.syntax_error else Returned tt, db)
    /\ (~ In userId (Isolation.active_users env db) ->
        forall p, ~ Isolation.processed_in_cycle env db userId p).
Proof.
  intros env db userId Hne.
  pose proof (trigger_is_user_run env db userId Hne) as Hrun.
  split; [exact Hrun | ]. split.
  - rewrite Hrun, processUserDecay_run. unfold Decay.pairs.
    destruct (existsb _ _); reflexivity.
  - intros Hinactive p Hp. apply processed_in_cycle_iff in Hp.
    apply Hinactive. apply Hp.
Qed.

(** X10 on a dormant user whose session is due: the manual trigger throws,
    and the cycle does not come to her. *)
Lemma manual_trigger_reaches_inactive_user_witness :
  CoinDecayService.triggerDecay Sample.env120 (Some "carol"%string) Sample6.dormant
  = (Thrown Pg.syntax_error, Sample6.dormant)
  /\ ~ In "carol"%string (Isolation.active_users Sample.env120 Sample6.dormant)
  /\ Isolation.cycle_attempts Sample.env120
       (Isolation.active_users Sample.env120 Sample6.dormant)
       (Decay.rules_of Sample6.dormant) Sample6.dormant = [].
Proof.
  destruct (manual_trigger_reaches_inactive_user Sample.env120 Sample6.dormant
              "carol"%string) as [_ [Hrun _]]; [discriminate | ].
  split; [exact Hrun | ]. split; [ | reflexivity].
  intros H. vm_compute in H. exact H.
Defined.

(* --------------------------------------------------------------------- *)
(** ** The decay engine: the shape of a prediction *)
(* --------------------------------------------------------------------- *)

Section PredictionShape.
Import CoinDecayService.

Lemma nothing_on_date env i :
  date (Decay.nothing_on env i) = (day_of (now env) + i)%Z.
Proof.
  unfold Decay.nothing_on, day_of. cbn [date].
  apply Z.div_add. unfold MS_PER_DAY. lia.
Qed.

Lemma nth_error_offsets days k i :
  nth_error (offsets days) k = Some i ->
  i = (Z.of_nat k + 1)%Z /\ (k < Z.to_nat days)%nat.
Proof.
  unfold offsets. intros H.
  rewrite nth_error_map in H.
  destruct (nth_error (seq 1 (Z.to_nat days)) k) as [n | ] eqn:Hn; [ | discriminate].
  injection H as <-.
  assert (Hk : (k < List.length (seq 1 (Z.to_nat days)))%nat).
  { apply nth_error_Some. rewrite Hn. discriminate. }
  rewrite length_seq in Hk.
  split; [ | exact Hk].
  rewrite (nth_error_nth' _ 0%nat) in Hn by (rewrite length_seq; exact Hk).
  injection Hn as <-. rewrite seq_nth by exact Hk. lia.
Qed.

End PredictionShape.

(** X11.  [predictDecay] returns exactly when no pair of the user reaches
    its threshold within the horizon; when one does, it throws the error of
    the rejected query.  What it returns has one entry per day of the
    horizon, none when [days] is not positive; the entry at position [k] is
    for the day [k + 1] days after today, and has amount 0 and no affected
    session. *)
Theorem prediction_returns_when_nothing_is_due :
  forall env userId days db,
    (Decay.due_within env userId days db = true ->
     CoinDecayService.predictDecay env userId days db
     = (Thrown Pg.syntax_error, db))
    /\ (Decay.due_within env userId days db = false ->
        exists predictions,
          CoinDecayService.predictDecay env userId days db
          = (Returned predictions, db)
          /\ List.length predictions = Z.to_nat days
          /\ (forall k p,
                nth_error predictions k = Some p ->
                CoinDecayService.date p
                = (CoinDecayService.day_of (CoinDecayService.now env)
                   + Z.of_nat k + 1)%Z
                /\ CoinDecayService.predictedDecay p = 0
                /\ CoinDecayService.affectedSessions p = 0%Z)).
Proof.
  intros env userId days db. unfold Decay.due_within.
  rewrite predictDecay_run. split; intros Hdue; rewrite Hdue; [reflexivity | ].
  exists (map (Decay.nothing_on env) (CoinDecayService.offsets days)).
  split; [reflexivity | ]. split.
  - rewrite length_map. unfold CoinDecayService.offsets.
    rewrite length_map, length_seq. reflexivity.
  - intros k p Hp. rewrite nth_error_map in Hp.
    destruct (nth_error (CoinDecayService.offsets days) k) as [i | ] eqn:Hi;
      [ | discriminate].
    injection Hp as <-. apply nth_error_offsets in Hi. destruct Hi as [-> _].
    rewrite nothing_on_date. split; [lia | split; reflexivity].
Qed.

(** X11 on the samples: Alice's session of day 118 is projected three days
    ahead, her session of day 100 is not projected at all. *)
Lemma prediction_returns_when_nothing_is_due_witness :
  (exists predictions,
     CoinDecayService.predictDecay Sample.env120 "alice" 3 Sample2.fresh
     = (Returned predictions, Sample2.fresh)
     /\ map CoinDecayService.date predictions = [121; 122; 123]%Z)
  /\ CoinDecayService.predictDecay Sample.env120 "alice" 3 Sample2.one_pair
     = (Thrown Pg.syntax_error, Sample2.one_pair).
Proof.
  split.
  - destruct (proj2 (prediction_returns_when_nothing_is_due Sample.env120 "alice" 3
                       Sample2.fresh) eq_refl)
      as [predictions [Hrun _]].
    exists predictions. split; [exact Hrun | ].
    vm_compute in Hrun. injection Hrun as <-. reflexivity.
  - apply (proj1 (prediction_returns_when_nothing_is_due Sample.env120 "alice" 3
                    Sample2.one_pair)).
    reflexivity.
Defined.

(* --------------------------------------------------------------------- *)
(** ** Editing stored sessions: [update] and [delete] *)
(* --------------------------------------------------------------------- *)

Section SessionEdit.
Import LearningSessionEdit.

Lemma not_stored_filter sessionId db :
  stored sessionId db = false ->
  filter (fun s => String.eqb (Session.session_id s) sessionId)
    (learning_sessions db) = [].
Proof.
  unfold stored. induction (learning_sessions db) as [ | s l IH]; [reflexivity | ].
  cbn. destruct (String.eqb (Session.session_id s) sessionId);
    [discriminate | exact IH].
Qed.

Lemma with_sessions_same db : with_sessions db (learning_sessions db) = db.
Proof. destruct db. reflexivity. Qed.

Lemma map_unless {A} (p : A -> bool) (f : A -> A) (l : list A) :
  existsb p l = false -> map (fun x => if p x then f x else x) l = l.
Proof.
  induction l as [ | x l IH]; [reflexivity | ].
  cbn. destruct (p x); [discriminate | ]. intros H. rewrite (IH H). reflexivity.
Qed.

Lemma update_where_run sessionId f db :
  (forall s, Session.session_id (f s) = Session.session_id s) ->
  exists updated d,
    update_where sessionId f db = (Returned updated, d)
    /\ coin_ledger d = coin_ledger db
    /\ Frame.same_catalog db d
    /\ List.length (learning_sessions d) = List.length (learning_sessions db)
    /\ filter (fun s => negb (String.eqb (Session.session_id s) sessionId))
         (learning_sessions d)
       = filter (fun s => negb (String.eqb (Session.session_id s) sessionId))
           (learning_sessions db)
    /\ (forall s, In s updated ->
          In s (learning_sessions d)
          /\ exists s0, In s0 (learning_sessions db)
                        /\ Session.session_id s0 = sessionId /\ s = f s0)
    /\ (stored sessionId db = false -> updated = [] /\ d = db).
Proof.
  intros Hid. unfold update_where. eexists. eexists. split; [reflexivity | ].
  split; [reflexivity | ]. split; [repeat split | ].
  split; [cbn; apply length_map | ].
  split; [ | split].
  - cbn. induction (learning_sessions db) as [ | s l IH]; [reflexivity | ].
    cbn. destruct (String.eqb (Session.session_id s) sessionId) eqn:E; cbn.
    + rewrite Hid, E. cbn. exact IH.
    + rewrite E. cbn. rewrite IH. reflexivity.
  - intros s Hs. apply in_map_iff in Hs. destruct Hs as [s0 [<- Hs0]].
    apply filter_In in Hs0. destruct Hs0 as [Hin E]. split.
    + cbn. apply in_map_iff. exists s0. rewrite E. split; [reflexivity | exact Hin].
    + exists s0. apply String.eqb_eq in E. repeat split; assumption.
  - intros Hno. rewrite (not_stored_filter _ _ Hno). split; [reflexivity | ].
    unfold stored in Hno. rewrite (map_unless _ f _ Hno).
    apply with_sessions_same.
Qed.

Lemma findById_run sessionId db :
  findById sessionId db
  = (Returned
       (hd_error (filter (fun s => String.eqb (Session.session_id s) sessionId)
                    (learning_sessions db))), db).
Proof. reflexivity. Qed.

Lemma edited_refl sessionId db : edited sessionId db db.
Proof. repeat split. Qed.

Lemma update_where_edits sessionId f db :
  (forall s, Session.session_id (f s) = Session.session_id s) ->
  preserves (edited sessionId db) (update_where sessionId f).
Proof.
  intros Hid d [H1 [H2 [H3 H4]]].
  destruct (update_where_run sessionId f d Hid)
    as [updated [d' [Hrun [G1 [G2 [G3 [G4 _]]]]]]].
  rewrite Hrun. split; [congruence | ]. split; [ | split; congruence].
  destruct H2 as [? [? [? ?]]], G2 as [? [? [? ?]]]. repeat split; congruence.
Qed.

Lemma update_edits sessionId updateData db :
  preserves (edited sessionId db) (update sessionId updateData).
Proof.
  unfold update, findById.
  repeat first [apply (update_where_edits sessionId _ db);
                intros s; reflexivity
               | preserve_step].
Qed.

Lemma write_run sessionId updateData coins db :
  exists updated d,
    (updated <- update_where sessionId (patch updateData coins) ;;
     ret (hd_error updated)) db = (Returned (hd_error updated), d)
    /\ (forall s, In s updated ->
          In s (learning_sessions d)
          /\ exists s0, In s0 (learning_sessions db)
                        /\ Session.session_id s0 = sessionId
                        /\ s = patch updateData coins s0)
    /\ (stored sessionId db = false -> updated = [] /\ d = db).
Proof.
  destruct (update_where_run sessionId (patch updateData coins) db
              (fun s => eq_refl))
    as [updated [d [Hrun [_ [_ [_ [_ [Hin Hno]]]]]]]].
  exists updated, d. unfold bind. rewrite Hrun. split; [reflexivity | ].
  split; assumption.
Qed.

Lemma hd_error_map {A B} (f : A -> B) (l : list A) :
  hd_error (map f l) = option_map f (hd_error l).
Proof. destruct l; reflexivity. Qed.

Lemma write_first sessionId updateData coins db row d :
  (updated <- update_where sessionId (patch updateData coins) ;;
   ret (hd_error updated)) db = (Returned (Some row), d) ->
  In row (learning_sessions d)
  /\ exists s0,
       hd_error (filter (fun s => String.eqb (Session.session_id s) sessionId)
                   (learning_sessions db)) = Some s0
       /\ In s0 (learning_sessions db)
       /\ Session.session_id s0 = sessionId
       /\ row = patch updateData coins s0.
Proof.
  unfold bind, update_where. cbn [ret]. rewrite hd_error_map.
  intros H. injection H as Hrow <-.
  destruct (filter _ (learning_sessions db)) as [ | s0 l] eqn:Hf; [discriminate | ].
  cbn in Hrow. injection Hrow as <-.
  assert (Hs0 : In s0 (filter (fun s => String.eqb (Session.session_id s) sessionId)
                         (learning_sessions db))).
  { rewrite Hf. left. reflexivity. }
  apply filter_In in Hs0. destruct Hs0 as [Hin Heq].
  split.
  - cbn. apply in_map_iff. exists s0. rewrite Heq. split; [reflexivity | exact Hin].
  - exists s0. apply String.eqb_eq in Heq. repeat split; assumption.
Qed.

Lemma hd_error_filter_In {A} (f : A -> bool) (l : list A) x :
  hd_error (filter f l) = Some x -> In x l /\ f x = true.
Proof.
  intros H. apply filter_In. destruct (filter f l) as [ | y l']; [discriminate | ].
  injection H as ->. left. reflexivity.
Qed.

Lemma update_throws sessionId updateData db msg d :
  update sessionId updateData db = (Thrown msg, d) ->
  msg = "Task or difficulty not found"%string /\ d = db.
Proof.
  assert (Hwrite : forall coins,
            (updated <- update_where sessionId (patch updateData coins) ;;
             ret (hd_error updated)) db = (Thrown msg, d) -> False).
  { intros coins.
    destruct (write_run sessionId updateData coins db)
      as [updated [d' [Hrun _]]].
    rewrite Hrun. discriminate. }
  unfold update.
  destruct (_ || _); [ | intros H; destruct (Hwrite _ H)].
  unfold bind at 1. rewrite findById_run.
  destruct (hd_error _) as [session | ]; [ | discriminate].
  unfold bind at 1, select at 1. unfold bind at 1, select at 1.
  destruct (hd_error _) as [task | ].
  - destruct (hd_error _) as [difficulty | ].
    + intros H. destruct (Hwrite _ H).
    + cbn. intros H. injection H as <- <-. split; reflexivity.
  - cbn. intros H. injection H as <- <-. split; reflexivity.
Qed.

End SessionEdit.

(** X12.  [update] writes nothing but session rows of the given id: the
    ledger, the catalog, the users, the rules, the number of sessions and
    every session of another id are as before.  For an id that is not stored
    it returns null and changes nothing.  The error it raises itself, 'Task
    or difficulty not found' when the recalculation does not find the task
    in the catalog, comes before its write: nothing has been written then. *)
Theorem update_writes_only_its_row :
  forall sessionId updateData db,
    LearningSessionEdit.edited sessionId db
      (run_db (LearningSessionEdit.update sessionId updateData) db)
    /\ (LearningSessionEdit.stored sessionId db = false ->
        LearningSessionEdit.update sessionId updateData db = (Returned None, db))
    /\ (LearningSessionEdit.recalculates updateData = true ->
        LearningSessionEdit.stored sessionId db = true ->
        (forall session,
           hd_error (filter (fun s => String.eqb (Session.session_id s) sessionId)
                       (learning_sessions db)) = Some session ->
           existsb (fun t => String.eqb (Task.task_id t)
                               (LearningSessionEdit.str_or
                                  (LearningSessionEdit.task_id updateData)
                                  (Session.task_id session)))
             (task_definitions db) = false) ->
        LearningSessionEdit.update sessionId updateData db
        = (Thrown "Task or difficulty not found", db)).
Proof.
  intros sessionId updateData db. split; [ | split].
  - apply preserves_run; [apply update_edits | apply edited_refl].
  - intros Hno.
    assert (Hwrite : forall coins,
              (updated <- LearningSessionEdit.update_where sessionId
                            (LearningSessionEdit.patch updateData coins) ;;
               ret (hd_error updated)) db = (Returned None, db)).
    { intros coins.
      destruct (write_run sessionId updateData coins db)
        as [updated [d [Hrun [_ Hnone]]]].
      destruct (Hnone Hno) as [-> ->]. exact Hrun. }
    unfold LearningSessionEdit.update. destruct (_ || _); [ | apply Hwrite].
    unfold bind at 1. rewrite findById_run, (not_stored_filter _ _ Hno).
    reflexivity.
  - intros Hre Hstored Hmissing.
    unfold LearningSessionEdit.update.
    fold (LearningSessionEdit.recalculates updateData). rewrite Hre.
    unfold bind at 1. rewrite findById_run.
    destruct (hd_error_filter_some _ _ Hstored) as [session Hsession].
    rewrite Hsession. specialize (Hmissing session Hsession).
    unfold bind at 1, select at 1.
    rewrite (hd_error_filter_none _ _ Hmissing). reflexivity.
Qed.

(** X12 on the sample: an unknown id, and an unknown task for a stored id. *)
Lemma update_writes_only_its_row_witness :
  LearningSessionEdit.update "s0"
    {| LearningSessionEdit.user_id := None;
       LearningSessionEdit.task_id := None;
       LearningSessionEdit.difficulty_id := None;
       LearningSessionEdit.session_date := None;
       LearningSessionEdit.focus_time_minutes := Some 90;
       LearningSessionEdit.result_quantity := None;
       LearningSessionEdit.notes := None;
       LearningSessionEdit.metadata := None |} Sample5.two_today
  = (Returned None, Sample5.two_today)
  /\ run_db
       (LearningSessionEdit.update "s1"
          {| LearningSessionEdit.user_id := None;
             LearningSessionEdit.task_id := Some "task-unknown"%string;
             LearningSessionEdit.difficulty_id := None;
             LearningSessionEdit.session_date := None;
             LearningSessionEdit.focus_time_minutes := None;
             LearningSessionEdit.result_quantity := None;
             LearningSessionEdit.notes := None;
             LearningSessionEdit.metadata := None |}) Sample5.two_today
     = Sample5.two_today.
Proof.
  split.
  - apply (proj1 (proj2 (update_writes_only_its_row _ _ _))). reflexivity.
  - unfold run_db.
    rewrite (proj2 (proj2 (update_writes_only_its_row "s1" _ Sample5.two_today)));
      [reflexivity | reflexivity | reflexivity | ].
    intros session Hsession. vm_compute in Hsession. injection Hsession as <-.
    reflexivity.
Defined.

(** X13.  When [update] returns a row, it is the stored row of the id with
    the given keys replaced, and it is in the table.  If one of focus time,
    result quantity, task or difficulty was given, its coins are recalculated
    by the base formula alone: [floor(minutes / 30)] with no 5-minute minimum,
    the floor of the product of quantity, base coin and coefficient as
    [calculateResultCoins] multiplies them, in doubles, from a task and a
    difficulty of the catalog, active or not, and a total that is their sum,
    with no bonus.  Otherwise its coins are those stored. *)
Theorem update_recalculates_without_bonus :
  forall sessionId updateData db row d,
    LearningSessionEdit.update sessionId updateData db = (Returned (Some row), d) ->
    In row (learning_sessions d)
    /\ exists s0 coins,
         In s0 (learning_sessions db)
         /\ Session.session_id s0 = sessionId
         /\ row = LearningSessionEdit.patch updateData coins s0
         /\ if LearningSessionEdit.recalculates updateData then
              Session.focus_coins row
              = Js.floor (Session.focus_time_minutes row / 30)
              /\ (exists task difficulty,
                    In task (task_definitions db)
                    /\ In difficulty (difficulties db)
                    /\ Task.task_id task
                       = LearningSessionEdit.str_or
                           (LearningSessionEdit.task_id updateData)
                           (Session.task_id s0)
                    /\ Difficulty.difficulty_id difficulty
                       = LearningSessionEdit.str_or
                           (LearningSessionEdit.difficulty_id updateData)
                           (Session.difficulty_id s0)
                    /\ Session.result_coins row
                       = CoinCalculationEngine.calculateResultCoins
                           (Session.result_quantity row) (Task.base_coin task)
                           (Difficulty.coefficient difficulty))
              /\ Session.total_coins row
                 = Session.focus_coins row + Session.result_coins row
            else coins = None.
Proof.
  intros sessionId updateData db row d.
  unfold LearningSessionEdit.update. fold (LearningSessionEdit.recalculates updateData).
  destruct (LearningSessionEdit.recalculates updateData).
  - unfold bind at 1. rewrite findById_run.
    destruct (hd_error _) as [session | ] eqn:Hsession; [ | discriminate].
    unfold bind at 1, select at 1. unfold bind at 1, select at 1.
    destruct (hd_error (filter _ (task_definitions db))) as [task | ] eqn:Htask;
      [ | discriminate].
    destruct (hd_error (filter _ (difficulties db))) as [difficulty | ] eqn:Hdiff;
      [ | discriminate].
    intros Hrun. apply write_first in Hrun.
    destruct Hrun as [Hin [s0 [Hs0 [Hin0 [Hid Hrow]]]]].
    split; [exact Hin | ].
    assert (s0 = session) by congruence. subst s0.
    apply hd_error_filter_In in Htask, Hdiff.
    destruct Htask as [Htask Htid], Hdiff as [Hdiff Hdid].
    apply String.eqb_eq in Htid, Hdid.
    eexists. eexists. split; [exact Hin0 | ]. split; [exact Hid | ].
    split; [exact Hrow | ]. cbv beta iota. subst row. cbn.
    split; [reflexivity | ]. split; [ | reflexivity].
    exists task, difficulty. repeat split; assumption.
  - intros Hrun. apply write_first in Hrun.
    destruct Hrun as [Hin [s0 [_ [Hin0 [Hid Hrow]]]]].
    split; [exact Hin | ]. exists s0, None. repeat split; assumption.
Qed.

(** X13 on the sample: session s1 was stored with 12 coins; set to 3 minutes
    and 4 results it gets 0 + 20 coins. *)
Lemma update_recalculates_without_bonus_witness :
  exists row d,
    LearningSessionEdit.update "s1"
      {| LearningSessionEdit.user_id := None;
         LearningSessionEdit.task_id := None;
         LearningSessionEdit.difficulty_id := None;
         LearningSessionEdit.session_date := None;
         LearningSessionEdit.focus_time_minutes := Some 3;
         LearningSessionEdit.result_quantity := Some 4;
         LearningSessionEdit.notes := None;
         LearningSessionEdit.metadata := None |} Sample5.two_today
    = (Returned (Some row), d)
    /\ In row (learning_sessions d)
    /\ Session.total_coins row
       = Js.floor (3 / 30) + Js.floor (Js.mul (Js.mul 4 5) 1)
    /\ Session.total_coins row = 20.
Proof.
  eexists. eexists. split; [vm_compute; reflexivity | ]. split.
  - apply (proj1 (update_recalculates_without_bonus "s1"
                    {| LearningSessionEdit.user_id := None;
                       LearningSessionEdit.task_id := None;
                       LearningSessionEdit.difficulty_id := None;
                       LearningSessionEdit.session_date := None;
                       LearningSessionEdit.focus_time_minutes := Some 3;
                       LearningSessionEdit.result_quantity := Some 4;
                       LearningSessionEdit.notes := None;
                       LearningSessionEdit.metadata := None |}
                    Sample5.two_today _ _ ltac:(vm_compute; reflexivity))).
  - split; vm_compute; reflexivity.
Defined.

Section SessionDelete.
Import LearningSessionEdit.

Lemma length_filter_positive {A} (f : A -> bool) (l : list A) :
  (0 <? List.length (filter f l))%nat = existsb f l.
Proof.
  induction l as [ | x l IH]; [reflexivity | ].
  cbn. destruct (f x); [reflexivity | exact IH].
Qed.

Lemma delete_run sessionId db :
  delete sessionId db
  = (Returned (stored sessionId db),
     with_sessions db
       (filter (fun s => negb (String.eqb (Session.session_id s) sessionId))
          (learning_sessions db))).
Proof.
  unfold delete, del_where, bind, stored. cbn [ret].
  rewrite length_filter_positive. reflexivity.
Qed.

Lemma filter_others_all sessionId (l : list Session.row) :
  existsb (fun s => String.eqb (Session.session_id s) sessionId) l = false ->
  filter (fun s => negb (String.eqb (Session.session_id s) sessionId)) l = l.
Proof.
  induction l as [ | s l IH]; [reflexivity | ].
  cbn. destruct (String.eqb (Session.session_id s) sessionId);
    [discriminate | ].
  cbn. intros H. rewrite (IH H). reflexivity.
Qed.

Lemma filter_others_snoc sessionId (l : list Session.row) row :
  Session.session_id row = sessionId ->
  existsb (fun s => String.eqb (Session.session_id s) sessionId) l = false ->
  filter (fun s => negb (String.eqb (Session.session_id s) sessionId)) (l ++ [row])
  = l.
Proof.
  intros Hrow Hfresh. rewrite filter_app. cbn.
  rewrite Hrow, String.eqb_refl. cbn. rewrite app_nil_r.
  apply filter_others_all. exact Hfresh.
Qed.

End SessionDelete.

(** X14.  [delete] returns whether a session of the id was stored.  After
    it no session of the id is stored, every other session is, and a second
    [delete] returns false.  The ledger is not touched: the coins the session
    earned, and the debits for it, stay. *)
Theorem delete_removes_session_keeps_ledger :
  forall sessionId db,
    let d := run_db (LearningSessionEdit.delete sessionId) db in
    run_out (LearningSessionEdit.delete sessionId) db
    = Returned (LearningSessionEdit.stored sessionId db)
    /\ coin_ledger d = coin_ledger db
    /\ Frame.same_catalog db d
    /\ (forall s, In s (learning_sessions d)
                  <-> In s (learning_sessions db) /\ Session.session_id s <> sessionId)
    /\ LearningSessionEdit.delete sessionId d = (Returned false, d).
Proof.
  intros sessionId db d. subst d. unfold run_out, run_db.
  rewrite delete_run. cbn [fst snd].
  split; [reflexivity | ]. split; [reflexivity | ]. split; [repeat split | ].
  assert (Hin : forall s,
            In s (filter (fun s => negb (String.eqb (Session.session_id s) sessionId))
                    (learning_sessions db))
            <-> In s (learning_sessions db) /\ Session.session_id s <> sessionId).
  { intros s. rewrite filter_In. split; intros [H1 H2]; (split; [exact H1 | ]).
    - intros E. rewrite E, String.eqb_refl in H2. discriminate.
    - destruct (String.eqb_spec (Session.session_id s) sessionId);
        [contradiction | reflexivity]. }
  split; [exact Hin | ].
  rewrite delete_run.
  assert (Hgone : LearningSessionEdit.stored sessionId
                    (with_sessions db
                       (filter (fun s => negb (String.eqb (Session.session_id s) sessionId))
                          (learning_sessions db))) = false).
  { unfold LearningSessionEdit.stored. cbn.
    destruct (existsb _ _) eqn:E; [ | reflexivity].
    apply existsb_exists in E. destruct E as [s [Hs E]].
    apply Hin in Hs. apply String.eqb_eq in E. destruct Hs as [_ Hs].
    contradiction. }
  rewrite Hgone. f_equal. unfold LearningSessionEdit.stored in Hgone.
  cbn in *. rewrite (filter_others_all sessionId _ Hgone). reflexivity.
Qed.

(** X15.  Deleting a session right after [create] stored it under a fresh id
    restores the session table, while the ledger keeps every row [create]
    wrote: the reward is not taken back. *)
Theorem delete_after_create_keeps_reward :
  forall sessionId now earned_now sessionData db r,
    CoinCalculationEngine.calculateCoins
      (LearningSessionModel.calculation_input sessionData) db = (Returned r, db) ->
    LearningSessionEdit.stored sessionId db = false ->
    let created :=
      run_db (LearningSessionModel.create sessionId now earned_now sessionData) db in
    let deleted := run_db (LearningSessionEdit.delete sessionId) created in
    run_out (LearningSessionEdit.delete sessionId) created = Returned true
    /\ learning_sessions deleted = learning_sessions db
    /\ coin_ledger deleted = coin_ledger created.
Proof.
  intros sessionId now earned_now sessionData db r Hcalc Hfresh created deleted.
  pose proof (create_run sessionId now earned_now sessionData db) as Hcreate.
  rewrite Hcalc in Hcreate.
  destruct Hcreate as [row [d [Hrun [Hsessions [Hid _]]]]].
  assert (Hd : created = d) by (unfold created, run_db; rewrite Hrun; reflexivity).
  subst deleted. rewrite Hd. unfold run_out, run_db. rewrite delete_run.
  cbn [fst snd]. split; [ | split].
  - unfold LearningSessionEdit.stored. rewrite Hsessions, existsb_app. cbn.
    rewrite Hid, String.eqb_refl. rewrite orb_true_r. reflexivity.
  - cbn. rewrite Hsessions. apply filter_others_snoc; [exact Hid | exact Hfresh].
  - reflexivity.
Qed.

(** X15 on the sample: the third session of the day is created and deleted;
    two sessions are stored again, and the 27 + 15 coins stay. *)
Lemma delete_after_create_keeps_reward_witness :
  let created :=
    run_db (LearningSessionModel.create "s3" (Sample.at_day 98) [] Sample5.one_more)
      Sample5.two_today in
  let deleted := run_db (LearningSessionEdit.delete "s3") created in
  learning_sessions deleted = learning_sessions Sample5.two_today
  /\ coin_ledger deleted = coin_ledger created
  /\ map Ledger.amount (coin_ledger deleted) = [27; 15].
Proof.
  assert (Hcalc : exists r,
            CoinCalculationEngine.calculateCoins
              (LearningSessionModel.calculation_input Sample5.one_more)
              Sample5.two_today = (Returned r, Sample5.two_today)).
  { eexists. vm_compute. reflexivity. }
  destruct Hcalc as [r Hcalc].
  destruct (delete_after_create_keeps_reward "s3" (Sample.at_day 98) []
              Sample5.one_more Sample5.two_today r Hcalc eq_refl)
    as [_ [Hsessions Hledger]].
  split; [exact Hsessions | ]. split; [exact Hledger | ].
  vm_compute. reflexivity.
Defined.

(* --------------------------------------------------------------------- *)
(** ** Reading the ledger: history pages *)
(* --------------------------------------------------------------------- *)

Section History.
Import CoinHistory.

Lemma getCoinHistory_run created_at userId options db :
  getCoinHistory created_at userId options db
  = (Returned
       {| records :=
            firstn (default (limit options) 20%nat)
              (skipn (default (offset options) 0%nat)
                 (matching created_at userId options db));
          total := List.length (matching created_at userId options db) |},
     db).
Proof.
  unfold getCoinHistory, matching, bind, select. cbn [ret].
  rewrite length_rev. reflexivity.
Qed.

Lemma firstn_next {A} (l : list A) (a b : nat) :
  firstn a l ++ firstn b (skipn a l) = firstn (a + b) l.
Proof.
  revert l. induction a as [ | a IH]; intros l; [reflexivity | ].
  destruct l as [ | x l]; cbn.
  - rewrite firstn_nil. reflexivity.
  - rewrite IH. reflexivity.
Qed.

Lemma matching_window created_at userId options limit offset db :
  matching created_at userId (window options limit offset) db
  = matching created_at userId options db.
Proof. reflexivity. Qed.

Lemma pages_firstn created_at userId options limit db n :
  pages created_at userId options limit db n
  = firstn (n * limit) (matching created_at userId options db).
Proof.
  induction n as [ | n IH]; [reflexivity | ].
  cbn [pages]. rewrite IH. unfold run_out. rewrite getCoinHistory_run.
  cbn [fst records window default CoinHistory.limit CoinHistory.offset].
  rewrite matching_window.
  rewrite firstn_next. f_equal. lia.
Qed.

Lemma map_snd_zip {A B} (l : list A) (l' : list B) :
  List.length l = List.length l' -> map snd (combine l l') = l'.
Proof.
  revert l'. induction l as [ | x l IH]; intros [ | y l'] H;
    try reflexivity; try discriminate.
  cbn. rewrite IH; [reflexivity | ]. injection H as H. exact H.
Qed.

Lemma map_snd_stamped created_at ledger :
  map snd (stamped created_at ledger) = ledger.
Proof.
  unfold stamped. apply map_snd_zip.
  rewrite length_map, length_seq. reflexivity.
Qed.

Lemma filter_on_snd {A B} (p : B -> bool) (l : list (A * B)) :
  map snd (filter (fun r => p (snd r)) l) = filter p (map snd l).
Proof.
  induction l as [ | x l IH]; [reflexivity | ].
  cbn. destruct (p (snd x)); cbn; rewrite IH; reflexivity.
Qed.

Lemma hd_error_map_snd {A B} (l : list (A * B)) :
  hd_error (map snd l) = option_map snd (hd_error l).
Proof. destruct l; reflexivity. Qed.

(** Without filters, the rows of the history are the user's rows, newest
    first. *)
Lemma matching_unfiltered created_at userId size db :
  map snd
    (matching created_at userId
       {| limit := size; offset := None; startDate := None; endDate := None;
          changeType := None |} db)
  = rev (Spec.entries_of userId (coin_ledger db)).
Proof.
  unfold matching, Spec.entries_of. rewrite map_rev. f_equal.
  rewrite <- (map_snd_stamped created_at (coin_ledger db)) at 2.
  rewrite <- filter_on_snd. f_equal. apply filter_ext. intros r.
  unfold selected. cbn. rewrite !andb_true_r. reflexivity.
Qed.

End History.

(** X16.  [getCoinHistory] only reads.  Its [total] is the number of rows the
    filters select, whatever the window; a page never has more rows than its
    limit; and the pages of one limit at the offsets 0, limit, 2 * limit, ...
    put one after the other are the selected rows, newest first, each once,
    as soon as they reach the total. *)
Theorem history_pages_tile_the_selection :
  forall created_at userId options db,
    (exists page,
       CoinHistory.getCoinHistory created_at userId options db = (Returned page, db)
       /\ CoinHistory.total page
          = List.length (CoinHistory.matching created_at userId options db)
       /\ (List.length (CoinHistory.records page)
           <= CoinHistory.default (CoinHistory.limit options) 20)%nat)
    /\ forall size n,
         (List.length (CoinHistory.matching created_at userId options db)
          <= n * size)%nat ->
         CoinHistory.pages created_at userId options size db n
         = CoinHistory.matching created_at userId options db.
Proof.
  intros created_at userId options db. split.
  - eexists. split; [apply getCoinHistory_run | ]. split; [reflexivity | ].
    cbn. apply firstn_le_length.
  - intros size n Hn. rewrite pages_firstn. apply firstn_all2. exact Hn.
Qed.

(** X16 on Alice's three rows, one row per page. *)
Lemma history_pages_tile_the_selection_witness :
  CoinHistory.pages Sample7.by_position "alice" Sample7.no_filter 1
    Sample7.three_rows 3
  = CoinHistory.matching Sample7.by_position "alice" Sample7.no_filter
      Sample7.three_rows
  /\ map (fun r => (fst r, Ledger.change_type (snd r)))
       (CoinHistory.pages Sample7.by_position "alice" Sample7.no_filter 1
          Sample7.three_rows 3)
     = [(2000%Z, penalty); (1000%Z, redeemed); (0%Z, bonus)].
Proof.
  split.
  - apply (proj2 (history_pages_tile_the_selection Sample7.by_position "alice"
                    Sample7.no_filter Sample7.three_rows)).
    vm_compute. lia.
  - vm_compute. reflexivity.
Defined.

Section DecayHistoryFacts.
Import CoinHistory.

Lemma selected_decayed userId options r :
  DecayHistory.selected userId options r
  = selected userId (DecayHistory.as_history options) r.
Proof.
  unfold DecayHistory.selected, selected, DecayHistory.as_history. cbn.
  destruct (String.eqb (Ledger.user_id (snd r)) userId); cbn; [ | reflexivity].
  destruct (Ledger.change_type (snd r)); cbn;
    rewrite ?andb_true_r, ?andb_false_r; reflexivity.
Qed.

Lemma getDecayHistory_run created_at userId options db :
  DecayHistory.getDecayHistory created_at userId options db
  = getCoinHistory created_at userId (DecayHistory.as_history options) db.
Proof.
  unfold DecayHistory.getDecayHistory, getCoinHistory, bind, select. cbn [ret].
  rewrite (filter_ext _ _ (selected_decayed userId options)). reflexivity.
Qed.

Lemma selected_rows created_at userId options db r :
  In r (matching created_at userId options db) ->
  selected userId options r = true.
Proof.
  unfold matching. rewrite <- in_rev. intros H. apply filter_In in H. apply H.
Qed.

Lemma in_window {A} (l : list A) (a b : nat) x :
  In x (firstn a (skipn b l)) -> In x l.
Proof.
  intros H. rewrite <- (firstn_skipn b l). apply in_or_app. right.
  rewrite <- (firstn_skipn a (skipn b l)). apply in_or_app. left. exact H.
Qed.

End DecayHistoryFacts.

(** X17.  [getDecayHistory] answers as [getCoinHistory] does when asked for
    the change type 'decayed' with the same window and dates: the same
    records and the same total; every record is a [decayed] row of the
    user. *)
Theorem decay_history_is_history_of_decayed :
  forall created_at userId options db,
    exists page,
      DecayHistory.getDecayHistory created_at userId options db = (Returned page, db)
      /\ CoinHistory.getCoinHistory created_at userId
           (DecayHistory.as_history options) db = (Returned page, db)
      /\ Forall (fun r => Ledger.user_id (snd r) = userId
                          /\ Ledger.change_type (snd r) = decayed)
           (CoinHistory.records page).
Proof.
  intros created_at userId options db. eexists.
  rewrite getDecayHistory_run. split; [apply getCoinHistory_run | ].
  split; [apply getCoinHistory_run | ].
  apply Forall_forall. intros r Hr. cbn in Hr.
  apply in_window, selected_rows in Hr.
  unfold CoinHistory.selected in Hr. cbn in Hr.
  apply andb_true_iff in Hr. destruct Hr as [Hr Htype].
  apply andb_true_iff in Hr. destruct Hr as [Hr _].
  apply andb_true_iff in Hr. destruct Hr as [Huser _].
  apply String.eqb_eq in Huser. split; [exact Huser | ].
  destruct (Ledger.change_type (snd r)); try discriminate Htype. reflexivity.
Qed.

(** X18.  The newest record of the unfiltered history carries the balance
    [getCurrentBalance] returns; without records the balance is 0. *)
Theorem newest_history_record_is_balance :
  forall created_at userId size db,
    (0 < size)%nat ->
    exists page,
      CoinHistory.getCoinHistory created_at userId
        {| CoinHistory.limit := Some size; CoinHistory.offset := None;
           CoinHistory.startDate := None; CoinHistory.endDate := None;
           CoinHistory.changeType := None |} db = (Returned page, db)
      /\ CoinCalculationEngine.getCurrentBalance userId db
         = (Returned
              match CoinHistory.records page with
              | r :: _ => Js.or_else (Ledger.balance_after (snd r)) 0
              | [] => 0
              end, db).
Proof.
  intros created_at userId size db Hsize. eexists.
  split; [apply getCoinHistory_run | ].
  cbn [CoinHistory.records CoinHistory.default CoinHistory.limit CoinHistory.offset].
  unfold CoinCalculationEngine.getCurrentBalance, bind, select,
    CoinCalculationEngine.latestRecord.
  fold (Spec.entries_of userId (coin_ledger db)).
  rewrite <- (matching_unfiltered created_at userId (Some size) db).
  rewrite hd_error_map_snd. cbn [skipn].
  destruct size as [ | size]; [lia | ].
  destruct (CoinHistory.matching _ _ _ db) as [ | r l]; reflexivity.
Qed.

(** X18 on Alice's rows. *)
Lemma newest_history_record_is_balance_witness :
  CoinCalculationEngine.getCurrentBalance "alice" Sample7.three_rows
  = (Returned (Js.or_else (0 + 100 + - (100) + - (20)) 0),
     Sample7.three_rows).
Proof.
  destruct (newest_history_record_is_balance Sample7.by_position "alice" 1
              Sample7.three_rows ltac:(lia)) as [page [Hpage Hbalance]].
  rewrite Hbalance. vm_compute in Hpage. injection Hpage as <-.
  vm_compute. reflexivity.
Defined.

(* --------------------------------------------------------------------- *)
(** ** Validated sessions *)
(* --------------------------------------------------------------------- *)

Section Validated.
Import CoinCalculationEngine.

Lemma floor_nonneg (x : Q) : 0 <= x -> 0 <= Js.floor x.
Proof.
  intros H. unfold Js.floor. change 0 with (inject_Z 0). rewrite <- Zle_Qle.
  change 0%Z with (Qfloor 0). apply Qfloor_resp_le. exact H.
Qed.

Lemma sessionNumbers_ranges f q :
  Validation.sessionNumbers f q = true -> 0 <= f /\ f <= 1440 /\ 0 <= q.
Proof.
  unfold Validation.sessionNumbers, Validation.at_least, Validation.at_most.
  intros H. repeat (apply andb_true_iff in H; destruct H as [H ?]).
  repeat split; apply Qle_bool_iff; assumption.
Qed.

End Validated.

(** X19.  A session whose numbers pass the request validation (whole
    minutes from 0 to 1440, a whole quantity of at least 0), calculated
    against a catalog without negative base coins or coefficients, never
    costs coins: focus coins are between 0 and 48, result coins and bonus
    are not negative, and the total is at least their sum, hence at least
    0. *)
Theorem validated_session_never_negative :
  forall input db r,
    Validation.sessionNumbers (CoinCalculationEngine.focusTimeMinutes input)
      (CoinCalculationEngine.resultQuantity input) = true ->
    (forall t, In t (task_definitions db) -> 0 <= Task.base_coin t) ->
    (forall d, In d (difficulties db) -> 0 <= Difficulty.coefficient d) ->
    CoinCalculationEngine.calculateCoins input db = (Returned r, db) ->
    0 <= CoinCalculationEngine.focusCoins r
    /\ CoinCalculationEngine.focusCoins r <= 48
    /\ 0 <= CoinCalculationEngine.resultCoins r
    /\ 0 <= CoinCalculationEngine.bonusCoins r
    /\ CoinCalculationEngine.bonusCoins r <= 40
    /\ CoinCalculationEngine.totalCoins r
       == CoinCalculationEngine.focusCoins r + CoinCalculationEngine.resultCoins r
          + CoinCalculationEngine.bonusCoins r
    /\ 0 <= CoinCalculationEngine.totalCoins r.
Proof.
  intros input db r Hvalid Htasks Hdiffs Hcalc.
  destruct (sessionNumbers_ranges _ _ Hvalid) as [Hf0 [Hf1 Hq0]].
  destruct (calculateCoins_run _ _ _ _ Hcalc)
    as [_ [task [difficulty [Htask [Hdiff [Hfocus [Hresult [Htotal _]]]]]]]].
  destruct (bonusCoins_bounds _ _ _ _ Hcalc) as [Hb0 Hb40].
  apply hd_error_filter_In in Htask, Hdiff.
  destruct Htask as [Htask _], Hdiff as [Hdiff _].
  assert (Hfc0 : 0 <= CoinCalculationEngine.focusCoins r).
  { rewrite Hfocus.
    rewrite (proj1 calculateFocusCoins_floor_monotone _ Hf0).
    apply floor_nonneg. apply Qle_shift_div_l; [reflexivity | ].
    rewrite Qmult_0_l. exact Hf0. }
  assert (Hfc48 : CoinCalculationEngine.focusCoins r <= 48).
  { rewrite Hfocus.
    apply (Qle_trans _ (CoinCalculationEngine.calculateFocusCoins 1440)).
    - apply (proj2 calculateFocusCoins_floor_monotone). exact Hf1.
    - vm_compute. discriminate. }
  assert (Hrc0 : 0 <= CoinCalculationEngine.resultCoins r).
  { rewrite Hresult. unfold CoinCalculationEngine.calculateResultCoins.
    apply floor_nonneg. apply mul_nonneg; [ | apply Hdiffs; exact Hdiff].
    apply mul_nonneg; [exact Hq0 | apply Htasks; exact Htask]. }
  split; [exact Hfc0 | ]. split; [exact Hfc48 | ]. split; [exact Hrc0 | ].
  split; [exact Hb0 | ]. split; [exact Hb40 | ].
  split; [rewrite Htotal; reflexivity | ].
  rewrite Htotal.
  apply (Qle_trans _ (0 + 0 + 0)); [discriminate | ].
  apply Qplus_le_compat; [apply Qplus_le_compat | ]; assumption.
Qed.

(** X19 on the preview of the sample: 60 minutes, 2 results, a streak of
    seven days. *)
Lemma validated_session_never_negative_witness :
  exists r,
    CoinCalculationEngine.calculateCoins Sample5.preview Sample5.six_days
    = (Returned r, Sample5.six_days)
    /\ 0 <= CoinCalculationEngine.totalCoins r
    /\ CoinCalculationEngine.totalCoins r = 2 + 10 + 10.
Proof.
  eexists. split; [vm_compute; reflexivity | ]. split.
  - eapply (validated_session_never_negative Sample5.preview Sample5.six_days).
    + reflexivity.
    + intros t [<- | []]. discriminate.
    + intros d [<- | [<- | []]]; discriminate.
    + vm_compute. reflexivity.
  - vm_compute. reflexivity.
Defined.

(* --------------------------------------------------------------------- *)
(** ** [batchCalculateCoins] *)
(* --------------------------------------------------------------------- *)

Section BatchFacts.
Import CoinCalculationEngine.

Lemma batch_turn results input db :
  try_catch
    (result <- calculateCoins input ;;
     ret (results ++ [Batch.calculated result]))
    (fun _ => ret (results ++ [Batch.fallback input])) db
  = (Returned (results ++ [Batch.element db input]), db).
Proof.
  unfold try_catch, bind, Batch.element, run_out.
  pose proof (calculateCoins_reads_only input db) as Hdb. unfold run_db in Hdb.
  destruct (calculateCoins input db) as [[r | msg] d]; cbn in *; subst d;
    reflexivity.
Qed.

Lemma batchCalculateCoins_run inputs db :
  Batch.batchCalculateCoins inputs db
  = (Returned (map (Batch.element db) inputs), db).
Proof.
  unfold Batch.batchCalculateCoins.
  rewrite (fold_of_pure inputs _ (fun results input =>
                                    results ++ [Batch.element db input]) db).
  - rewrite fold_left_snoc_map. reflexivity.
  - intros acc input _. apply batch_turn.
Qed.

End BatchFacts.

(** X20.  [batchCalculateCoins] never throws and never writes.  It returns
    one element per input, in the order of the inputs; each element is what
    [calculateCoins] returns for that input on its own, or, when that throws,
    the default with zero coins: one failing input changes nothing for the
    others. *)
Theorem batch_calculates_each_input_alone :
  forall inputs db,
    Batch.batchCalculateCoins inputs db
    = (Returned (map (Batch.element db) inputs), db).
Proof. exact batchCalculateCoins_run. Qed.

(* --------------------------------------------------------------------- *)
(** ** The controllers *)
(* --------------------------------------------------------------------- *)

Section Controllers.
Import CoinCalculationEngine Http.

Lemma calculateCoins_throws input db msg d :
  calculateCoins input db = (Thrown msg, d) ->
  d = db
  /\ ((msg = "Task not found or inactive"%string
       /\ Lookup.active_task (taskId input) db = None)
      \/ (msg = "Difficulty not found or inactive"%string
          /\ Lookup.active_difficulty (difficultyId input) db = None)).
Proof.
  intros Hcalc.
  pose proof (calculateCoins_reads_only input db) as Hdb.
  unfold run_db in Hdb. rewrite Hcalc in Hdb. cbn in Hdb.
  split; [exact Hdb | ].
  revert Hcalc.
  unfold calculateCoins, bind, select, Lookup.active_task, Lookup.active_difficulty.
  destruct (hd_error (filter _ (task_definitions db))) as [task | ].
  - destruct (hd_error (filter _ (difficulties db))) as [difficulty | ].
    + destruct (calculateBonusCoins_bounds (userId input) (taskId input)
                  (Difficulty.label difficulty) (sessionDate input) db)
        as [total [bonuses [Hrun _]]].
      rewrite Hrun. discriminate.
    + cbn. intros H. injection H as <- _. right. split; reflexivity.
  - cbn. intros H. injection H as <- _. left. split; reflexivity.
Qed.

End Controllers.

(** X21.  [previewCalculation] never writes, and no error of
    [calculateCoins] reaches the client as an internal error: either it
    succeeds with the result of [calculateCoins] for the authenticated user,
    or it answers 400 'Invalid task or difficulty ID', and then the task or
    the difficulty is missing or inactive; both messages of [calculateCoins]
    contain 'not found'. *)
Theorem preview_answers_400_for_missing_catalog_rows :
  forall now user body db,
    exists response,
      CoinController.previewCalculation now user body db = (response, db)
      /\ match response with
         | Http.Success r _ =>
             CoinCalculationEngine.calculateCoins
               (CoinController.preview_input now user body) db = (Returned r, db)
         | Http.Created _ _ => False
         | Http.Rejected statusCode message =>
             statusCode = 400%Z
             /\ message = "Invalid task or difficulty ID"%string
             /\ (Lookup.active_task (CoinController.taskId body) db = None
                 \/ Lookup.active_difficulty (CoinController.difficultyId body) db
                    = None)
         end.
Proof.
  intros now user body db. unfold CoinController.previewCalculation.
  destruct (CoinCalculationEngine.calculateCoins _ db) as [[r | msg] d] eqn:Hcalc.
  - destruct (calculateCoins_run _ _ _ _ Hcalc) as [-> _].
    eexists. split; [reflexivity | reflexivity].
  - destruct (calculateCoins_throws _ _ _ _ Hcalc) as [-> [[-> H] | [-> H]]].
    + eexists. split; [reflexivity | ]. cbn.
      split; [reflexivity | ]. split; [reflexivity | ]. left. exact H.
    + eexists. split; [reflexivity | ]. cbn.
      split; [reflexivity | ]. split; [reflexivity | ]. right. exact H.
Qed.

(** X22.  The two administrative handlers check the role first: for a user
    who is no admin, [adjustCoins] and [triggerDecay] answer 403 'Admin
    privileges required' and change nothing.  For an admin, when the ledger
    takes the row (the user is known, the amount and the balance after it are
    32 bit integers), [adjustCoins] succeeds and appends that one row for the
    given user, carrying the admin's id as its reference; the balance may go
    below zero. *)
Theorem admin_handlers_check_role_first :
  forall user db,
    (Http.role user <> "admin"%string ->
     (forall userId amount reason,
        CoinController.adjustCoins user userId amount reason db
        = (Http.Rejected 403 "Admin privileges required", db))
     /\ (forall env userId,
           DecayController.triggerDecay env user userId db
           = (Http.Rejected 403 "Admin privileges required", db)))
    /\ (Http.role user = "admin"%string ->
        forall userId amount reason,
        exists b,
          b == Spec.currentBalance userId (coin_ledger db)
          /\ (Pg.takes_entry db
                (Rows.appended userId amount
                   (if Js.gt amount 0 then bonus else penalty)
                   "admin_adjustment" (Http.user_id user)
                   ("管理员调整：" ++ reason)%string
                   (Js.JObj [("adminId", Js.JStr (Http.user_id user))]) b) = true ->
              CoinController.adjustCoins user userId amount reason db
              = (Http.Success tt "Coins adjusted successfully",
                 Rows.append db
                   (Rows.appended userId amount
                      (if Js.gt amount 0 then bonus else penalty)
                      "admin_adjustment" (Http.user_id user)
                      ("管理员调整：" ++ reason)%string
                      (Js.JObj [("adminId", Js.JStr (Http.user_id user))]) b)))).
Proof.
  intros user db. split.
  - intros Hrole.
    assert (Hno : negb (String.eqb (Http.role user) "admin") = true).
    { destruct (String.eqb_spec (Http.role user) "admin"%string);
        [contradiction | reflexivity]. }
    split.
    + intros userId amount reason. unfold CoinController.adjustCoins.
      rewrite Hno. reflexivity.
    + intros env userId. unfold DecayController.triggerDecay.
      rewrite Hno. reflexivity.
  - intros Hrole userId amount reason.
    destruct (adjustCoins_run userId amount reason (Http.user_id user) db)
      as [b [Hb Hrun]].
    exists b. split; [exact Hb | ]. intros _.
    unfold CoinController.adjustCoins. rewrite Hrole, Hrun. reflexivity.
Qed.

(** X22 for a plain user and for an admin who takes 5 coins from Alice, who
    has none. *)
Lemma admin_handlers_check_role_first_witness :
  CoinController.adjustCoins
    {| Http.user_id := "bob"; Http.role := "user" |} "alice" 1000 "gift"
    Sample.spent_all
  = (Http.Rejected 403 "Admin privileges required", Sample.spent_all)
  /\ exists b,
       b == Spec.currentBalance "alice" (coin_ledger Sample.spent_all)
       /\ Pg.takes_entry Sample.spent_all
            (Rows.appended "alice" (-5) penalty "admin_adjustment" "root"
               ("管理员调整：" ++ "late")%string
               (Js.JObj [("adminId", Js.JStr "root")]) b) = true
       /\ CoinController.adjustCoins
            {| Http.user_id := "root"; Http.role := "admin" |} "alice" (-5) "late"
            Sample.spent_all
          = (Http.Success tt "Coins adjusted successfully",
             Rows.append Sample.spent_all
               (Rows.appended "alice" (-5) penalty "admin_adjustment" "root"
                  ("管理员调整：" ++ "late")%string
                  (Js.JObj [("adminId", Js.JStr "root")]) b)).
Proof.
  split.
  - apply (proj1 (admin_handlers_check_role_first
                    {| Http.user_id := "bob"; Http.role := "user" |}
                    Sample.spent_all)).
    discriminate.
  - destruct (proj2 (admin_handlers_check_role_first
                       {| Http.user_id := "root"; Http.role := "admin" |}
                       Sample.spent_all) eq_refl "alice"%string (-5) "late"%string)
      as [b [Hb Hrun]].
    assert (Htakes :
              Pg.takes_entry Sample.spent_all
                (Rows.appended "alice" (-5) penalty "admin_adjustment" "root"
                   ("管理员调整：" ++ "late")%string
                   (Js.JObj [("adminId", Js.JStr "root")]) b) = true).
    { unfold Pg.takes_entry. cbn [Ledger.user_id Ledger.amount
                                    Ledger.balance_after Rows.appended].
      rewrite (int4_whole (b + -5) (-5)); [reflexivity | | lia].
      rewrite Hb. reflexivity. }
    exists b. split; [exact Hb | ]. split; [exact Htakes | ].
    apply Hrun. exact Htakes.
Defined.

(** X23.  [getPrediction] never writes.  Above 30 days it answers 400
    'Prediction period cannot exceed 30 days'.  Up to 30 days it succeeds
    when no pair of the user reaches its threshold within the horizon, with
    one entry per day, at most 30, and none for a horizon that is not
    positive; when a pair does, the query is rejected and the answer is 500
    'Internal Server Error'. *)
Theorem prediction_request_is_capped_at_30_days :
  forall env user days db,
    let horizon := match days with Some d => d | None => 7%Z end in
    snd (DecayController.getPrediction env user days db) = db
    /\ ((30 < horizon)%Z ->
        fst (DecayController.getPrediction env user days db)
        = Http.Rejected 400 "Prediction period cannot exceed 30 days")
    /\ ((horizon <= 30)%Z ->
        Decay.due_within env (Http.user_id user) horizon db = false ->
        exists predictions,
          fst (DecayController.getPrediction env user days db)
          = Http.Success predictions "Decay prediction retrieved successfully"
          /\ List.length predictions = Z.to_nat horizon
          /\ (List.length predictions <= 30)%nat)
    /\ ((horizon <= 30)%Z ->
        Decay.due_within env (Http.user_id user) horizon db = true ->
        fst (DecayController.getPrediction env user days db)
        = Http.Rejected 500 "Internal Server Error").
Proof.
  intros env user days db horizon. unfold DecayController.getPrediction.
  fold horizon. rewrite predictDecay_run.
  fold (Decay.due_within env (Http.user_id user) horizon db).
  split; [ | split; [ | split]].
  - destruct (30 <? horizon)%Z; [reflexivity | ].
    destruct (Decay.due_within _ _ _ _); reflexivity.
  - intros H. apply Z.ltb_lt in H. rewrite H. reflexivity.
  - intros H Hdue.
    assert (Hno : (30 <? horizon)%Z = false) by (apply Z.ltb_ge; exact H).
    rewrite Hno, Hdue. eexists. split; [reflexivity | ].
    rewrite length_map. unfold CoinDecayService.offsets.
    rewrite length_map, length_seq. split; [reflexivity | lia].
  - intros H Hdue.
    assert (Hno : (30 <? horizon)%Z = false) by (apply Z.ltb_ge; exact H).
    rewrite Hno, Hdue. reflexivity.
Qed.

(** X23 for 45 days, and for the default of 7 days with Alice's session of
    day 100, due already, and with her session of day 118 and 3 days. *)
Lemma prediction_request_is_capped_at_30_days_witness :
  fst (DecayController.getPrediction Sample.env120
         {| Http.user_id := "alice"; Http.role := "user" |} (Some 45%Z)
         Sample2.one_pair)
  = Http.Rejected 400 "Prediction period cannot exceed 30 days"
  /\ fst (DecayController.getPrediction Sample.env120
            {| Http.user_id := "alice"; Http.role := "user" |} None
            Sample2.one_pair)
     = Http.Rejected 500 "Internal Server Error"
  /\ exists predictions,
       fst (DecayController.getPrediction Sample.env120
              {| Http.user_id := "alice"; Http.role := "user" |} (Some 3%Z)
              Sample2.fresh)
       = Http.Success predictions "Decay prediction retrieved successfully"
       /\ List.length predictions = 3%nat.
Proof.
  split; [ | split].
  - apply (proj1 (proj2 (prediction_request_is_capped_at_30_days Sample.env120
                           {| Http.user_id := "alice"; Http.role := "user" |}
                           (Some 45%Z) Sample2.one_pair))).
    reflexivity.
  - apply (proj2 (proj2 (proj2 (prediction_request_is_capped_at_30_days
                                  Sample.env120
                                  {| Http.user_id := "alice"; Http.role := "user" |}
                                  None Sample2.one_pair)))).
    + discriminate.
    + reflexivity.
  - destruct (proj1 (proj2 (proj2 (prediction_request_is_capped_at_30_days
                                     Sample.env120
                                     {| Http.user_id := "alice"; Http.role := "user" |}
                                     (Some 3%Z) Sample2.fresh)))
                ltac:(discriminate) eq_refl)
      as [predictions [Hrun [Hlen _]]].
    exists predictions. split; [exact Hrun | exact Hlen].
Defined.

(* --------------------------------------------------------------------- *)
(** ** The session handlers *)
(* --------------------------------------------------------------------- *)

Section SessionHandlers.
Import Http SessionController.

Lemma owned_session_run user sessionId db :
  owned_session user sessionId db
  = (match hd_error (filter (fun s => String.eqb (Session.session_id s) sessionId)
                       (learning_sessions db)) with
     | None => inl (AppError "Session not found" 404)
     | Some existing =>
         if String.eqb (Session.user_id existing) (user_id user)
         then inr existing
         else inl (AppError "Access denied" 403)
     end, db).
Proof.
  unfold owned_session, and_then, lift. rewrite findById_run.
  destruct (hd_error _) as [existing | ]; [ | reflexivity].
  destruct (String.eqb _ _); reflexivity.
Qed.

Lemma update_of_stored sessionId updateData db s0 :
  hd_error (filter (fun s => String.eqb (Session.session_id s) sessionId)
              (learning_sessions db)) = Some s0 ->
  match LearningSessionEdit.update sessionId updateData db with
  | (Returned (Some row), d) =>
      exists coins, row = LearningSessionEdit.patch updateData coins s0
  | (Returned None, _) => False
  | (Thrown msg, d) => msg = "Task or difficulty not found"%string /\ d = db
  end.
Proof.
  intros Hs0.
  destruct (LearningSessionEdit.update sessionId updateData db)
    as [[[row | ] | msg] d] eqn:Hrun.
  - pose proof Hrun as Hrun'. revert Hrun'.
    unfold LearningSessionEdit.update.
    assert (Hwrite : forall coins,
              (updated <- LearningSessionEdit.update_where sessionId
                            (LearningSessionEdit.patch updateData coins) ;;
               ret (hd_error updated)) db = (Returned (Some row), d) ->
              exists coins, row = LearningSessionEdit.patch updateData coins s0).
    { intros coins H. apply write_first in H.
      destruct H as [_ [s1 [Hs1 [_ [_ Hrow]]]]].
      exists coins. congruence. }
    destruct (_ || _); [ | apply Hwrite].
    unfold bind at 1. rewrite findById_run, Hs0. cbv beta iota.
    unfold bind at 1, select at 1. unfold bind at 1, select at 1.
    destruct (hd_error (filter _ (task_definitions db))) as [task | ];
      [ | discriminate].
    destruct (hd_error (filter _ (difficulties db))) as [difficulty | ];
      [ | discriminate].
    apply Hwrite.
  - revert Hrun. unfold LearningSessionEdit.update.
    assert (Hwrite : forall coins,
              (updated <- LearningSessionEdit.update_where sessionId
                            (LearningSessionEdit.patch updateData coins) ;;
               ret (hd_error updated)) db = (Returned None, d) -> False).
    { intros coins. unfold bind, LearningSessionEdit.update_where. cbn [ret].
      rewrite hd_error_map, Hs0. discriminate. }
    destruct (_ || _); [ | apply Hwrite].
    unfold bind at 1. rewrite findById_run, Hs0. cbv beta iota.
    unfold bind at 1, select at 1. unfold bind at 1, select at 1.
    destruct (hd_error (filter _ (task_definitions db))) as [task | ];
      [ | discriminate].
    destruct (hd_error (filter _ (difficulties db))) as [difficulty | ];
      [ | discriminate].
    apply Hwrite.
  - apply (update_throws _ _ _ _ _ Hrun).
Qed.

End SessionHandlers.

(** X24.  The session handlers let a user edit own sessions only.  For an id
    that is not stored, [update] and [delete] answer 404 'Session not found';
    for a session of another user, 403 'Access denied'; in both cases
    nothing changes.  For a session of the caller, [delete] succeeds and
    removes it; [update] either succeeds with a row that is still the
    caller's, or is rejected and changes nothing; rejected with 400, for a
    task or difficulty that is not in the catalog, its message is 'Invalid
    task or difficulty ID'. *)
Theorem session_handlers_respect_ownership :
  forall user sessionId db,
    (SessionController.owner_of sessionId db = None ->
     SessionController.delete user sessionId db
     = (Http.Rejected 404 "Session not found", db)
     /\ forall body,
          SessionController.update user sessionId body db
          = (Http.Rejected 404 "Session not found", db))
    /\ (forall owner,
          SessionController.owner_of sessionId db = Some owner ->
          owner <> Http.user_id user ->
          SessionController.delete user sessionId db
          = (Http.Rejected 403 "Access denied", db)
          /\ forall body,
               SessionController.update user sessionId body db
               = (Http.Rejected 403 "Access denied", db))
    /\ (SessionController.owner_of sessionId db = Some (Http.user_id user) ->
        SessionController.delete user sessionId db
        = (Http.Success tt "Session deleted successfully",
           run_db (LearningSessionEdit.delete sessionId) db)
        /\ forall body,
             match SessionController.update user sessionId body db with
             | (Http.Success row _, d) =>
                 Session.user_id row = Http.user_id user
                 /\ Session.session_id row = sessionId
                 /\ LearningSessionEdit.edited sessionId db d
             | (Http.Rejected statusCode message, d) =>
                 d = db
                 /\ (statusCode = 400%Z ->
                     message = "Invalid task or difficulty ID"%string)
             | (Http.Created _ _, _) => False
             end).
Proof.
  intros user sessionId db. unfold SessionController.owner_of.
  split; [ | split].
  - intros Hnone.
    destruct (hd_error _) as [s0 | ] eqn:Hs0; [discriminate | ].
    split; [ | intros body];
      unfold SessionController.delete, SessionController.update,
        Http.asyncHandler, Http.and_then;
      rewrite owned_session_run, Hs0; reflexivity.
  - intros owner Hsome Hother.
    destruct (hd_error _) as [s0 | ] eqn:Hs0; [ | discriminate].
    cbn in Hsome. injection Hsome as Hsome.
    assert (Hne : String.eqb (Session.user_id s0) (Http.user_id user) = false).
    { destruct (String.eqb_spec (Session.user_id s0) (Http.user_id user));
        [congruence | reflexivity]. }
    split; [ | intros body];
      unfold SessionController.delete, SessionController.update,
        Http.asyncHandler, Http.and_then;
      rewrite owned_session_run, Hs0, Hne; reflexivity.
  - intros Hsome.
    destruct (hd_error _) as [s0 | ] eqn:Hs0; [ | discriminate].
    cbn in Hsome. injection Hsome as Hsome.
    assert (Heq : String.eqb (Session.user_id s0) (Http.user_id user) = true).
    { rewrite Hsome. apply String.eqb_refl. }
    split.
    + unfold SessionController.delete, Http.asyncHandler, Http.and_then.
      rewrite owned_session_run, Hs0, Heq. unfold Http.lift, run_db.
      rewrite delete_run.
      assert (Hstored : LearningSessionEdit.stored sessionId db = true).
      { unfold LearningSessionEdit.stored.
        destruct (existsb _ _) eqn:E; [reflexivity | ].
        rewrite (hd_error_filter_none _ _ E) in Hs0. discriminate. }
      rewrite Hstored. reflexivity.
    + intros body.
      unfold SessionController.update, Http.asyncHandler, Http.and_then.
      rewrite owned_session_run, Hs0, Heq. unfold Http.catch, Http.lift.
      match goal with
      | |- context [LearningSessionEdit.update sessionId ?data db] =>
          pose proof (update_of_stored sessionId data db s0 Hs0) as Hupdate;
          pose proof (update_edits sessionId data db db
                        (edited_refl sessionId db)) as Hedited;
          destruct (LearningSessionEdit.update sessionId data db)
            as [[[row | ] | msg] d]
      end.
      * cbn. destruct Hupdate as [coins ->]. cbn.
        split; [exact Hsome | ]. split; [ | exact Hedited].
        apply hd_error_filter_In in Hs0. destruct Hs0 as [_ Hid].
        apply String.eqb_eq in Hid. exact Hid.
      * destruct Hupdate.
      * destruct Hupdate as [-> ->]. cbn. repeat split.
Qed.

(** X24 on the sample: Bob may not delete Alice's session s1; Alice may. *)
Lemma session_handlers_respect_ownership_witness :
  SessionController.delete {| Http.user_id := "bob"; Http.role := "user" |} "s0"
    Sample5.two_today
  = (Http.Rejected 404 "Session not found", Sample5.two_today)
  /\ SessionController.delete {| Http.user_id := "bob"; Http.role := "user" |} "s1"
       Sample5.two_today
     = (Http.Rejected 403 "Access denied", Sample5.two_today)
  /\ SessionController.delete {| Http.user_id := "alice"; Http.role := "user" |} "s1"
       Sample5.two_today
     = (Http.Success tt "Session deleted successfully",
        run_db (LearningSessionEdit.delete "s1") Sample5.two_today).
Proof.
  split; [ | split].
  - apply (proj1 (session_handlers_respect_ownership
                    {| Http.user_id := "bob"; Http.role := "user" |} "s0"
                    Sample5.two_today)).
    reflexivity.
  - apply (proj1 (proj2 (session_handlers_respect_ownership
                           {| Http.user_id := "bob"; Http.role := "user" |} "s1"
                           Sample5.two_today)) "alice"%string).
    + reflexivity.
    + discriminate.
  - apply (proj2 (proj2 (session_handlers_respect_ownership
                           {| Http.user_id := "alice"; Http.role := "user" |} "s1"
                           Sample5.two_today))).
    reflexivity.
Defined.

(** X25.  The [create] handler stores the session for the caller.  When it
    answers 201, the row of the answer carries the caller's id, whatever the
    body, and is the one row the session table has gained, and the ledger
    has grown by rows of the caller only.  When it answers 400, the message
    is 'Invalid task or difficulty ID' and nothing was stored.  It never
    answers 200. *)
Theorem create_handler_stores_for_caller :
  forall sessionId now earned_now user task_id difficulty_id session_date
         focus_time_minutes result_quantity notes metadata db,
    match SessionController.create sessionId now earned_now user task_id
            difficulty_id session_date focus_time_minutes result_quantity notes
            metadata db with
    | (Http.Created row message, d) =>
        message = "Learning session created successfully"%string
        /\ Session.user_id row = Http.user_id user
        /\ Session.session_id row = sessionId
        /\ learning_sessions d = learning_sessions db ++ [row]
        /\ Frame.grown_for (Http.user_id user) db d
    | (Http.Rejected statusCode message, d) =>
        statusCode = 400%Z ->
        message = "Invalid task or difficulty ID"%string /\ d = db
    | (Http.Success _ _, _) => False
    end.
Proof.
  intros sessionId now earned_now user task_id difficulty_id session_date
    focus_time_minutes result_quantity notes metadata db.
  unfold SessionController.create, Http.asyncHandler, Http.catch, Http.and_then,
    Http.lift.
  match goal with
  | |- context [LearningSessionModel.create sessionId now earned_now ?data db] =>
      pose proof (create_run sessionId now earned_now data db) as Hcreate;
      destruct (CoinCalculationEngine.calculateCoins
                  (LearningSessionModel.calculation_input data) db)
        as [[r | msg] d0] eqn:Hcalc
  end.
  - destruct Hcreate as [row [d [Hrun [Hsessions [Hid [Huser [_ [_ [_ Hgrown]]]]]]]]].
    rewrite Hrun. cbn. repeat split; assumption.
  - rewrite Hcreate.
    destruct (calculateCoins_throws _ _ _ _ Hcalc) as [_ [[-> _] | [-> _]]];
      cbn; repeat split.
Qed.

(* --------------------------------------------------------------------- *)
(** ** The study streak of the analytics *)
(* --------------------------------------------------------------------- *)

Section StudyStreak.
Import CoinCalculationEngine AnalyticsService.

Lemma study_walk_counting today : forall recent i streak,
  (0 < streak)%Z ->
  study_walk today i streak recent = walk_back today streak recent.
Proof.
  induction recent as [ | d rest IH]; intros i streak Hpos; [reflexivity | ].
  cbn [study_walk walk_back].
  destruct (d =? today - streak)%Z.
  - apply IH. lia.
  - assert (Hz : (streak =? 0)%Z = false) by (apply Z.eqb_neq; lia).
    rewrite Hz. reflexivity.
Qed.

Lemma descending_head_max d rest :
  Streak.descending (d :: rest) -> forall y, In y (d :: rest) -> (y <= d)%Z.
Proof.
  intros [Hd _] y [<- | Hy]; [lia | ]. specialize (Hd y Hy). lia.
Qed.

End StudyStreak.

(** X26.  [getStudyStreak] only reads.  With a completed session today it
    returns the number of days in a row up to today (looking back 100
    dates); when the latest day with a completed session is yesterday it
    returns 1, however long the run up to yesterday was; otherwise it
    returns 0. *)
Theorem study_streak_restarts_after_a_missed_day :
  forall now userId db,
    let today := CoinDecayService.day_of now in
    exists streak,
      AnalyticsService.getStudyStreak now userId db = (Returned streak, db)
      /\ streak
         = match AnalyticsService.study_days userId db with
           | [] => 0%Z
           | latest :: _ =>
               if (latest =? today)%Z
               then Streak.run_before (Streak.learned_on userId db) (today + 1) 100
               else if (latest =? today - 1)%Z then 1%Z else 0%Z
           end.
Proof.
  intros now userId db today.
  unfold AnalyticsService.getStudyStreak, bind, select. fold today.
  pose proof (distinct_desc_descending
                (map Session.session_date
                   (filter (CoinCalculationEngine.completed_of userId)
                      (learning_sessions db)))) as Hdesc.
  fold (AnalyticsService.study_days userId db) in Hdesc.
  assert (Hhas : forall y,
            Streak.has_date (AnalyticsService.study_days userId db) y
            = Streak.learned_on userId db y).
  { intros y. symmetry. apply learned_on_has_date. }
  destruct (AnalyticsService.study_days userId db) as [ | latest rest] eqn:Hdays.
  - eexists. split; reflexivity.
  - cbn [firstn List.length Nat.eqb ret].
    eexists. split; [reflexivity | ].
    cbn [AnalyticsService.study_walk]. rewrite Z.sub_0_r.
    destruct (latest =? today)%Z eqn:Hlatest.
    + apply Z.eqb_eq in Hlatest. subst latest.
      rewrite study_walk_counting by lia.
      transitivity (CoinCalculationEngine.walk_back today 0
                      (firstn 100 (today :: rest))).
      { cbn [firstn CoinCalculationEngine.walk_back].
        rewrite Z.sub_0_r, Z.eqb_refl. reflexivity. }
      rewrite walk_back_counts_run.
      * rewrite Z.sub_0_r, Z.add_0_l. apply run_before_ext.
        intros y _. apply Hhas.
      * exact Hdesc.
      * intros y Hy. rewrite Z.sub_0_r. apply (descending_head_max _ _ Hdesc y Hy).
    + cbn [Z.eqb Nat.eqb andb]. reflexivity.
Qed.

(* --------------------------------------------------------------------- *)
(** ** The scheduler *)
(* --------------------------------------------------------------------- *)

Section SchedulerFacts.
Import Scheduler.

Lemma after_registers calls : forall s,
  scheduled (after calls s)
  = scheduled s ++ registered (isSchedulerRunning s) calls.
Proof.
  induction calls as [ | c calls IH]; intros s; cbn.
  - rewrite app_nil_r. reflexivity.
  - rewrite IH. destruct c; cbn.
    + unfold startScheduler. destruct (isSchedulerRunning s) eqn:Hs; cbn.
      * rewrite Hs. reflexivity.
      * rewrite <- app_assoc. reflexivity.
    + reflexivity.
Qed.

Lemma restarts_register k : forall s,
  isSchedulerRunning s = false ->
  List.length (scheduled (after (List.concat (repeat [start; stop] k)) s))
  = (List.length (scheduled s) + 2 * k)%nat
  /\ isSchedulerRunning (after (List.concat (repeat [start; stop] k)) s) = false.
Proof.
  induction k as [ | k IH]; intros s Hs.
  - cbn. split; [lia | exact Hs].
  - cbn [repeat List.concat app]. unfold after in *. cbn [fold_left call].
    assert (Hstep : stopScheduler (startScheduler s)
                    = {| isSchedulerRunning := false;
                         scheduled := scheduled s
                                      ++ [("0 2 * * *"%string, daily);
                                          ("0 * * * *"%string, hourly)] |}).
    { unfold startScheduler, stopScheduler. rewrite Hs. reflexivity. }
    rewrite Hstep.
    match goal with
    | |- context [fold_left call _ ?s'] =>
        destruct (IH s' eq_refl) as [Hlen Hflag]
    end.
    split; [ | exact Hflag].
    rewrite Hlen. cbn [scheduled]. rewrite length_app. cbn. lia.
Qed.

End SchedulerFacts.

(** X27.  [stopScheduler] only clears the flag: the tasks registered with
    cron stay, and keep firing.  Every [startScheduler] that finds the flag
    cleared registers the two tasks again, and none is ever removed: after
    [k] rounds of start and stop, [2 * k] tasks are registered, and no round
    leaves the flag set. *)
Theorem stop_keeps_tasks_restart_adds_them_again :
  (forall s, Scheduler.scheduled (Scheduler.stopScheduler s) = Scheduler.scheduled s)
  /\ (forall calls s,
        exists more,
          Scheduler.scheduled (Scheduler.after calls s)
          = Scheduler.scheduled s ++ more)
  /\ (forall k,
        List.length
          (Scheduler.scheduled
             (Scheduler.after
                (List.concat (repeat [Scheduler.start; Scheduler.stop] k))
                Scheduler.initial))
        = (2 * k)%nat
        /\ Scheduler.isSchedulerRunning
             (Scheduler.after
                (List.concat (repeat [Scheduler.start; Scheduler.stop] k))
                Scheduler.initial) = false).
Proof.
  split; [reflexivity | split].
  - intros calls s. eexists. apply after_registers.
  - intros k. apply (restarts_register k Scheduler.initial eq_refl).
Qed.

(* --------------------------------------------------------------------- *)
(** ** The ranking *)
(* --------------------------------------------------------------------- *)

Section RankingFacts.
Import Ranking.

Lemma balances_snoc ledger e :
  balances (ledger ++ [e])
  = upsert (Ledger.user_id e) (Ledger.balance_after e) (balances ledger).
Proof. unfold balances. rewrite fold_left_app. reflexivity. Qed.

Lemma peak_upsert userId u b groups :
  peak userId (upsert u b groups)
  = if String.eqb u userId
    then Some match peak userId groups with
              | Some p => Qmax p b
              | None => b
              end
    else peak userId groups.
Proof.
  induction groups as [ | [u' b'] rest IH]; cbn.
  - rewrite String.eqb_sym. destruct (String.eqb u userId); reflexivity.
  - destruct (String.eqb_spec u' u) as [-> | Hne]; cbn.
    + destruct (String.eqb u userId); reflexivity.
    + rewrite IH. destruct (String.eqb_spec u' userId) as [-> | Hne'].
      * destruct (String.eqb_spec u userId) as [-> | _];
          [contradiction Hne; reflexivity | reflexivity].
      * reflexivity.
Qed.

Lemma Qmax_keeps (p b : Q) : b <= p -> Qmax p b = p.
Proof.
  intros H. unfold Qmax, GenericMinMax.gmax.
  destruct (p ?= b) eqn:E; try reflexivity.
  apply Qlt_alt in E. exfalso. apply (Qlt_not_le _ _ E H).
Qed.

Lemma upsert_keeps userId b groups p :
  peak userId groups = Some p -> b <= p -> upsert userId b groups = groups.
Proof.
  induction groups as [ | [u' b'] rest IH]; cbn; [discriminate | ].
  destruct (String.eqb u' userId).
  - intros H Hb. injection H as ->. rewrite (Qmax_keeps _ _ Hb). reflexivity.
  - intros H Hb. rewrite (IH H Hb). reflexivity.
Qed.

(** The peak of a user is at least the [balance_after] of each row of the
    user, and there is one as soon as the user has a row. *)
Lemma peak_covers userId ledger :
  match peak userId (balances ledger) with
  | Some p =>
      Spec.entries_of userId ledger <> []
      /\ forall e, In e (Spec.entries_of userId ledger) -> Ledger.balance_after e <= p
  | None => Spec.entries_of userId ledger = []
  end.
Proof.
  induction ledger as [ | e ledger IH] using rev_ind; [reflexivity | ].
  rewrite balances_snoc, peak_upsert, entries_of_snoc.
  destruct (String.eqb (Ledger.user_id e) userId) eqn:Hu.
  - destruct (peak userId (balances ledger)) as [p | ].
    + destruct IH as [_ IH]. split.
      * intros H. apply app_eq_nil in H. destruct H as [_ H]. discriminate.
      * intros e' He'. apply in_app_or in He'. destruct He' as [He' | [<- | []]].
        -- apply (Qle_trans _ p); [apply IH; exact He' | apply Q.le_max_l].
        -- apply Q.le_max_r.
    + rewrite IH. split; [discriminate | ].
      intros e' [<- | []]. apply Qle_refl.
  - rewrite app_nil_r. exact IH.
Qed.

Lemma insert_by_balance_In g l x :
  In x (insert_by_balance g l) <-> x = g \/ In x l.
Proof.
  induction l as [ | y l IH]; cbn.
  - split; [intros [<- | []]; left; reflexivity | intros [-> | []]; left; reflexivity].
  - destruct (Qle_bool (snd y) (snd g)); cbn.
    + split; [intros [<- | H]; [left; reflexivity | right; exact H]
             | intros [-> | H]; [left; reflexivity | right; exact H]].
    + rewrite IH. split.
      * intros [<- | [-> | H]]; [right; left; reflexivity | left; reflexivity
                                 | right; right; exact H].
      * intros [-> | [<- | H]]; [right; left; reflexivity | left; reflexivity
                                 | right; right; exact H].
Qed.

Lemma insert_by_balance_length g l :
  List.length (insert_by_balance g l) = S (List.length l).
Proof.
  induction l as [ | y l IH]; cbn; [reflexivity | ].
  destruct (Qle_bool (snd y) (snd g)); cbn; [reflexivity | ].
  rewrite IH. reflexivity.
Qed.

Lemma by_balance_desc_In l x : In x (by_balance_desc l) <-> In x l.
Proof.
  induction l as [ | g l IH]; cbn; [reflexivity | ].
  rewrite insert_by_balance_In, IH. split; intros [H | H]; auto.
Qed.

Lemma by_balance_desc_length l : List.length (by_balance_desc l) = List.length l.
Proof.
  unfold by_balance_desc. induction l as [ | g l IH]; [reflexivity | ].
  cbn [fold_right List.length]. rewrite insert_by_balance_length, IH. reflexivity.
Qed.

Lemma findIndex_range {A} (p : A -> bool) (l : list A) :
  if existsb p l
  then (0 <= findIndex p l < Z.of_nat (List.length l))%Z
  else findIndex p l = (-1)%Z.
Proof.
  induction l as [ | x l IH]; [reflexivity | ].
  cbn [existsb findIndex List.length]. destruct (p x); cbn [orb]; [lia | ].
  destruct (existsb p l).
  - destruct (findIndex p l <? 0)%Z eqn:E; [apply Z.ltb_lt in E; lia | lia].
  - rewrite IH. reflexivity.
Qed.

Lemma peak_listed userId groups :
  existsb (fun u => String.eqb (fst u) userId) groups
  = match peak userId groups with Some _ => true | None => false end.
Proof.
  induction groups as [ | [u b] rest IH]; [reflexivity | ].
  cbn. destruct (String.eqb u userId); [reflexivity | exact IH].
Qed.

Lemma existsb_same {A} (p : A -> bool) (l l' : list A) :
  (forall x, In x l <-> In x l') -> existsb p l = existsb p l'.
Proof.
  intros H. destruct (existsb p l') eqn:E.
  - apply existsb_exists in E. destruct E as [x [Hx Hp]].
    apply existsb_exists. exists x. split; [apply H; exact Hx | exact Hp].
  - destruct (existsb p l) eqn:E'; [ | reflexivity].
    apply existsb_exists in E'. destruct E' as [x [Hx Hp]].
    assert (existsb p l' = true).
    { apply existsb_exists. exists x. split; [apply H; exact Hx | exact Hp]. }
    congruence.
Qed.

Lemma round_range (x : Q) : 0 <= x -> x <= 10000 -> 0 <= round x /\ round x <= 10000.
Proof.
  intros H0 H1. unfold round, Js.floor. split.
  - change 0 with (inject_Z 0). rewrite <- Zle_Qle.
    change 0%Z with (Qfloor 0). apply Qfloor_resp_le.
    apply (Qle_trans _ (0 + (1 # 2))); [discriminate | ].
    apply Qplus_le_compat; [exact H0 | apply Qle_refl].
  - change 10000 with (inject_Z 10000). rewrite <- Zle_Qle.
    change 10000%Z with (Qfloor (10000 + (1 # 2))). apply Qfloor_resp_le.
    apply Qplus_le_compat; [exact H1 | apply Qle_refl].
Qed.

End RankingFacts.

(** X28.  [getUserRanking] only reads.  It counts every user by the highest
    balance any row of the user ever showed, not by the current balance.  A
    user without rows is ranked one past the last, [totalUsers + 1], with
    percentile 0; a user with rows gets a rank from 1 to [totalUsers] and a
    percentile from 0 to 100. *)
Theorem ranking_counts_peak_balance :
  forall userId db,
    exists r,
      Ranking.getUserRanking userId db = (Returned r, db)
      /\ Ranking.totalUsers r
         = Z.of_nat (List.length (Ranking.balances (coin_ledger db)))
      /\ match Ranking.peak userId (Ranking.balances (coin_ledger db)) with
         | None =>
             Spec.entries_of userId (coin_ledger db) = []
             /\ Ranking.rank r = (Ranking.totalUsers r + 1)%Z
             /\ Ranking.percentile r == 0
         | Some p =>
             (forall e, In e (Spec.entries_of userId (coin_ledger db)) ->
                        Ledger.balance_after e <= p)
             /\ (1 <= Ranking.rank r <= Ranking.totalUsers r)%Z
             /\ 0 <= Ranking.percentile r
             /\ Ranking.percentile r <= 100
         end.
Proof.
  intros userId db. unfold Ranking.getUserRanking, bind, select. cbn [ret].
  eexists. split; [reflexivity | ].
  cbn [Ranking.totalUsers Ranking.rank Ranking.percentile].
  rewrite by_balance_desc_length. split; [reflexivity | ].
  pose proof (findIndex_range (fun u => String.eqb (fst u) userId)
                (Ranking.by_balance_desc (Ranking.balances (coin_ledger db))))
    as Hidx.
  rewrite (existsb_same _ _ (Ranking.balances (coin_ledger db))
             (by_balance_desc_In _)) in Hidx.
  rewrite peak_listed, by_balance_desc_length in Hidx.
  pose proof (peak_covers userId (coin_ledger db)) as Hpeak.
  set (T := Z.of_nat (List.length (Ranking.balances (coin_ledger db)))) in *.
  set (i := Ranking.findIndex _ _) in *.
  destruct (Ranking.peak userId (Ranking.balances (coin_ledger db))) as [p | ].
  - destruct Hpeak as [_ Hpeak]. split; [exact Hpeak | ].
    assert (Hne : (i + 1 =? 0)%Z = false) by (apply Z.eqb_neq; lia).
    assert (Hpos : (i + 1 >? 0)%Z = true) by (apply Z.gtb_lt; lia).
    rewrite Hne, Hpos. split; [lia | ].
    assert (HT : 0 < inject_Z T).
    { change 0 with (inject_Z 0). rewrite <- Zlt_Qlt. lia. }
    assert (Hx0 : 0 <= inject_Z (T - (i + 1) + 1) / inject_Z T * 100 * 100).
    { apply Qmult_le_0_compat; [ | discriminate].
      apply Qmult_le_0_compat; [ | discriminate].
      apply Qle_shift_div_l; [exact HT | ]. rewrite Qmult_0_l.
      change 0 with (inject_Z 0). rewrite <- Zle_Qle. lia. }
    assert (Hx1 : inject_Z (T - (i + 1) + 1) / inject_Z T * 100 * 100 <= 10000).
    { apply (Qle_trans _ (1 * 100 * 100)); [ | discriminate].
      apply Qmult_le_compat_r; [ | discriminate].
      apply Qmult_le_compat_r; [ | discriminate].
      apply Qle_shift_div_r; [exact HT | ]. rewrite Qmult_1_l.
      rewrite <- Zle_Qle. lia. }
    destruct (round_range _ Hx0 Hx1) as [Hr0 Hr1]. split.
    + apply Qle_shift_div_l; [reflexivity | ]. rewrite Qmult_0_l. exact Hr0.
    + apply Qle_shift_div_r; [reflexivity | ]. exact Hr1.
  - split; [exact Hpeak | ]. rewrite Hidx. cbn. split; reflexivity.
Qed.

Section RankingDebits.
Import Ranking.

Lemma closing_is_a_row prev l :
  l <> [] -> exists e, In e l /\ Spec.closing prev l = Ledger.balance_after e.
Proof.
  intros Hl. destruct l as [ | x l] using rev_ind; [contradiction Hl; reflexivity | ].
  exists x. split; [apply in_or_app; right; left; reflexivity | apply closing_snoc].
Qed.

Lemma debit_keeps_balances userId amount changeType sourceType referenceId
    description metadata db :
  amount <= 0 ->
  Spec.entries_of userId (coin_ledger db) <> [] ->
  balances
    (coin_ledger
       (run_db (CoinCalculationEngine.recordCoinTransaction userId amount changeType
                  sourceType referenceId description metadata) db))
  = balances (coin_ledger db).
Proof.
  intros Hamount Hrows.
  destruct (record_appends userId amount changeType sourceType referenceId
              description metadata db) as [b [Hb Hrun]].
  unfold run_db. rewrite Hrun. cbn [snd Rows.append with_ledger coin_ledger].
  rewrite balances_snoc. cbn [Rows.appended Ledger.user_id Ledger.balance_after].
  pose proof (peak_covers userId (coin_ledger db)) as Hpeak.
  destruct (peak userId (balances (coin_ledger db))) as [p | ] eqn:Hp;
    [ | contradiction].
  destruct Hpeak as [_ Hpeak].
  apply (upsert_keeps _ _ _ p Hp).
  destruct (closing_is_a_row 0 _ Hrows) as [e [He Hclosing]].
  unfold Spec.currentBalance in Hb. rewrite Hclosing in Hb.
  apply (Qle_trans _ (b + 0)).
  - apply Qplus_le_compat; [apply Qle_refl | exact Hamount].
  - rewrite Qplus_0_r, Hb. apply Hpeak. exact He.
Qed.

End RankingDebits.

(** X29.  A debit never changes the ranking.  When a user who has rows is
    debited (an amount that is not positive: a redemption, a decay, a
    penalty), the balances the ranking counts are the same after the write,
    for every user, and so is what [getUserRanking] returns.  In
    particular [redeemReward] of a cost that is not negative never changes
    anyone's rank, whether it succeeds or not. *)
Theorem debit_never_changes_ranking :
  forall userId db,
    Spec.entries_of userId (coin_ledger db) <> [] ->
    (forall amount changeType sourceType referenceId description metadata,
       amount <= 0 ->
       let db' :=
         run_db (CoinCalculationEngine.recordCoinTransaction userId amount
                   changeType sourceType referenceId description metadata) db in
       Ranking.balances (coin_ledger db') = Ranking.balances (coin_ledger db)
       /\ forall anyone,
            run_out (Ranking.getUserRanking anyone) db'
            = run_out (Ranking.getUserRanking anyone) db)
    /\ (forall rewardId coinsCost description,
          0 <= coinsCost ->
          Ranking.balances
            (coin_ledger
               (run_db (CoinService.redeemReward userId rewardId coinsCost
                          description) db))
          = Ranking.balances (coin_ledger db)).
Proof.
  intros userId db Hrows. split.
  - intros amount changeType sourceType referenceId description metadata Hamount db'.
    pose proof (debit_keeps_balances userId amount changeType sourceType
                  referenceId description metadata db Hamount Hrows) as Hsame.
    fold db' in Hsame. split; [exact Hsame | ].
    intros anyone. unfold run_out, Ranking.getUserRanking, bind, select.
    cbn [ret fst]. rewrite Hsame. reflexivity.
  - intros rewardId coinsCost description Hcost.
    destruct (redeemReward_run userId rewardId coinsCost description db)
      as [b [Hb Hrun]].
    unfold run_db. rewrite Hrun.
    destruct (Qlt_le_dec b coinsCost); [reflexivity | ].
    cbn [snd Rows.append with_ledger coin_ledger].
    rewrite balances_snoc.
    cbn [Rows.appended Ledger.user_id Ledger.balance_after].
    pose proof (peak_covers userId (coin_ledger db)) as Hpeak.
    destruct (Ranking.peak userId (Ranking.balances (coin_ledger db))) as [p | ] eqn:Hp;
      [ | contradiction].
    destruct Hpeak as [_ Hpeak].
    apply (upsert_keeps _ _ _ p Hp).
    destruct (closing_is_a_row 0 _ Hrows) as [e [He Hclosing]].
    unfold Spec.currentBalance in Hb. rewrite Hclosing in Hb.
    apply (Qle_trans _ (b + 0)).
    + apply Qplus_le_compat; [apply Qle_refl | ].
      apply (Qopp_le_compat 0 coinsCost). exact Hcost.
    + rewrite Qplus_0_r, Hb. apply Hpeak. exact He.
Qed.

(** X29 on the sample: Alice earned 100 and spent them all; she still counts
    with 100, and another redemption of nothing changes nothing. *)
Lemma debit_never_changes_ranking_witness :
  Ranking.balances (coin_ledger Sample.spent_all) = [("alice"%string, 100)]
  /\ Ranking.balances
       (coin_ledger
          (run_db (CoinService.redeemReward "alice" "reward-2" 0 "nothing")
             Sample.spent_all))
     = Ranking.balances (coin_ledger Sample.spent_all).
Proof.
  split; [vm_compute; reflexivity | ].
  apply (proj2 (debit_never_changes_ranking "alice" Sample.spent_all
                  ltac:(vm_compute; discriminate))).
  discriminate.
Defined.

(* --------------------------------------------------------------------- *)
(** ** Redemption: the balance after *)
(* --------------------------------------------------------------------- *)


